(** * MIDIPiano: the MIDI input and output device wrappers

    A shallow embedding of [MIDIInDevice.cpp] and [MIDIOutDevice.cpp]
    (Leslie Sanford's [midi::CMIDIInDevice] and [midi::CMIDIOutDevice]),
    followed by the properties of the buffer life cycle, of the
    Closed/Open/Recording state machine and of the short-message packing.

    Integers of the program are modelled in [Z] with their wrap-around
    written out; calls into winmm and the kernel are recorded in a trace
    and answered by an arbitrary oracle, so that every statement holds for
    every behaviour of the driver. *)

From Stdlib Require Import ZArith List Bool Lia.
Import ListNotations.
Local Open Scope Z_scope.

(* ================================================================= *)
(** ** Machine integers and the constants of [midi.h] *)

Module Midi.

(** [DWORD]: 32-bit unsigned, conversion wraps modulo 2^32. *)
Definition to_DWORD (x : Z) : Z := x mod 2 ^ 32.

(** [static_cast<unsigned char>]: keeps the low eight bits. *)
Definition to_uchar (x : Z) : Z := x mod 2 ^ 8.

(** Modelled from the spec: [midi.h] is not part of the sources; it
    declares [SHORT_MSG_SHIFT], the distance in bits between two bytes
    of a packed short message (byte 0 is the status, byte 1 the first
    data byte, byte 2 the second one). *)
Definition SHORT_MSG_SHIFT : Z := 8.

(** Modelled from the spec: [midi.h] is not part of the sources; it
    declares [SHORT_MSG_MASK], which selects the channel (0..15) in the
    low nibble of the combined command/channel byte. *)
Definition SHORT_MSG_MASK : Z := 15.

Definition is_uchar (x : Z) : Prop := 0 <= x <= 255.
Definition is_data_byte (x : Z) : Prop := 0 <= x <= 127.
Definition is_channel (x : Z) : Prop := 0 <= x <= 15.

End Midi.

(* ================================================================= *)
(** ** Short messages *)

Module ShortMsg.
Import Midi.

(** [CMIDIOutDevice::PackShortMsg(DWORD &Msg, unsigned char Status,
    unsigned char DataByte1, unsigned char DataByte2)].  The result is
    the value left in [Msg]. *)
Definition PackShortMsg (Status DataByte1 DataByte2 : Z) : Z :=
  let Msg := to_DWORD Status in
  let Msg := to_DWORD (Z.lor Msg (Z.shiftl DataByte1 SHORT_MSG_SHIFT)) in
  let Msg := to_DWORD (Z.lor Msg (Z.shiftl DataByte2 SHORT_MSG_SHIFT)) in
  Msg.

(** [CMIDIOutDevice::PackShortMsg(DWORD &Msg, unsigned char Command,
    unsigned char Channel, unsigned char DataByte1,
    unsigned char DataByte2)]. *)
Definition PackShortMsg_channel
           (Command Channel DataByte1 DataByte2 : Z) : Z :=
  let Msg := to_DWORD (Z.lor Command Channel) in
  let Msg := to_DWORD (Z.lor Msg (Z.shiftl DataByte1 SHORT_MSG_SHIFT)) in
  let Msg :=
    to_DWORD (Z.lor Msg (Z.shiftl DataByte2 (SHORT_MSG_SHIFT * 2))) in
  Msg.

(** [CMIDIInDevice::UnpackShortMsg(DWORD Msg, unsigned char &Status,
    unsigned char &DataByte1, unsigned char &DataByte2)]; the three
    output references are returned as a triple. *)
Definition UnpackShortMsg (Msg : Z) : Z * Z * Z :=
  let Status := to_uchar Msg in
  let DataByte1 := to_uchar (Z.shiftr Msg SHORT_MSG_SHIFT) in
  let DataByte2 := to_uchar (Z.shiftr Msg (SHORT_MSG_SHIFT * 2)) in
  (Status, DataByte1, DataByte2).

(** [CMIDIInDevice::UnpackShortMsg(DWORD Msg, unsigned char &Command,
    unsigned char &Channel, unsigned char &DataByte1,
    unsigned char &DataByte2)]. *)
Definition UnpackShortMsg_channel (Msg : Z) : Z * Z * Z * Z :=
  let Command := to_uchar (Z.land Msg (Z.lnot SHORT_MSG_MASK)) in
  let Channel := to_uchar (Z.land Msg SHORT_MSG_MASK) in
  let DataByte1 := to_uchar (Z.shiftr Msg SHORT_MSG_SHIFT) in
  let DataByte2 := to_uchar (Z.shiftr Msg (SHORT_MSG_SHIFT * 2)) in
  (Command, Channel, DataByte1, DataByte2).

End ShortMsg.

(* ================================================================= *)
(** ** C++ exceptions *)

Module Cpp.

(** The classes that are thrown, or named by a [catch] clause, in the
    two translation units. *)
Inductive Class : Type :=
| std_exception
| std_bad_alloc
| CMIDIInException
| CMIDIInMemFailure
| CMIDIInEventFailure
| CMIDIInThreadFailure
| CMIDIInDevice
| CMIDIOutException
| CMIDIOutMemFailure
| CMIDIOutEventFailure
| CMIDIOutThreadFailure
| CMIDIOutDevice.

Definition Class_eqb (a b : Class) : bool :=
  match a, b with
  | std_exception, std_exception
  | std_bad_alloc, std_bad_alloc
  | CMIDIInException, CMIDIInException
  | CMIDIInMemFailure, CMIDIInMemFailure
  | CMIDIInEventFailure, CMIDIInEventFailure
  | CMIDIInThreadFailure, CMIDIInThreadFailure
  | CMIDIInDevice, CMIDIInDevice
  | CMIDIOutException, CMIDIOutException
  | CMIDIOutMemFailure, CMIDIOutMemFailure
  | CMIDIOutEventFailure, CMIDIOutEventFailure
  | CMIDIOutThreadFailure, CMIDIOutThreadFailure
  | CMIDIOutDevice, CMIDIOutDevice => true
  | _, _ => false
  end.

(** The public base class of each class, as declared in the headers
    ([std::bad_alloc] derives from [std::exception]; the device classes
    have no base). *)
Definition base (c : Class) : option Class :=
  match c with
  | std_exception => None
  | std_bad_alloc => Some std_exception
  | CMIDIInException => Some std_exception
  | CMIDIInMemFailure => Some std_bad_alloc
  | CMIDIInEventFailure => Some std_exception
  | CMIDIInThreadFailure => Some std_exception
  | CMIDIInDevice => None
  | CMIDIOutException => Some std_exception
  | CMIDIOutMemFailure => Some std_bad_alloc
  | CMIDIOutEventFailure => Some std_exception
  | CMIDIOutThreadFailure => Some std_exception
  | CMIDIOutDevice => None
  end.

(** [derives_from n c h]: [c] is [h] or reaches it by at most [n] base
    steps.  The deepest chain of the headers has two steps. *)
Fixpoint derives_from (n : nat) (c h : Class) : bool :=
  Class_eqb c h ||
  match n with
  | O => false
  | S n' => match base c with
            | Some b => derives_from n' b h
            | None => false
            end
  end.

(** A handler [catch(const h &)] takes an exception of class [c]. *)
Definition catches (h c : Class) : bool := derives_from 2 c h.

(** A thrown object: its class, and the [MMRESULT] it was built from
    (the driver exceptions turn it into the message text of [what()];
    zero for the other classes). *)
Record Exn : Type := mkExn { exn_class : Class; exn_code : Z }.

End Cpp.

(* ================================================================= *)
(** ** The driver and kernel boundary *)

Module Win.

Definition MMSYSERR_NOERROR : Z := 0.
Definition NULL : Z := 0.

(** The calls that leave the program.  A [MIDIHDR] is passed as the
    buffer pointer and length it was initialised with. *)
Inductive Call : Type :=
| midiInOpen (DeviceId : Z)
| midiInClose (DevHandle : Z)
| midiInPrepareHeader (DevHandle lpData dwBufferLength : Z)
| midiInUnprepareHeader (DevHandle lpData dwBufferLength : Z)
| midiInAddBuffer (DevHandle lpData dwBufferLength : Z)
| midiInStart (DevHandle : Z)
| midiInReset (DevHandle : Z)
| midiOutOpen (DeviceId : Z)
| midiOutClose (DevHandle : Z)
| midiOutPrepareHeader (DevHandle lpData dwBufferLength : Z)
| midiOutUnprepareHeader (DevHandle lpData dwBufferLength : Z)
| midiOutLongMsg (DevHandle lpData dwBufferLength : Z)
| midiOutShortMsg (DevHandle Msg : Z)
| CreateThread
| CreateEvent
| SetEvent (hEvent : Z)
| CloseHandle (hObject : Z)
| operator_new.

(** What a call gives back: its return value ([MMRESULT], handle or
    [BOOL]) and, for the two open calls, the handle stored through the
    pointer argument. *)
Record Reply : Type := mkReply { ret : Z; out : Z }.

Definition Event : Type := (Call * Reply)%type.

(** The world outside the object: the calls made so far, oldest first,
    and the state of the kernel's auto-reset event objects. *)
Record World : Type := mkWorld {
  trace : list Event;
  signaled : Z -> bool
}.

Definition calls (w : World) : list Call := map fst (trace w).

(** The behaviour of the driver and kernel: the reply to a call may
    depend on everything that happened before. *)
Definition Oracle : Type := list Event -> Call -> Reply.

Definition set_signal (f : Z -> bool) (h : Z) (b : bool) : Z -> bool :=
  fun h' => if h' =? h then b else f h'.

(** Effect of a call on the event objects: [SetEvent] signals, and
    [CreateEvent(NULL, FALSE, FALSE, NULL)] creates a non-signaled one. *)
Definition kernel_effect (c : Call) (r : Reply) (f : Z -> bool)
  : Z -> bool :=
  match c with
  | SetEvent h => set_signal f h true
  | CreateEvent => set_signal f (ret r) false
  | _ => f
  end.

Definition do_call (os : Oracle) (c : Call) (w : World) : Reply * World :=
  let r := os (trace w) c in
  (r, {| trace := trace w ++ [(c, r)];
         signaled := kernel_effect c r (signaled w) |}).

Definition is_SetEvent (c : Call) : bool :=
  match c with SetEvent _ => true | _ => false end.

Definition is_open (c : Call) : bool :=
  match c with
  | midiInOpen _ | midiOutOpen _ => true
  | _ => false
  end.

(** No device is opened in a piece of trace. *)
Definition no_open (tr : list Event) : bool :=
  forallb (fun ev => negb (is_open (fst ev))) tr.

(** How many times the event is set in a piece of trace. *)
Definition count_SetEvent (tr : list Event) : nat :=
  length (filter (fun ev => is_SetEvent (fst ev)) tr).

(** An object together with the world it runs in. *)
Record Machine (Obj : Type) : Type := mkMachine {
  this : Obj;
  world : World
}.
Arguments mkMachine {Obj} _ _.
Arguments this {Obj} _.
Arguments world {Obj} _.

(** How a member function ends. *)
Inductive Outcome (A : Type) : Type :=
| Normal (a : A)
| Throw (e : Cpp.Exn).
Arguments Normal {A} _.
Arguments Throw {A} _.

(** Member functions: state passing with exceptions.  What was written
    before a [throw] stays written. *)
Definition M (Obj A : Type) : Type :=
  Machine Obj -> Outcome A * Machine Obj.

Definition mret {Obj A} (a : A) : M Obj A := fun m => (Normal a, m).

Definition bind {Obj A B} (c : M Obj A) (k : A -> M Obj B) : M Obj B :=
  fun m => match c m with
           | (Normal a, m') => k a m'
           | (Throw e, m') => (Throw e, m')
           end.

Definition throw {Obj A} (c : Cpp.Class) (code : Z) : M Obj A :=
  fun m => (Throw (Cpp.mkExn c code), m).

Definition rethrow {Obj A} (e : Cpp.Exn) : M Obj A :=
  fun m => (Throw e, m).

Definition get {Obj} : M Obj Obj := fun m => (Normal (this m), m).

Definition modify {Obj} (f : Obj -> Obj) : M Obj unit :=
  fun m => (Normal tt, mkMachine (f (this m)) (world m)).

Definition sys {Obj} (os : Oracle) (c : Call) : M Obj Reply :=
  fun m => let (r, w) := do_call os c (world m) in
           (Normal r, mkMachine (this m) w).

(** The first handler whose class takes the exception. *)
Fixpoint find_handler {H : Type} (hs : list (Cpp.Class * H))
         (e : Cpp.Exn) : option H :=
  match hs with
  | [] => None
  | (h, body) :: hs' =>
      if Cpp.catches h (Cpp.exn_class e) then Some body
      else find_handler hs' e
  end.

(** [try { c } catch(const h1 &) { .. } catch(const h2 &) { .. }]. *)
Definition try_catch {Obj A} (c : M Obj A)
           (hs : list (Cpp.Class * (Cpp.Exn -> M Obj A))) : M Obj A :=
  fun m => match c m with
           | (Normal a, m') => (Normal a, m')
           | (Throw e, m') =>
               match find_handler hs e with
               | Some body => body e m'
               | None => (Throw e, m')
               end
           end.

Declare Scope cpp_scope.
Delimit Scope cpp_scope with cpp.
Notation "x <- c ;; k" := (bind c (fun x => k))
  (at level 61, c at next level, right associativity) : cpp_scope.
Notation "c ;; k" := (bind c (fun _ => k))
  (at level 61, right associativity) : cpp_scope.

End Win.

(* ================================================================= *)
(** ** [MIDIInDevice.cpp] *)

Module MIDIIn.
Import Win.
Local Open Scope cpp_scope.

(** [enum State { CLOSED, OPENED, RECORDING }]. *)
Inductive State : Type := CLOSED | OPENED | RECORDING.

Definition State_eqb (a b : State) : bool :=
  match a, b with
  | CLOSED, CLOSED | OPENED, OPENED | RECORDING, RECORDING => true
  | _, _ => false
  end.

(** [CMIDIInHeader]: the device handle it was prepared for and the
    buffer of its [MIDIHDR]. *)
Record CMIDIInHeader : Type := mkHeader {
  hdr_DevHandle : Z;
  lpData : Z;
  dwBufferLength : Z
}.

(** The data members of [CMIDIInDevice]; [m_HdrQueue] is the
    [std::queue] of the [CHeaderQueue], front first. *)
Record CMIDIInDevice : Type := mkDevice {
  m_DevHandle : Z;
  m_Event : Z;
  m_Receiver : Z;
  m_HdrQueue : list CMIDIInHeader;
  m_State : State
}.

Definition with_DevHandle (h : Z) (d : CMIDIInDevice) : CMIDIInDevice :=
  mkDevice h (m_Event d) (m_Receiver d) (m_HdrQueue d) (m_State d).
Definition with_Event (e : Z) (d : CMIDIInDevice) : CMIDIInDevice :=
  mkDevice (m_DevHandle d) e (m_Receiver d) (m_HdrQueue d) (m_State d).
Definition with_HdrQueue (q : list CMIDIInHeader) (d : CMIDIInDevice)
  : CMIDIInDevice :=
  mkDevice (m_DevHandle d) (m_Event d) (m_Receiver d) q (m_State d).
Definition with_State (s : State) (d : CMIDIInDevice) : CMIDIInDevice :=
  mkDevice (m_DevHandle d) (m_Event d) (m_Receiver d) (m_HdrQueue d) s.

(** The unprepare call that destroying a header issues. *)
Definition unprepare_call (h : CMIDIInHeader) : Call :=
  midiInUnprepareHeader (hdr_DevHandle h) (lpData h) (dwBufferLength h).

(** Where the worker thread of [HeaderProc] stands. *)
Inductive WorkerPc : Type :=
| AtLoopTest   (* about to evaluate the [while] condition *)
| AtWait       (* inside [WaitForSingleObject] *)
| Finished.    (* returned 0 *)

Section WithOracle.
Variable os : Oracle.

Local Abbreviation M := (Win.M CMIDIInDevice).

(* ----- CMIDIInHeader ----- *)

(** [CMIDIInHeader::CMIDIInHeader]. *)
Definition CMIDIInHeader_ctor (DevHandle Buffer BufferLength : Z)
  : M CMIDIInHeader :=
  Result <- sys os (midiInPrepareHeader DevHandle Buffer BufferLength) ;;
  if negb (ret Result =? MMSYSERR_NOERROR)
  then throw Cpp.CMIDIInException (ret Result)
  else mret (mkHeader DevHandle Buffer BufferLength).

(** [new CMIDIInHeader(..)]: the allocation throws [std::bad_alloc]
    when the allocator gives nothing; a constructor that throws
    leaves no object (its destructor does not run). *)
Definition new_CMIDIInHeader (DevHandle Buffer BufferLength : Z)
  : M CMIDIInHeader :=
  p <- sys os operator_new ;;
  if ret p =? NULL
  then throw Cpp.std_bad_alloc 0
  else CMIDIInHeader_ctor DevHandle Buffer BufferLength.

(** [CMIDIInHeader::~CMIDIInHeader]: the result of the unprepare call
    is not looked at. *)
Definition CMIDIInHeader_dtor (h : CMIDIInHeader) : M unit :=
  _ <- sys os (unprepare_call h) ;;
  mret tt.

(** [delete Header]. *)
Definition delete (h : CMIDIInHeader) : M unit := CMIDIInHeader_dtor h.

(** [CMIDIInHeader::AddSysExBuffer]. *)
Definition CMIDIInHeader_AddSysExBuffer (h : CMIDIInHeader) : M unit :=
  Result <- sys os (midiInAddBuffer (hdr_DevHandle h) (lpData h)
                                    (dwBufferLength h)) ;;
  if negb (ret Result =? MMSYSERR_NOERROR)
  then throw Cpp.CMIDIInException (ret Result)
  else mret tt.

(* ----- CHeaderQueue (the critical section is not modelled: member
   functions run one at a time here) ----- *)

(** [CHeaderQueue::AddHeader]: [m_HdrQueue.push(Header)].  The push may
    need memory for the new element: the allocator is asked, and when it
    gives nothing [std::bad_alloc] leaves the function with the queue as
    it was.  (When the container still has room the real push does not
    ask; the oracle covers that case by answering.) *)
Definition AddHeader (Header : CMIDIInHeader) : M unit :=
  p <- sys os operator_new ;;
  if ret p =? NULL
  then throw Cpp.std_bad_alloc 0
  else modify (fun d => with_HdrQueue (m_HdrQueue d ++ [Header]) d).

(** [m_HdrQueue.pop()]. *)
Definition pop : M unit :=
  modify (fun d => with_HdrQueue (tl (m_HdrQueue d)) d).

(** [CHeaderQueue::RemoveHeader]. *)
Definition RemoveHeader : M unit :=
  d <- get ;;
  match m_HdrQueue d with
  | [] => mret tt
  | front :: _ => delete front ;; pop
  end.

(** The [while] loop of [CHeaderQueue::RemoveAll], for at most [n]
    iterations: each one tests [!m_HdrQueue.empty()], deletes the front
    and pops it. *)
Fixpoint RemoveAll_loop (n : nat) : M unit :=
  match n with
  | O => mret tt
  | S n' =>
      d <- get ;;
      match m_HdrQueue d with
      | [] => mret tt
      | front :: _ => delete front ;; pop ;; RemoveAll_loop n'
      end
  end.

(** [CHeaderQueue::RemoveAll].  The loop makes as many iterations as the
    queue has headers when it starts: with that bound it ends through
    its test, on an empty queue (see [RemoveAll_spec]). *)
Definition RemoveAll : M unit :=
  d <- get ;;
  RemoveAll_loop (length (m_HdrQueue d)).

(** [CHeaderQueue::IsEmpty]. *)
Definition IsEmpty : M bool :=
  d <- get ;;
  mret (match m_HdrQueue d with [] => true | _ => false end).

(* ----- CMIDIInDevice ----- *)

(** [CMIDIInDevice::StopRecording]. *)
Definition StopRecording : M unit :=
  d <- get ;;
  if State_eqb (m_State d) RECORDING then
    modify (with_State OPENED) ;;
    _ <- sys os (SetEvent (m_Event d)) ;;
    _ <- sys os (midiInReset (m_DevHandle d)) ;;
    RemoveAll
  else mret tt.

(** [CMIDIInDevice::Close]. *)
Definition Close : M unit :=
  d <- get ;;
  (if State_eqb (m_State d) RECORDING then StopRecording else mret tt) ;;
  d <- get ;;
  if State_eqb (m_State d) OPENED then
    Result <- sys os (midiInClose (m_DevHandle d)) ;;
    if negb (ret Result =? MMSYSERR_NOERROR)
    then throw Cpp.CMIDIInException (ret Result)
    else modify (with_State CLOSED)
  else mret tt.

(** [CMIDIInDevice::Open]: the driver stores the new handle through
    [&m_DevHandle]. *)
Definition Open (DeviceId : Z) : M unit :=
  Close ;;
  r <- sys os (midiInOpen DeviceId) ;;
  modify (with_DevHandle (out r)) ;;
  if ret r =? MMSYSERR_NOERROR
  then modify (with_State OPENED)
  else throw Cpp.CMIDIInException (ret r).

(** [CMIDIInDevice::AddSysExBuffer]. *)
Definition AddSysExBuffer (Buffer BufferLength : Z) : M unit :=
  d <- get ;;
  Header <-
    try_catch
      (new_CMIDIInHeader (m_DevHandle d) Buffer BufferLength)
      [ (Cpp.std_bad_alloc,
         fun _ => throw Cpp.CMIDIInMemFailure 0);
        (Cpp.CMIDIInDevice,
         fun e => rethrow e) ] ;;
  try_catch
    (CMIDIInHeader_AddSysExBuffer Header ;;
     AddHeader Header)
    [ (Cpp.CMIDIInDevice,
       fun e => delete Header ;; rethrow e) ].

(** [CMIDIInDevice::StartRecording]. *)
Definition StartRecording : M unit :=
  d <- get ;;
  if State_eqb (m_State d) OPENED then
    t <- sys os CreateThread ;;
    if ret t =? NULL then throw Cpp.CMIDIInThreadFailure 0
    else
      modify (with_State RECORDING) ;;
      Result <- sys os (midiInStart (m_DevHandle d)) ;;
      if negb (ret Result =? MMSYSERR_NOERROR) then
        modify (with_State OPENED) ;;
        _ <- sys os (SetEvent (m_Event d)) ;;
        throw Cpp.CMIDIInException (ret Result)
      else mret tt
  else mret tt.

(** [CMIDIInDevice::CreateEvent]. *)
Definition CreateEvent : M bool :=
  r <- sys os Win.CreateEvent ;;
  modify (with_Event (ret r)) ;;
  mret (negb (ret r =? NULL)).

(** [CMIDIInDevice::CMIDIInDevice(UINT DeviceId,
    CMIDIReceiver &Receiver)], run on the object under construction
    (see [under_construction]). *)
Definition CMIDIInDevice_ctor_open (DeviceId : Z) : M unit :=
  Open DeviceId ;;
  ok <- CreateEvent ;;
  if negb ok then
    Close ;;
    throw Cpp.CMIDIInEventFailure 0
  else mret tt.

(** [CMIDIInDevice::IsOpen] and [CMIDIInDevice::IsRecording]. *)
Definition IsOpen (d : CMIDIInDevice) : bool :=
  State_eqb (m_State d) OPENED || State_eqb (m_State d) RECORDING.
Definition IsRecording (d : CMIDIInDevice) : bool :=
  State_eqb (m_State d) RECORDING.

(** One step of the worker thread [CMIDIInDevice::HeaderProc].  In
    [AtWait] the thread proceeds only when the event is signaled, and
    consumes the signal (the event is auto-reset). *)
Definition HeaderProc_step (pc : WorkerPc)
  : Machine CMIDIInDevice -> WorkerPc * Machine CMIDIInDevice :=
  fun m =>
    match pc with
    | AtLoopTest =>
        if State_eqb (m_State (this m)) RECORDING
        then (AtWait, m) else (Finished, m)
    | AtWait =>
        let ev := m_Event (this m) in
        if signaled (world m) ev then
          let m1 := mkMachine (this m)
                      (mkWorld (trace (world m))
                               (set_signal (signaled (world m)) ev false))
          in
          if State_eqb (m_State (this m1)) RECORDING
          then (AtLoopTest, snd (RemoveHeader m1))
          else (AtLoopTest, m1)
        else (AtWait, m)
    | Finished => (Finished, m)
    end.

Fixpoint HeaderProc_run (n : nat) (pc : WorkerPc)
         (m : Machine CMIDIInDevice)
  : WorkerPc * Machine CMIDIInDevice :=
  match n with
  | O => (pc, m)
  | S n' => let (pc', m') := HeaderProc_step pc m in
            HeaderProc_run n' pc' m'
  end.

End WithOracle.

(** The object as the opening constructor finds it after its member
    initialisers: [m_Receiver(&Receiver)], [m_State(CLOSED)], an empty
    queue, and whatever the memory holds for the two handles. *)
Definition under_construction (DevHandle0 Event0 Receiver : Z)
  : CMIDIInDevice :=
  mkDevice DevHandle0 Event0 Receiver [] CLOSED.

(** The input handles open at the driver after the events of [tr],
    starting from the handles [hs]: [midiInOpen] adds the handle it
    stored when the driver accepts the call, [midiInClose] removes its
    handle when the driver accepts the call; a refused call changes
    nothing. *)
Fixpoint handles_after (hs : list Z) (tr : list Event) : list Z :=
  match tr with
  | [] => hs
  | (midiInOpen _, r) :: tr' =>
      handles_after (if ret r =? MMSYSERR_NOERROR then hs ++ [out r] else hs)
                    tr'
  | (midiInClose h, r) :: tr' =>
      handles_after (if ret r =? MMSYSERR_NOERROR
                     then filter (fun x => negb (x =? h)) hs else hs)
                    tr'
  | _ :: tr' => handles_after hs tr'
  end.

(** The input handles open at the driver at the end of a trace. *)
Definition driver_handles (tr : list Event) : list Z := handles_after [] tr.

(** The session and the driver agree: the driver has no handle open
    while the session is closed, and exactly the handle of the session
    otherwise. *)
Definition session_holds (m : Machine CMIDIInDevice) : Prop :=
  driver_handles (trace (world m)) =
  match m_State (this m) with
  | CLOSED => []
  | OPENED | RECORDING => [m_DevHandle (this m)]
  end.





(** The headers destroyed in a piece of trace, in order: each
    destruction shows as the unprepare call of the header. *)
Fixpoint reclaimed (tr : list Event) : list CMIDIInHeader :=
  match tr with
  | [] => []
  | (midiInUnprepareHeader h p l, _) :: tr' => mkHeader h p l :: reclaimed tr'
  | _ :: tr' => reclaimed tr'
  end.

(** The trace after destroying the headers of [q] one by one. *)
Fixpoint drain (os : Oracle) (tr : list Event) (q : list CMIDIInHeader)
  : list Event :=
  match q with
  | [] => tr
  | front :: q' =>
      drain os (tr ++ [(unprepare_call front,
                        os tr (unprepare_call front))]) q'
  end.

(* ----- The rest of [MIDIInDevice.cpp] ----- *)

Definition with_Receiver (r : Z) (d : CMIDIInDevice) : CMIDIInDevice :=
  mkDevice (m_DevHandle d) (m_Event d) r (m_HdrQueue d) (m_State d).

(** The [Msg] argument of the driver callback, as the [switch] of
    [MidiInProc] tells the values apart; [MIM_OTHER] stands for every
    value without a [case] ([MIM_OPEN], [MIM_CLOSE], ...). *)
Inductive CallbackMsg : Type :=
| MIM_DATA
| MIM_ERROR
| MIM_LONGDATA
| MIM_LONGERROR
| MIM_OTHER.

(** What the callback reads in the [MIDIHDR] that [Param1] points to. *)
Record MIDIHDR : Type := mkMIDIHDR {
  cb_lpData : Z;
  dwBytesRecorded : Z
}.

(** A call of a member of [CMIDIReceiver]; the two overloads of
    [ReceiveMsg] and of [OnError] get names of their own. *)
Inductive ReceiverCall : Type :=
| ReceiveMsg (Msg TimeStamp : Z)
| ReceiveMsg_long (Msg BytesRecorded TimeStamp : Z)
| OnError (Msg TimeStamp : Z)
| OnError_long (Msg BytesRecorded TimeStamp : Z).

(** A call made to a receiver: which object, which member, and the world
    at the time of the call.  The receiver's code belongs to the
    application: it is recorded, not run. *)
Record Delivery : Type := mkDelivery {
  receiver : Z;
  call : ReceiverCall;
  seen : World
}.

Section RestOfDevice.
Variable os : Oracle.

Local Abbreviation M := (Win.M CMIDIInDevice).

(** [CMIDIInDevice::CMIDIInDevice(CMIDIReceiver &Receiver)], run on the
    object under construction. *)
Definition CMIDIInDevice_ctor : M unit :=
  ok <- CreateEvent os ;;
  if negb ok then throw Cpp.CMIDIInEventFailure 0 else mret tt.

(** The body of [CMIDIInDevice::~CMIDIInDevice]. *)
Definition CMIDIInDevice_dtor_body : M unit :=
  Close os ;;
  d <- get ;;
  _ <- sys os (CloseHandle (m_Event d)) ;;
  mret tt.

(** [CMIDIInDevice::SetReceiver]: the previous receiver is returned. *)
Definition SetReceiver (Receiver : Z) : M Z :=
  d <- get ;;
  modify (with_Receiver Receiver) ;;
  mret (m_Receiver d).

(** [CMIDIInDevice::MidiInProc], with [Device] the object that
    [Instance] points to and [hdr] the memory read through [Param1].
    The result lists the calls made to the receiver. *)
Definition MidiInProc (hdr : Z -> MIDIHDR) (Msg : CallbackMsg)
           (Param1 Param2 : Z) (m : Machine CMIDIInDevice)
  : list Delivery * Machine CMIDIInDevice :=
  let Device := this m in
  match Msg with
  | MIM_DATA =>
      ([mkDelivery (m_Receiver Device) (ReceiveMsg Param1 Param2) (world m)],
       m)
  | MIM_ERROR =>
      ([mkDelivery (m_Receiver Device) (OnError Param1 Param2) (world m)],
       m)
  | MIM_LONGDATA =>
      if State_eqb (m_State Device) RECORDING then
        let MidiHdr := hdr Param1 in
        ([mkDelivery (m_Receiver Device)
                     (ReceiveMsg_long (cb_lpData MidiHdr)
                                      (dwBytesRecorded MidiHdr) Param2)
                     (world m)],
         snd (sys os (SetEvent (m_Event Device)) m))
      else ([], m)
  | MIM_LONGERROR =>
      if State_eqb (m_State Device) RECORDING then
        let MidiHdr := hdr Param1 in
        ([mkDelivery (m_Receiver Device)
                     (OnError_long (cb_lpData MidiHdr)
                                   (dwBytesRecorded MidiHdr) Param2)
                     (world m)],
         snd (sys os (SetEvent (m_Event Device)) m))
      else ([], m)
  | MIM_OTHER => ([], m)
  end.

(** A run of member functions one after the other, stopping at the
    first one that throws. *)
Fixpoint sequence (cs : list (M unit)) : M unit :=
  match cs with
  | [] => mret tt
  | c :: cs' => c ;; sequence cs'
  end.

End RestOfDevice.

(** The headers prepared in a piece of trace, in order: each accepted
    [midiInPrepareHeader]. *)
Fixpoint prepared (tr : list Event) : list CMIDIInHeader :=
  match tr with
  | [] => []
  | (midiInPrepareHeader h p l, r) :: tr' =>
      if ret r =? MMSYSERR_NOERROR
      then mkHeader h p l :: prepared tr'
      else prepared tr'
  | _ :: tr' => prepared tr'
  end.

End MIDIIn.

(* ================================================================= *)
(** ** [MIDIOutDevice.cpp] *)

Module MIDIOut.
Import Win.
Local Open Scope cpp_scope.

(** [enum State { CLOSED, OPENED }]. *)
Inductive State : Type := CLOSED | OPENED.

Definition State_eqb (a b : State) : bool :=
  match a, b with
  | CLOSED, CLOSED | OPENED, OPENED => true
  | _, _ => false
  end.

(** [CMIDIOutHeader]. *)
Record CMIDIOutHeader : Type := mkHeader {
  hdr_DevHandle : Z;
  lpData : Z;
  dwBufferLength : Z
}.

(** The data members of [CMIDIOutDevice]. *)
Record CMIDIOutDevice : Type := mkDevice {
  m_DevHandle : Z;
  m_Event : Z;
  m_HdrQueue : list CMIDIOutHeader;
  m_State : State
}.

Definition with_DevHandle (h : Z) (d : CMIDIOutDevice) : CMIDIOutDevice :=
  mkDevice h (m_Event d) (m_HdrQueue d) (m_State d).
Definition with_Event (e : Z) (d : CMIDIOutDevice) : CMIDIOutDevice :=
  mkDevice (m_DevHandle d) e (m_HdrQueue d) (m_State d).
Definition with_HdrQueue (q : list CMIDIOutHeader) (d : CMIDIOutDevice)
  : CMIDIOutDevice :=
  mkDevice (m_DevHandle d) (m_Event d) q (m_State d).
Definition with_State (s : State) (d : CMIDIOutDevice) : CMIDIOutDevice :=
  mkDevice (m_DevHandle d) (m_Event d) (m_HdrQueue d) s.

Definition unprepare_call (h : CMIDIOutHeader) : Call :=
  midiOutUnprepareHeader (hdr_DevHandle h) (lpData h) (dwBufferLength h).

Section WithOracle.
Variable os : Oracle.

Local Abbreviation M := (Win.M CMIDIOutDevice).

(* ----- CMIDIOutHeader ----- *)

(** [CMIDIOutHeader::CMIDIOutHeader]. *)
Definition CMIDIOutHeader_ctor (DevHandle Msg MsgLength : Z)
  : M CMIDIOutHeader :=
  Result <- sys os (midiOutPrepareHeader DevHandle Msg MsgLength) ;;
  if negb (ret Result =? MMSYSERR_NOERROR)
  then throw Cpp.CMIDIOutException (ret Result)
  else mret (mkHeader DevHandle Msg MsgLength).

(** [new CMIDIOutHeader(..)]. *)
Definition new_CMIDIOutHeader (DevHandle Msg MsgLength : Z)
  : M CMIDIOutHeader :=
  p <- sys os operator_new ;;
  if ret p =? NULL
  then throw Cpp.std_bad_alloc 0
  else CMIDIOutHeader_ctor DevHandle Msg MsgLength.

(** [CMIDIOutHeader::~CMIDIOutHeader]. *)
Definition CMIDIOutHeader_dtor (h : CMIDIOutHeader) : M unit :=
  _ <- sys os (unprepare_call h) ;;
  mret tt.

(** [delete Header]. *)
Definition delete (h : CMIDIOutHeader) : M unit := CMIDIOutHeader_dtor h.

(** [CMIDIOutHeader::SendMsg]. *)
Definition CMIDIOutHeader_SendMsg (h : CMIDIOutHeader) : M unit :=
  Result <- sys os (midiOutLongMsg (hdr_DevHandle h) (lpData h)
                                   (dwBufferLength h)) ;;
  if negb (ret Result =? MMSYSERR_NOERROR)
  then throw Cpp.CMIDIOutException (ret Result)
  else mret tt.

(* ----- CHeaderQueue ----- *)

(** [CHeaderQueue::AddHeader]: [m_HdrQueue.push(Header)].  As on the
    input side the push may need memory, and [std::bad_alloc] leaves the
    function with the queue as it was when the allocator gives
    nothing. *)
Definition AddHeader (Header : CMIDIOutHeader) : M unit :=
  p <- sys os operator_new ;;
  if ret p =? NULL
  then throw Cpp.std_bad_alloc 0
  else modify (fun d => with_HdrQueue (m_HdrQueue d ++ [Header]) d).

(** [m_HdrQueue.pop()]. *)
Definition pop : M unit :=
  modify (fun d => with_HdrQueue (tl (m_HdrQueue d)) d).

(** [CHeaderQueue::RemoveHeader]. *)
Definition RemoveHeader : M unit :=
  d <- get ;;
  match m_HdrQueue d with
  | [] => mret tt
  | front :: _ => delete front ;; pop
  end.

(** The [while] loop of [CHeaderQueue::RemoveAll], for at most [n]
    iterations: each one tests [!m_HdrQueue.empty()], deletes the front
    and pops it. *)
Fixpoint RemoveAll_loop (n : nat) : M unit :=
  match n with
  | O => mret tt
  | S n' =>
      d <- get ;;
      match m_HdrQueue d with
      | [] => mret tt
      | front :: _ => delete front ;; pop ;; RemoveAll_loop n'
      end
  end.

(** [CHeaderQueue::RemoveAll], with the number of queued headers as the
    bound of its loop (see [Out_RemoveAll_spec]). *)
Definition RemoveAll : M unit :=
  d <- get ;;
  RemoveAll_loop (length (m_HdrQueue d)).

(* ----- CMIDIOutDevice ----- *)

(** [CMIDIOutDevice::Close]: the value of [midiOutClose] is dropped. *)
Definition Close : M unit :=
  d <- get ;;
  if State_eqb (m_State d) OPENED then
    modify (with_State CLOSED) ;;
    _ <- sys os (SetEvent (m_Event d)) ;;
    RemoveAll ;;
    _ <- sys os (midiOutClose (m_DevHandle d)) ;;
    mret tt
  else mret tt.

(** [CMIDIOutDevice::Open]. *)
Definition Open (DeviceId : Z) : M unit :=
  Close ;;
  t <- sys os CreateThread ;;
  if ret t =? NULL then throw Cpp.CMIDIOutThreadFailure 0
  else
    r <- sys os (midiOutOpen DeviceId) ;;
    modify (with_DevHandle (out r)) ;;
    if ret r =? MMSYSERR_NOERROR
    then modify (with_State OPENED)
    else
      d <- get ;;
      _ <- sys os (SetEvent (m_Event d)) ;;
      throw Cpp.CMIDIOutException (ret r).

(** [CMIDIOutDevice::SendMsg(DWORD Msg)]. *)
Definition SendMsg (Msg : Z) : M unit :=
  d <- get ;;
  if State_eqb (m_State d) OPENED then
    Result <- sys os (midiOutShortMsg (m_DevHandle d) Msg) ;;
    if negb (ret Result =? MMSYSERR_NOERROR)
    then throw Cpp.CMIDIOutException (ret Result)
    else mret tt
  else mret tt.

(** [CMIDIOutDevice::SendMsg(LPSTR Msg, DWORD MsgLength)].  The last
    handler deletes the header and ends without a [throw]. *)
Definition SendMsg_long (Msg MsgLength : Z) : M unit :=
  d <- get ;;
  if State_eqb (m_State d) OPENED then
    Header <-
      try_catch
        (new_CMIDIOutHeader (m_DevHandle d) Msg MsgLength)
        [ (Cpp.std_bad_alloc,
           fun _ => throw Cpp.CMIDIOutMemFailure 0);
          (Cpp.CMIDIOutException,
           fun e => rethrow e) ] ;;
    try_catch
      (CMIDIOutHeader_SendMsg Header ;;
       AddHeader Header)
      [ (Cpp.CMIDIOutException,
         fun _ => delete Header) ]
  else mret tt.

(** [CMIDIOutDevice::CreateEvent]. *)
Definition CreateEvent : M bool :=
  r <- sys os Win.CreateEvent ;;
  modify (with_Event (ret r)) ;;
  mret (negb (ret r =? NULL)).

(** [CMIDIOutDevice::CMIDIOutDevice(UINT DeviceId)], run on the object
    under construction. *)
Definition CMIDIOutDevice_ctor_open (DeviceId : Z) : M unit :=
  Open DeviceId ;;
  ok <- CreateEvent ;;
  if negb ok then
    Close ;;
    throw Cpp.CMIDIOutEventFailure 0
  else mret tt.

(** [CMIDIOutDevice::IsOpen]. *)
Definition IsOpen (d : CMIDIOutDevice) : bool :=
  State_eqb (m_State d) OPENED.

End WithOracle.

(** The object after the member initialiser [m_State(CLOSED)]. *)
Definition under_construction (DevHandle0 Event0 : Z) : CMIDIOutDevice :=
  mkDevice DevHandle0 Event0 [] CLOSED.

(** The output handles open at the driver after the events of [tr],
    starting from the handles [hs]: [midiOutOpen] adds the handle it
    stored when the driver accepts the call, [midiOutClose] removes its
    handle when the driver accepts the call; a refused call changes
    nothing, whatever the session then believes. *)
Fixpoint handles_after (hs : list Z) (tr : list Event) : list Z :=
  match tr with
  | [] => hs
  | (midiOutOpen _, r) :: tr' =>
      handles_after (if ret r =? MMSYSERR_NOERROR then hs ++ [out r] else hs)
                    tr'
  | (midiOutClose h, r) :: tr' =>
      handles_after (if ret r =? MMSYSERR_NOERROR
                     then filter (fun x => negb (x =? h)) hs else hs)
                    tr'
  | _ :: tr' => handles_after hs tr'
  end.

(** The output handles open at the driver at the end of a trace. *)
Definition driver_handles (tr : list Event) : list Z := handles_after [] tr.

(** The trace after destroying the headers of [q] one by one. *)
Fixpoint drain (os : Oracle) (tr : list Event) (q : list CMIDIOutHeader)
  : list Event :=
  match q with
  | [] => tr
  | front :: q' =>
      drain os (tr ++ [(unprepare_call front,
                        os tr (unprepare_call front))]) q'
  end.

(* ----- The rest of [MIDIOutDevice.cpp] ----- *)

(** The [Msg] argument of the driver callback: [MidiOutProc] only
    compares it with [MOM_DONE]. *)
Inductive CallbackMsg : Type :=
| MOM_DONE
| MOM_OTHER.

(** Where the worker thread of [HeaderProc] stands. *)
Inductive WorkerPc : Type :=
| AtLoopTest   (* about to evaluate the [while] condition *)
| AtWait       (* inside [WaitForSingleObject] *)
| Finished.    (* returned 0 *)

(** The headers destroyed in a piece of trace, in order. *)
Fixpoint reclaimed (tr : list Event) : list CMIDIOutHeader :=
  match tr with
  | [] => []
  | (midiOutUnprepareHeader h p l, _) :: tr' => mkHeader h p l :: reclaimed tr'
  | _ :: tr' => reclaimed tr'
  end.

Section RestOfDevice.
Variable os : Oracle.

Local Abbreviation M := (Win.M CMIDIOutDevice).

(** [CMIDIOutDevice::CMIDIOutDevice()], run on the object under
    construction. *)
Definition CMIDIOutDevice_ctor : M unit :=
  ok <- CreateEvent os ;;
  if negb ok then throw Cpp.CMIDIOutEventFailure 0 else mret tt.

(** [CHeaderQueue::~CHeaderQueue] (the critical section is not
    modelled). *)
Definition CHeaderQueue_dtor : M unit := RemoveAll os.

(** [CMIDIOutDevice::~CMIDIOutDevice]: its body, then the destructor of
    the member [m_HdrQueue]. *)
Definition CMIDIOutDevice_dtor : M unit :=
  Close os ;;
  d <- get ;;
  _ <- sys os (CloseHandle (m_Event d)) ;;
  CHeaderQueue_dtor.

(** [CMIDIOutDevice::MidiOutProc], with [Device] the object that
    [Instance] points to. *)
Definition MidiOutProc (Msg : CallbackMsg) : M unit :=
  d <- get ;;
  match Msg with
  | MOM_DONE => _ <- sys os (SetEvent (m_Event d)) ;; mret tt
  | MOM_OTHER => mret tt
  end.

(** One step of the worker thread [CMIDIOutDevice::HeaderProc].  In
    [AtWait] the thread proceeds only when the event is signaled, and
    consumes the signal (the event is auto-reset). *)
Definition HeaderProc_step (pc : WorkerPc)
  : Machine CMIDIOutDevice -> WorkerPc * Machine CMIDIOutDevice :=
  fun m =>
    match pc with
    | AtLoopTest =>
        if State_eqb (m_State (this m)) OPENED
        then (AtWait, m) else (Finished, m)
    | AtWait =>
        let ev := m_Event (this m) in
        if signaled (world m) ev then
          let m1 := mkMachine (this m)
                      (mkWorld (trace (world m))
                               (set_signal (signaled (world m)) ev false))
          in
          if State_eqb (m_State (this m1)) OPENED
          then (AtLoopTest, snd (RemoveHeader os m1))
          else (AtLoopTest, m1)
        else (AtWait, m)
    | Finished => (Finished, m)
    end.

Fixpoint HeaderProc_run (n : nat) (pc : WorkerPc)
         (m : Machine CMIDIOutDevice)
  : WorkerPc * Machine CMIDIOutDevice :=
  match n with
  | O => (pc, m)
  | S n' => let (pc', m') := HeaderProc_step pc m in
            HeaderProc_run n' pc' m'
  end.

End RestOfDevice.

(** The headers prepared in a piece of trace, in order: each accepted
    [midiOutPrepareHeader]. *)
Fixpoint prepared (tr : list Event) : list CMIDIOutHeader :=
  match tr with
  | [] => []
  | (midiOutPrepareHeader h p l, r) :: tr' =>
      if ret r =? MMSYSERR_NOERROR
      then mkHeader h p l :: prepared tr'
      else prepared tr'
  | _ :: tr' => prepared tr'
  end.

End MIDIOut.

(* ================================================================= *)
(** ** Reading a trace *)

Module Observe.
Import Win.

(** How many calls of a piece of trace satisfy [p]. *)
Definition count_calls (p : Call -> bool) (tr : list Event) : nat :=
  length (filter (fun ev => p (fst ev)) tr).

Definition is_CloseHandle (c : Call) : bool :=
  match c with CloseHandle _ => true | _ => false end.

Definition is_CreateThread (c : Call) : bool :=
  match c with CreateThread => true | _ => false end.

(** The calls that go to winmm (the others go to the kernel or to the
    allocator). *)
Definition is_winmm (c : Call) : bool :=
  match c with
  | CreateThread | CreateEvent | SetEvent _ | CloseHandle _
  | operator_new => false
  | _ => true
  end.

End Observe.

(* ================================================================= *)
(** ** Concrete drivers, for running the model *)

Module Script.
Import Win.

Definition is_midi (c : Call) : bool :=
  match c with
  | CreateThread | CreateEvent | SetEvent _ | CloseHandle _
  | operator_new => false
  | _ => true
  end.

(** A driver that accepts every call except those selected by
    [rejects].  Accepted calls of winmm return [MMSYSERR_NOERROR], the
    open calls with a handle numbered after the length of the trace;
    accepted kernel calls return a non-null value.  Rejected calls of
    winmm return [code]; rejected kernel calls return [NULL]. *)
Definition driver (rejects : Call -> bool) (code : Z) : Oracle :=
  fun tr c =>
    let fresh := 100 + Z.of_nat (length tr) in
    if rejects c then
      if is_midi c then mkReply code 0 else mkReply NULL 0
    else
      if is_midi c
      then mkReply MMSYSERR_NOERROR (if is_open c then fresh else 0)
      else mkReply fresh 0.

Definition nothing (c : Call) : bool := false.

Definition rejects_midiInAddBuffer (c : Call) : bool :=
  match c with midiInAddBuffer _ _ _ => true | _ => false end.
Definition rejects_midiOutLongMsg (c : Call) : bool :=
  match c with midiOutLongMsg _ _ _ => true | _ => false end.
Definition rejects_midiInStart (c : Call) : bool :=
  match c with midiInStart _ => true | _ => false end.
Definition rejects_midiOutClose (c : Call) : bool :=
  match c with midiOutClose _ => true | _ => false end.
Definition rejects_CreateEvent (c : Call) : bool :=
  match c with CreateEvent => true | _ => false end.
Definition rejects_CreateEvent_and_midiInClose (c : Call) : bool :=
  match c with CreateEvent | midiInClose _ => true | _ => false end.

Definition MMSYSERR_NOMEM : Z := 7.
Definition MIDIERR_STILLPLAYING : Z := 65.
Definition MIDIERR_NOTREADY : Z := 67.

Definition no_signal : Z -> bool := fun _ => false.
Definition fresh_world : World := mkWorld [] no_signal.

(** Sessions to run the model on: handle 11, event 22. *)
Definition in_opened : Machine MIDIIn.CMIDIInDevice :=
  mkMachine (MIDIIn.mkDevice 11 22 33 [] MIDIIn.OPENED) fresh_world.

Definition in_recording : Machine MIDIIn.CMIDIInDevice :=
  mkMachine
    (MIDIIn.mkDevice 11 22 33
       [MIDIIn.mkHeader 11 500 16; MIDIIn.mkHeader 11 600 32]
       MIDIIn.RECORDING)
    fresh_world.

Definition out_closed : Machine MIDIOut.CMIDIOutDevice :=
  mkMachine
    (MIDIOut.mkDevice 11 22 [MIDIOut.mkHeader 11 700 8] MIDIOut.CLOSED)
    fresh_world.

Definition out_opened : Machine MIDIOut.CMIDIOutDevice :=
  mkMachine
    (MIDIOut.mkDevice 11 22 [MIDIOut.mkHeader 11 700 8] MIDIOut.OPENED)
    fresh_world.

Definition rejects_CreateThread (c : Call) : bool :=
  match c with CreateThread => true | _ => false end.
Definition rejects_midiOutOpen (c : Call) : bool :=
  match c with midiOutOpen _ => true | _ => false end.

Definition MMSYSERR_BADDEVICEID : Z := 2.

(** The memory the driver's long-message callback reads: every header
    points to a buffer at 500 holding 12 recorded bytes. *)
Definition one_header : Z -> MIDIIn.MIDIHDR :=
  fun _ => MIDIIn.mkMIDIHDR 500 12.

(** Sessions that hold no device yet (event 22), on a world where
    nothing has happened. *)
Definition in_fresh : Machine MIDIIn.CMIDIInDevice :=
  mkMachine (MIDIIn.mkDevice 0 22 33 [] MIDIIn.CLOSED) fresh_world.
Definition out_fresh : Machine MIDIOut.CMIDIOutDevice :=
  mkMachine (MIDIOut.mkDevice 0 22 [] MIDIOut.CLOSED) fresh_world.

(** A driver that accepts every call, with an allocator that has memory
    for one object only: [operator new] gives nothing once the trace
    holds an allocation. *)
Definition one_allocation : Oracle :=
  fun tr c =>
    match c with
    | operator_new =>
        if existsb (fun ev => match fst ev with
                              | operator_new => true
                              | _ => false
                              end) tr
        then mkReply NULL 0
        else driver nothing 0 tr c
    | _ => driver nothing 0 tr c
    end.

(** Two buffers to add to a session. *)
Definition two_buffers : list (Z * Z) := [(800, 64); (900, 64)].

End Script.

(* ================================================================= *)
(** ** Properties of the short-message packing *)

Section BitFacts.

(** A value below [2^k] has no bit at position [k] or above. *)
Lemma testbit_above (a k n : Z) :
  0 <= a < 2 ^ k -> k <= n -> Z.testbit a n = false.
Proof.
  intros Ha Hn.
  destruct (Z.eq_dec a 0) as [->|Hz]; [apply Z.bits_0|].
  apply Z.bits_above_log2; [lia|].
  assert (Z.log2 a < k) by (apply Z.log2_lt_pow2; lia).
  lia.
Qed.

Lemma land_shiftl_disjoint (a b k : Z) :
  0 <= k -> 0 <= a < 2 ^ k -> Z.land a (Z.shiftl b k) = 0.
Proof.
  intros Hk Ha.
  apply Z.bits_inj'; intros n Hn.
  rewrite Z.land_spec, Z.bits_0.
  destruct (Z.ltb_spec n k).
  - rewrite Z.shiftl_spec_low by assumption. apply andb_false_r.
  - rewrite (testbit_above a k n) by assumption. reflexivity.
Qed.

(** Or-ing a value below [2^k] with one shifted left by [k] adds them. *)
Lemma lor_shiftl_add (a b k : Z) :
  0 <= k -> 0 <= a < 2 ^ k ->
  Z.lor a (Z.shiftl b k) = a + b * 2 ^ k.
Proof.
  intros Hk Ha.
  rewrite <- Z.lxor_lor, <- Z.add_nocarry_lxor
    by (apply land_shiftl_disjoint; assumption).
  rewrite Z.shiftl_mul_pow2 by assumption.
  reflexivity.
Qed.

(** Clearing the bits of [2^k - 1] rounds down to a multiple of [2^k]. *)
Lemma land_lnot_ones (a k : Z) :
  0 <= k -> Z.land a (Z.lnot (Z.ones k)) = 2 ^ k * (a / 2 ^ k).
Proof.
  intros Hk.
  rewrite <- Z.ldiff_land, Z.ldiff_ones_r by assumption.
  rewrite Z.shiftl_mul_pow2, Z.shiftr_div_pow2 by assumption.
  apply Z.mul_comm.
Qed.

End BitFacts.

Section PackUnpack.
Import Midi ShortMsg.

(** The channel form packs its four arguments into disjoint bit fields,
    so the packed word is their weighted sum. *)
Lemma PackShortMsg_channel_sum (Command Channel DataByte1 DataByte2 : Z) :
  is_uchar Command -> Z.land Command SHORT_MSG_MASK = 0 ->
  is_channel Channel -> is_data_byte DataByte1 -> is_data_byte DataByte2 ->
  PackShortMsg_channel Command Channel DataByte1 DataByte2
  = Command + Channel + DataByte1 * 2 ^ 8 + DataByte2 * 2 ^ 16.
Proof.
  unfold is_uchar, is_channel, is_data_byte, SHORT_MSG_MASK.
  intros Hc Hn Hch H1 H2.
  change 15 with (Z.ones 4) in Hn.
  rewrite Z.land_ones in Hn by lia.
  assert (Hcc : Z.lor Command Channel = Command + Channel).
  { rewrite Z.lor_comm.
    replace Command with (Z.shiftl (Command / 2 ^ 4) 4) at 1.
    - rewrite lor_shiftl_add by lia.
      pose proof (Z.div_mod Command (2 ^ 4)) as E. lia.
    - rewrite Z.shiftl_mul_pow2 by lia.
      pose proof (Z.div_mod Command (2 ^ 4)) as E. lia. }
  assert (Hlt : Command + Channel < 2 ^ 8)
    by (pose proof (Z.div_mod Command (2 ^ 4)) as E; lia).
  unfold PackShortMsg_channel, to_DWORD, SHORT_MSG_SHIFT.
  rewrite Hcc.
  rewrite (Z.mod_small (Command + Channel)) by lia.
  rewrite (lor_shiftl_add (Command + Channel)) by lia.
  rewrite (Z.mod_small (Command + Channel + _)) by lia.
  change (8 * 2) with 16.
  rewrite lor_shiftl_add by lia.
  rewrite Z.mod_small by lia.
  reflexivity.
Qed.

(** C8: packing a channel message with the four-byte form and unpacking
    it with the four-byte form gives back the command (a byte whose low
    nibble is zero), the channel (0..15) and both data bytes (0..127). *)
Theorem pack_unpack_channel_roundtrip
        (Command Channel DataByte1 DataByte2 : Z) :
  is_uchar Command -> Z.land Command SHORT_MSG_MASK = 0 ->
  is_channel Channel -> is_data_byte DataByte1 -> is_data_byte DataByte2 ->
  UnpackShortMsg_channel
    (PackShortMsg_channel Command Channel DataByte1 DataByte2)
  = (Command, Channel, DataByte1, DataByte2).
Proof.
  intros Hc Hn Hch H1 H2.
  rewrite PackShortMsg_channel_sum by assumption.
  unfold is_uchar, is_channel, is_data_byte, SHORT_MSG_MASK in *.
  change 15 with (Z.ones 4) in Hn.
  rewrite Z.land_ones in Hn by lia.
  unfold UnpackShortMsg_channel, to_uchar, SHORT_MSG_MASK, SHORT_MSG_SHIFT.
  change 15 with (Z.ones 4).
  rewrite land_lnot_ones, Z.land_ones, !Z.shiftr_div_pow2 by lia.
  change (8 * 2) with 16.
  set (m := Command + Channel + DataByte1 * 2 ^ 8 + DataByte2 * 2 ^ 16).
  assert (Hm : m = Command + Channel + DataByte1 * 256 + DataByte2 * 65536)
    by (subst m; lia).
  clearbody m.
  change (2 ^ 4) with 16 in *. change (2 ^ 8) with 256.
  change (2 ^ 16) with 65536.
  repeat f_equal; Z.div_mod_to_equations; lia.
Qed.

Lemma pack_unpack_channel_roundtrip_witness :
  UnpackShortMsg_channel (PackShortMsg_channel 144 3 60 100)
  = (144, 3, 60, 100).
Proof.
  apply (pack_unpack_channel_roundtrip 144 3 60 100);
    unfold is_uchar, is_channel, is_data_byte; (reflexivity || lia).
Defined.

(** What the status form really computes: both data bytes are shifted
    by the same [SHORT_MSG_SHIFT], so they are merged in byte 1 and
    byte 2 stays empty. *)
Lemma PackShortMsg_merges_data (Status DataByte1 DataByte2 : Z) :
  is_uchar Status -> is_data_byte DataByte1 -> is_data_byte DataByte2 ->
  UnpackShortMsg (PackShortMsg Status DataByte1 DataByte2)
  = (Status, Z.lor DataByte1 DataByte2, 0).
Proof.
  unfold is_uchar, is_data_byte. intros Hs H1 H2.
  assert (Hb : 0 <= Z.lor DataByte1 DataByte2 < 2 ^ 7).
  { split; [apply Z.lor_nonneg; lia|].
    destruct (Z.eq_dec (Z.lor DataByte1 DataByte2) 0) as [->|Hz]; [lia|].
    apply Z.log2_lt_pow2.
    - assert (0 <= Z.lor DataByte1 DataByte2) by (apply Z.lor_nonneg; lia).
      lia.
    - rewrite Z.log2_lor by lia.
      destruct (Z.eq_dec DataByte1 0) as [->|]; 
        destruct (Z.eq_dec DataByte2 0) as [->|];
        cbn [Z.log2]; try apply Z.max_lub_lt;
        try (apply Z.log2_lt_pow2; lia); lia. }
  unfold PackShortMsg, to_DWORD, SHORT_MSG_SHIFT.
  rewrite (Z.mod_small Status) by lia.
  rewrite (lor_shiftl_add Status) by lia.
  rewrite (Z.mod_small (Status + _)) by lia.
  rewrite <- (lor_shiftl_add Status) by lia.
  rewrite <- Z.lor_assoc, <- Z.shiftl_lor.
  rewrite lor_shiftl_add by lia.
  rewrite Z.mod_small by lia.
  unfold UnpackShortMsg, to_uchar, SHORT_MSG_SHIFT.
  rewrite !Z.shiftr_div_pow2 by lia.
  change (8 * 2) with 16.
  set (d := Z.lor DataByte1 DataByte2) in *. clearbody d.
  change (2 ^ 7) with 128 in *. change (2 ^ 8) with 256.
  change (2 ^ 16) with 65536.
  repeat f_equal; Z.div_mod_to_equations; lia.
Qed.

(** C1 (violated by the code): a note-on message with distinct data
    bytes does not survive the status form of pack and unpack; the
    second data byte comes back as zero and the first one is altered. *)
Theorem pack_unpack_status_note_on :
  UnpackShortMsg (PackShortMsg 144 60 64) = (144, 124, 0).
Proof. reflexivity. Qed.

End PackUnpack.

(* ================================================================= *)
(** ** The header queue of the input device *)

Section InQueue.
Import Win MIDIIn.
Variable os : Oracle.

(** Evaluation of the monadic combinators on a machine. *)
Ltac run :=
  unfold bind, mret, get, modify, sys, do_call, throw, rethrow; cbn.

Lemma drain_extends (q : list CMIDIInHeader) (tr : list Event) :
  exists delta,
    drain os tr q = tr ++ delta /\
    no_open delta = true /\
    reclaimed delta = q.
Proof.
  revert tr; induction q as [|[h p l] q IH]; intros tr; cbn [drain].
  - exists []. rewrite app_nil_r. repeat split.
  - destruct (IH (tr ++ [(unprepare_call (mkHeader h p l),
                          os tr (unprepare_call (mkHeader h p l)))]))
      as (delta & E & Hc & Hr).
    exists ((unprepare_call (mkHeader h p l),
             os tr (unprepare_call (mkHeader h p l))) :: delta).
    rewrite E, <- app_assoc. cbn.
    split; [reflexivity|]. split; [exact Hc | congruence].
Qed.

Lemma no_open_app (a b : list Event) :
  no_open (a ++ b) = no_open a && no_open b.
Proof. apply forallb_app. Qed.

(** With at least as many iterations as queued headers, the loop of
    [RemoveAll] destroys every header, oldest first, and ends on an empty
    queue. *)
Lemma RemoveAll_loop_spec (n : nat) :
  forall m, (length (m_HdrQueue (this m)) <= n)%nat ->
    RemoveAll_loop os n m
    = (Normal tt,
       mkMachine (with_HdrQueue [] (this m))
                 (mkWorld (drain os (trace (world m)) (m_HdrQueue (this m)))
                          (signaled (world m)))).
Proof.
  induction n as [|n IH]; intros [[h ev rc q s] [tr sg]] Hq; cbn in Hq.
  - destruct q; [reflexivity | cbn in Hq; lia].
  - cbn [RemoveAll_loop]. unfold delete, CMIDIInHeader_dtor, pop. run.
    destruct q as [|front q]; [reflexivity|].
    run. rewrite IH by (cbn in *; lia). reflexivity.
Qed.

Lemma RemoveAll_spec (m : Machine CMIDIInDevice) :
  RemoveAll os m
  = (Normal tt,
     mkMachine (with_HdrQueue [] (this m))
               (mkWorld (drain os (trace (world m)) (m_HdrQueue (this m)))
                        (signaled (world m)))).
Proof.
  unfold RemoveAll, bind, get. cbn -[RemoveAll_loop].
  apply RemoveAll_loop_spec. reflexivity.
Qed.

Lemma reclaimed_app (a b : list Event) :
  reclaimed (a ++ b) = reclaimed a ++ reclaimed b.
Proof.
  induction a as [|[c r] a IH]; [reflexivity|].
  cbn [app reclaimed]. destruct c; rewrite ?IH; reflexivity.
Qed.



End InQueue.

(* ================================================================= *)
(** ** The input device: stopping, starting, closing *)

Section InDevice.
Import Win MIDIIn.
Variable os : Oracle.

Ltac run :=
  unfold bind, mret, get, modify, sys, do_call, throw, rethrow;
  cbn -[RemoveAll StopRecording Close HeaderProc_run].

(** [StopRecording] on a recording device, step by step. *)
Lemma StopRecording_recording (m : Machine CMIDIInDevice) :
  m_State (this m) = RECORDING ->
  let tr := trace (world m) in
  let e1 := (SetEvent (m_Event (this m)),
             os tr (SetEvent (m_Event (this m)))) in
  let e2 := (midiInReset (m_DevHandle (this m)),
             os (tr ++ [e1]) (midiInReset (m_DevHandle (this m)))) in
  StopRecording os m
  = (Normal tt,
     mkMachine
       (with_HdrQueue [] (with_State OPENED (this m)))
       (mkWorld (drain os ((tr ++ [e1]) ++ [e2]) (m_HdrQueue (this m)))
                (set_signal (signaled (world m)) (m_Event (this m)) true))).
Proof.
  destruct m as [[h ev rc q s] [tr sg]]; cbn. intros ->.
  unfold StopRecording. run. rewrite RemoveAll_spec. reflexivity.
Qed.

Lemma StopRecording_not_recording (m : Machine CMIDIInDevice) :
  m_State (this m) <> RECORDING -> StopRecording os m = (Normal tt, m).
Proof.
  destruct m as [[h ev rc q s] [tr sg]]; cbn. intros Hs.
  unfold StopRecording. run. destruct s; [reflexivity..|congruence].
Qed.

(** C3: [StopRecording] on a recording session, whatever its header
    queue holds, returns with the queue empty and the session opened;
    every header that was queued has been destroyed, oldest first. *)
Theorem StopRecording_empties_queue (m : Machine CMIDIInDevice) :
  m_State (this m) = RECORDING ->
  exists m' delta,
    StopRecording os m = (Normal tt, m') /\
    m_HdrQueue (this m') = [] /\
    m_State (this m') = OPENED /\
    trace (world m') = trace (world m) ++ delta /\
    reclaimed delta = m_HdrQueue (this m).
Proof.
  intros Hs. rewrite (StopRecording_recording m Hs). cbv zeta.
  destruct (drain_extends os (m_HdrQueue (this m))
              ((trace (world m)
                ++ [(SetEvent (m_Event (this m)),
                     os (trace (world m)) (SetEvent (m_Event (this m))))])
                ++ [(midiInReset (m_DevHandle (this m)),
                     os (trace (world m)
                         ++ [(SetEvent (m_Event (this m)),
                              os (trace (world m))
                                 (SetEvent (m_Event (this m))))])
                        (midiInReset (m_DevHandle (this m))))]))
    as (delta & E & _ & Hr).
  eexists _, (_ :: _ :: delta). split; [reflexivity|]. cbn.
  repeat split.
  - rewrite E, <- !app_assoc. reflexivity.
  - exact Hr.
Qed.

(* ----- StartRecording ----- *)

(** After a rejected start the worker thread ends: wherever it stands,
    two steps take it to its [return], and it neither touches the
    object nor calls the driver. *)
Lemma HeaderProc_exits_when_opened (m : Machine CMIDIInDevice) (pc : WorkerPc) :
  m_State (this m) = OPENED ->
  signaled (world m) (m_Event (this m)) = true ->
  fst (HeaderProc_run os 2 pc m) = Finished /\
  this (snd (HeaderProc_run os 2 pc m)) = this m /\
  trace (world (snd (HeaderProc_run os 2 pc m))) = trace (world m).
Proof.
  destruct m as [[h ev rc q s] [tr sg]]; cbn. intros -> Hsg.
  destruct pc; cbn; rewrite ?Hsg; cbn; repeat split.
Qed.

(** C4: a [StartRecording] that fails on an opened session leaves the
    session opened.  Either the worker thread could not be created, and
    nothing else happened; or the driver rejected [midiInStart], and the
    event was then set exactly once, which lets the worker thread see
    the opened state and return. *)
Theorem StartRecording_failure_rolls_back
        (m m' : Machine CMIDIInDevice) (e : Cpp.Exn) :
  m_State (this m) = OPENED ->
  StartRecording os m = (Throw e, m') ->
  m_State (this m') = OPENED /\
  exists delta,
    trace (world m') = trace (world m) ++ delta /\
    ((exists rt,
         delta = [(CreateThread, rt)] /\ ret rt = NULL /\
         e = Cpp.mkExn Cpp.CMIDIInThreadFailure 0 /\
         this m' = this m)
     \/
     (exists rt rs re,
         delta = [(CreateThread, rt);
                  (midiInStart (m_DevHandle (this m)), rs);
                  (SetEvent (m_Event (this m)), re)] /\
         ret rt <> NULL /\ ret rs <> MMSYSERR_NOERROR /\
         e = Cpp.mkExn Cpp.CMIDIInException (ret rs) /\
         this m' = this m /\
         count_SetEvent delta = 1%nat /\
         signaled (world m') (m_Event (this m')) = true /\
         forall pc,
           fst (HeaderProc_run os 2 pc m') = Finished /\
           this (snd (HeaderProc_run os 2 pc m')) = this m')).
Proof.
  destruct m as [[h ev rc q s] [tr sg]]; cbn -[HeaderProc_run]. intros ->.
  unfold StartRecording. run.
  destruct (ret (os tr CreateThread) =? NULL) eqn:Et; run.
  - intros H; inversion H; subst; clear H. cbn. split; [reflexivity|].
    eexists. split; [reflexivity|]. left. eexists. repeat split.
    apply Z.eqb_eq; assumption.
  - destruct (ret (os (tr ++ [(CreateThread, os tr CreateThread)])
                      (midiInStart h)) =? MMSYSERR_NOERROR) eqn:Es; run;
      [discriminate|].
    intros H; inversion H; subst; clear H. cbn -[HeaderProc_run].
    split; [reflexivity|].
    eexists. split; [rewrite <- !app_assoc; reflexivity|]. right.
    eexists _, _, _. split; [reflexivity|].
    apply Z.eqb_neq in Et, Es.
    assert (Hsg : set_signal sg ev true ev = true)
      by (unfold set_signal; rewrite Z.eqb_refl; reflexivity).
    do 6 (split; [first [assumption | reflexivity]|]).
    intros pc.
    match goal with
    | |- context [HeaderProc_run os 2 pc ?M] =>
        destruct (HeaderProc_exits_when_opened M pc) as (H1 & H2 & _);
        [reflexivity | exact Hsg | split; [exact H1 | exact H2]]
    end.
Qed.

(* ----- Close ----- *)

Lemma Close_closed (m : Machine CMIDIInDevice) :
  m_State (this m) = CLOSED -> Close os m = (Normal tt, m).
Proof.
  destruct m as [[h ev rc q s] [tr sg]]; cbn. intros ->.
  unfold Close. run. reflexivity.
Qed.

(** [Close] on an opened session: the state follows the driver's
    answer to [midiInClose]. *)
Lemma Close_opened (m : Machine CMIDIInDevice) :
  m_State (this m) = OPENED ->
  let c := midiInClose (m_DevHandle (this m)) in
  let r := os (trace (world m)) c in
  let w := mkWorld (trace (world m) ++ [(c, r)]) (signaled (world m)) in
  Close os m
  = if ret r =? MMSYSERR_NOERROR
    then (Normal tt, mkMachine (with_State CLOSED (this m)) w)
    else (Throw (Cpp.mkExn Cpp.CMIDIInException (ret r)),
          mkMachine (this m) w).
Proof.
  destruct m as [[h ev rc q s] [tr sg]]; cbn. intros ->.
  unfold Close. run.
  destruct (ret (os tr (midiInClose h)) =? MMSYSERR_NOERROR); reflexivity.
Qed.

Lemma Close_recording (m : Machine CMIDIInDevice) :
  m_State (this m) = RECORDING ->
  Close os m = Close os (snd (StopRecording os m)).
Proof.
  destruct m as [[h ev rc q s] [tr sg]]; cbn -[Close StopRecording].
  intros ->.
  unfold Close at 1. run.
  rewrite (StopRecording_recording
             (mkMachine (mkDevice h ev rc q RECORDING) (mkWorld tr sg)))
    by reflexivity.
  cbn -[Close]. unfold Close. run. reflexivity.
Qed.

Lemma StopRecording_effect (m : Machine CMIDIInDevice) :
  m_State (this m) = RECORDING ->
  exists delta,
    trace (world (snd (StopRecording os m))) = trace (world m) ++ delta /\
    no_open delta = true /\
    this (snd (StopRecording os m))
    = with_HdrQueue [] (with_State OPENED (this m)).
Proof.
  intros Hs. rewrite (StopRecording_recording m Hs). cbv zeta. cbn.
  match goal with
  | |- context [drain os ?T ?Q] =>
      destruct (drain_extends os Q T) as (delta & E & Hn & _); rewrite E
  end.
  exists ([(SetEvent (m_Event (this m)),
            os (trace (world m)) (SetEvent (m_Event (this m))))]
          ++ [(midiInReset (m_DevHandle (this m)),
               os (trace (world m)
                   ++ [(SetEvent (m_Event (this m)),
                        os (trace (world m))
                           (SetEvent (m_Event (this m))))])
                  (midiInReset (m_DevHandle (this m))))]
          ++ delta).
  rewrite <- !app_assoc. split; [reflexivity|].
  split; [cbn; exact Hn | reflexivity].
Qed.

(** What [Close] does, from any state.  It only appends to the trace
    and keeps both handles.  Either it returns with the session closed,
    after the driver accepted the close of the handle the session held;
    or the driver rejected [midiInClose], the session stays opened and
    the driver's code is thrown. *)
Lemma Close_summary (m : Machine CMIDIInDevice) :
  exists pre,
    trace (world (snd (Close os m))) = trace (world m) ++ pre /\
    no_open pre = true /\
    m_DevHandle (this (snd (Close os m))) = m_DevHandle (this m) /\
    m_Event (this (snd (Close os m))) = m_Event (this m) /\
    ((fst (Close os m) = Normal tt /\
      m_State (this (snd (Close os m))) = CLOSED /\
      (m_State (this m) <> CLOSED ->
       exists rc, In (midiInClose (m_DevHandle (this m)), rc) pre /\
                  ret rc = MMSYSERR_NOERROR))
     \/
     (exists pre0 rc,
         pre = pre0 ++ [(midiInClose (m_DevHandle (this m)), rc)] /\
         ret rc <> MMSYSERR_NOERROR /\
         fst (Close os m)
         = Throw (Cpp.mkExn Cpp.CMIDIInException (ret rc)) /\
         m_State (this (snd (Close os m))) = OPENED)).
Proof.
  assert (Hopened : forall m1 : Machine CMIDIInDevice,
             m_State (this m1) = OPENED ->
             exists rc,
               trace (world (snd (Close os m1)))
               = trace (world m1)
                 ++ [(midiInClose (m_DevHandle (this m1)), rc)] /\
               m_DevHandle (this (snd (Close os m1)))
               = m_DevHandle (this m1) /\
               m_Event (this (snd (Close os m1))) = m_Event (this m1) /\
               ((ret rc = MMSYSERR_NOERROR /\
                 fst (Close os m1) = Normal tt /\
                 m_State (this (snd (Close os m1))) = CLOSED)
                \/
                (ret rc <> MMSYSERR_NOERROR /\
                 fst (Close os m1)
                 = Throw (Cpp.mkExn Cpp.CMIDIInException (ret rc)) /\
                 m_State (this (snd (Close os m1))) = OPENED))).
  { intros m1 Hs. rewrite (Close_opened m1 Hs). cbv zeta.
    eexists.
    destruct (ret (os (trace (world m1))
                      (midiInClose (m_DevHandle (this m1))))
              =? MMSYSERR_NOERROR) eqn:E; cbn.
    - apply Z.eqb_eq in E. do 3 (split; [reflexivity|]).
      left. repeat split. exact E.
    - apply Z.eqb_neq in E. do 3 (split; [reflexivity|]).
      right. repeat split; assumption. }
  destruct (m_State (this m)) eqn:Hs.
  - rewrite (Close_closed m Hs). exists []. cbn. rewrite app_nil_r.
    do 4 (split; [reflexivity|]). left.
    do 2 (split; [first [reflexivity | assumption]|]).
    intros Hne. exfalso. apply Hne. reflexivity.
  - destruct (Hopened m Hs) as (rc & Ht & Hh & He & Hc).
    exists [(midiInClose (m_DevHandle (this m)), rc)].
    split; [assumption|]. split; [reflexivity|].
    do 2 (split; [assumption|]).
    destruct Hc as [(Hr & Hf & Hst)|(Hr & Hf & Hst)].
    + left. do 2 (split; [assumption|]).
      intros _. exists rc. split; [left; reflexivity | exact Hr].
    + right. exists [], rc. repeat split; assumption.
  - rewrite (Close_recording m Hs).
    destruct (StopRecording_effect m Hs) as (d1 & Ht1 & Hn1 & Hthis).
    set (m1 := snd (StopRecording os m)) in *.
    assert (Hs1 : m_State (this m1) = OPENED) by (rewrite Hthis; reflexivity).
    assert (Hh1 : m_DevHandle (this m1) = m_DevHandle (this m))
      by (rewrite Hthis; reflexivity).
    assert (He1 : m_Event (this m1) = m_Event (this m))
      by (rewrite Hthis; reflexivity).
    destruct (Hopened m1 Hs1) as (rc & Ht & Hh & He & Hc).
    exists (d1 ++ [(midiInClose (m_DevHandle (this m)), rc)]).
    rewrite Ht, Ht1, Hh, He, Hh1, He1, <- app_assoc.
    split; [reflexivity|].
    split; [rewrite no_open_app, Hn1; reflexivity|].
    do 2 (split; [reflexivity|]).
    destruct Hc as [(Hr & Hf & Hst)|(Hr & Hf & Hst)].
    + left. do 2 (split; [assumption|]).
      intros _. exists rc.
      split; [apply in_or_app; right; left; reflexivity | exact Hr].
    + right. exists d1, rc. repeat split; assumption.
Qed.

(* ----- Open ----- *)

(** [Open] is [Close] followed by the driver's open call. *)
Lemma Open_unfold (DeviceId : Z) (m : Machine CMIDIInDevice) :
  Open os DeviceId m
  = match Close os m with
    | (Normal _, m1) =>
        let r := os (trace (world m1)) (midiInOpen DeviceId) in
        let w := mkWorld (trace (world m1) ++ [(midiInOpen DeviceId, r)])
                         (signaled (world m1)) in
        if ret r =? MMSYSERR_NOERROR
        then (Normal tt,
              mkMachine (with_State OPENED
                           (with_DevHandle (out r) (this m1))) w)
        else (Throw (Cpp.mkExn Cpp.CMIDIInException (ret r)),
              mkMachine (with_DevHandle (out r) (this m1)) w)
    | (Throw e, m1) => (Throw e, m1)
    end.
Proof.
  unfold Open. run. destruct (Close os m) as [[[]|e] m1]; [|reflexivity].
  cbv zeta.
  destruct (ret (os (trace (world m1)) (midiInOpen DeviceId))
            =? MMSYSERR_NOERROR); reflexivity.
Qed.

(** Every way [Open] can end. *)
Lemma Open_cases (DeviceId : Z) (m : Machine CMIDIInDevice) :
  exists pre,
    no_open pre = true /\
    ((exists pre0 rc,
         pre = pre0 ++ [(midiInClose (m_DevHandle (this m)), rc)] /\
         ret rc <> MMSYSERR_NOERROR /\
         trace (world (snd (Open os DeviceId m))) = trace (world m) ++ pre /\
         fst (Open os DeviceId m)
         = Throw (Cpp.mkExn Cpp.CMIDIInException (ret rc)) /\
         m_State (this (snd (Open os DeviceId m))) = OPENED)
     \/
     (exists ro,
         trace (world (snd (Open os DeviceId m)))
         = trace (world m) ++ pre ++ [(midiInOpen DeviceId, ro)] /\
         (m_State (this m) <> CLOSED ->
          exists rc, In (midiInClose (m_DevHandle (this m)), rc) pre /\
                     ret rc = MMSYSERR_NOERROR) /\
         m_DevHandle (this (snd (Open os DeviceId m))) = out ro /\
         ((ret ro = MMSYSERR_NOERROR /\
           fst (Open os DeviceId m) = Normal tt /\
           m_State (this (snd (Open os DeviceId m))) = OPENED)
          \/
          (ret ro <> MMSYSERR_NOERROR /\
           fst (Open os DeviceId m)
           = Throw (Cpp.mkExn Cpp.CMIDIInException (ret ro)) /\
           m_State (this (snd (Open os DeviceId m))) = CLOSED)))).
Proof.
  rewrite Open_unfold.
  destruct (Close_summary m) as (pre & Ht & Hn & Hh & He & Hc).
  exists pre. split; [exact Hn|].
  destruct (Close os m) as [r1 m1]; cbn [fst snd] in *.
  destruct Hc as [(-> & Hst & Hrel)|(pre0 & rc & -> & Hrc & -> & Hst)].
  - right. cbv zeta. eexists.
    destruct (ret (os (trace (world m1)) (midiInOpen DeviceId))
              =? MMSYSERR_NOERROR) eqn:E; cbn.
    + apply Z.eqb_eq in E. rewrite Ht in E |- *. rewrite <- app_assoc.
      split; [reflexivity|]. split; [exact Hrel|].
      split; [reflexivity|]. left. repeat split. exact E.
    + apply Z.eqb_neq in E. rewrite Ht in E |- *. rewrite <- app_assoc.
      split; [reflexivity|]. split; [exact Hrel|].
      split; [reflexivity|]. right. repeat split; assumption.
  - left. exists pre0, rc. repeat split; assumption.
Qed.

Lemma no_open_In (tr : list Event) (c : Call) (r : Reply) :
  no_open tr = true -> In (c, r) tr -> is_open c = false.
Proof.
  unfold no_open. rewrite forallb_forall. intros H Hin.
  specialize (H _ Hin). cbn in H. destruct (is_open c); [discriminate|].
  reflexivity.
Qed.

(** [Open] of the input device, as the session sees it: after a
    successful [Open] the session is opened on the handle the driver
    just gave, the handle of a session that was not closed having been
    closed (and the close accepted) before the open call; when the
    driver's open call is rejected, its code is thrown and the session
    is closed. *)
Lemma In_Open_post (DeviceId : Z) (m m' : Machine CMIDIInDevice)
      (r : Outcome unit) :
  Open os DeviceId m = (r, m') ->
  exists delta,
    trace (world m') = trace (world m) ++ delta /\
    (r = Normal tt ->
     m_State (this m') = OPENED /\
     exists pre ro,
       delta = pre ++ [(midiInOpen DeviceId, ro)] /\
       ret ro = MMSYSERR_NOERROR /\
       m_DevHandle (this m') = out ro /\
       (m_State (this m) <> CLOSED ->
        exists rc, In (midiInClose (m_DevHandle (this m)), rc) pre /\
                   ret rc = MMSYSERR_NOERROR)) /\
    (forall ro, In (midiInOpen DeviceId, ro) delta ->
                ret ro <> MMSYSERR_NOERROR ->
                r = Throw (Cpp.mkExn Cpp.CMIDIInException (ret ro)) /\
                m_State (this m') = CLOSED).
Proof.
  intros E.
  destruct (Open_cases DeviceId m) as (pre & Hn & Hc).
  rewrite E in Hc. cbn [fst snd] in Hc.
  destruct Hc as [(pre0 & rc & -> & Hrc & Ht & -> & Hst)
                 |(ro & Ht & Hrel & Hh & Hc)].
  - eexists. split; [exact Ht|]. split; [discriminate|].
    intros ro Hin _. apply (no_open_In _ _ _ Hn) in Hin. discriminate.
  - exists (pre ++ [(midiInOpen DeviceId, ro)]). split; [exact Ht|].
    destruct Hc as [(Hro & -> & Hst)|(Hro & -> & Hst)].
    + split.
      * intros _. split; [exact Hst|]. exists pre, ro.
        split; [reflexivity|]. split; [exact Hro|].
        split; [exact Hh | exact Hrel].
      * intros ro' Hin Hne. apply in_app_or in Hin.
        destruct Hin as [Hin|[Heq|[]]].
        -- apply (no_open_In _ _ _ Hn) in Hin. discriminate.
        -- inversion Heq; subst. contradiction.
    + split; [discriminate|].
      intros ro' Hin Hne. apply in_app_or in Hin.
      destruct Hin as [Hin|[Heq|[]]].
      * apply (no_open_In _ _ _ Hn) in Hin. discriminate.
      * inversion Heq; subst. split; [reflexivity | exact Hst].
Qed.

(* ----- The opening constructor ----- *)

(** The opening constructor when the device opens and the event cannot
    be created: [Close] is performed, so the last call is the close of
    the handle just opened.  If the driver accepts it the session is
    closed and [CMIDIInEventFailure] is thrown; if not, the driver's
    code is thrown instead and the session stays opened on the
    handle. *)
Lemma In_ctor_event_failure (DeviceId DevHandle0 Event0 Receiver : Z)
      (w : World) :
  let m0 := mkMachine (under_construction DevHandle0 Event0 Receiver) w in
  let ro := os (trace w) (midiInOpen DeviceId) in
  let re := os (trace w ++ [(midiInOpen DeviceId, ro)]) Win.CreateEvent in
  ret ro = MMSYSERR_NOERROR ->
  ret re = NULL ->
  exists e rc,
    fst (CMIDIInDevice_ctor_open os DeviceId m0) = Throw e /\
    trace (world (snd (CMIDIInDevice_ctor_open os DeviceId m0)))
    = trace w ++ [(midiInOpen DeviceId, ro); (Win.CreateEvent, re);
                  (midiInClose (out ro), rc)] /\
    ((ret rc = MMSYSERR_NOERROR /\
      e = Cpp.mkExn Cpp.CMIDIInEventFailure 0 /\
      m_State (this (snd (CMIDIInDevice_ctor_open os DeviceId m0)))
      = CLOSED)
     \/
     (ret rc <> MMSYSERR_NOERROR /\
      e = Cpp.mkExn Cpp.CMIDIInException (ret rc) /\
      m_State (this (snd (CMIDIInDevice_ctor_open os DeviceId m0)))
      = OPENED /\
      m_DevHandle (this (snd (CMIDIInDevice_ctor_open os DeviceId m0)))
      = out ro)).
Proof.
  destruct w as [tr sg]. cbv zeta. cbn [trace]. intros Hro Hre.
  unfold CMIDIInDevice_ctor_open, Open, CreateEvent, Close,
    under_construction.
  unfold bind, mret, get, modify, sys, do_call, throw, rethrow. cbn.
  rewrite Hro. cbn. rewrite Hre. cbn.
  match goal with
  | |- context [ret ?R =? MMSYSERR_NOERROR] =>
      set (rc := R) in *; destruct (ret rc =? MMSYSERR_NOERROR) eqn:Ec
  end; cbn.
  - apply Z.eqb_eq in Ec. eexists _, rc. split; [reflexivity|].
    split; [rewrite <- !app_assoc; reflexivity|].
    left. repeat split. exact Ec.
  - apply Z.eqb_neq in Ec. eexists _, rc. split; [reflexivity|].
    split; [rewrite <- !app_assoc; reflexivity|].
    right. repeat split. exact Ec.
Qed.

(* ----- The handles open at the driver ----- *)

Lemma handles_after_app (a b : list Event) :
  forall hs, handles_after hs (a ++ b) = handles_after (handles_after hs a) b.
Proof.
  induction a as [|[c r] a IH]; intros hs; [reflexivity|].
  cbn [app]. destruct c; cbn [handles_after]; apply IH.
Qed.

Lemma driver_handles_app (a b : list Event) :
  driver_handles (a ++ b) = handles_after (driver_handles a) b.
Proof. apply handles_after_app. Qed.

(** A handle is not open after its close has been accepted. *)
Lemma not_In_filter_out (h : Z) (hs : list Z) :
  ~ In h (filter (fun x => negb (x =? h)) hs).
Proof.
  intros Hin. apply filter_In in Hin. destruct Hin as [_ Hb].
  rewrite Z.eqb_refl in Hb. discriminate.
Qed.

(** Destroying queued headers opens and closes no device. *)
Lemma drain_handles (q : list CMIDIInHeader) :
  forall tr hs, handles_after hs (drain os tr q) = handles_after hs tr.
Proof.
  induction q as [|[h p l] q IH]; intros tr hs; cbn [drain]; [reflexivity|].
  rewrite IH, handles_after_app. reflexivity.
Qed.

(** [StopRecording] keeps the session and the driver in agreement. *)
Lemma StopRecording_session_holds (m : Machine CMIDIInDevice) :
  m_State (this m) = RECORDING ->
  session_holds m ->
  session_holds (snd (StopRecording os m)) /\
  m_State (this (snd (StopRecording os m))) = OPENED.
Proof.
  intros Hs Hh. rewrite (StopRecording_recording m Hs). cbv zeta.
  unfold session_holds, driver_handles in *. rewrite Hs in Hh.
  cbn [snd this world trace]. rewrite drain_handles, !handles_after_app, Hh.
  destruct m as [[h ev rc q s] w]. split; reflexivity.
Qed.

(** [Close] keeps the session and the driver in agreement: the handle
    leaves the driver's side exactly when the session becomes closed. *)
Lemma Close_session_holds (m : Machine CMIDIInDevice) :
  session_holds m -> session_holds (snd (Close os m)).
Proof.
  assert (Hopened : forall m1 : Machine CMIDIInDevice,
             m_State (this m1) = OPENED ->
             session_holds m1 -> session_holds (snd (Close os m1))).
  { intros m1 Hs Hh. rewrite (Close_opened m1 Hs). cbv zeta.
    unfold session_holds, driver_handles in *. rewrite Hs in Hh.
    destruct m1 as [[h ev rc q s] [tr sg]]. cbn in Hs, Hh |- *. subst s.
    destruct (ret (os tr (midiInClose h)) =? MMSYSERR_NOERROR) eqn:E;
      cbn [snd this world trace m_State m_DevHandle with_State];
      rewrite handles_after_app, Hh; cbn; rewrite E; [|reflexivity].
    cbn. rewrite Z.eqb_refl. reflexivity. }
  intros Hh. destruct (m_State (this m)) eqn:Hs.
  - rewrite (Close_closed m Hs). exact Hh.
  - apply Hopened; assumption.
  - rewrite (Close_recording m Hs).
    destruct (StopRecording_session_holds m Hs Hh) as [Hh1 Hs1].
    apply Hopened; assumption.
Qed.

(** [Open] keeps the session and the driver in agreement, and after a
    successful [Open] the driver has exactly one handle open: the one
    the session is opened on. *)
Lemma Open_session_holds (DeviceId : Z) (m : Machine CMIDIInDevice) :
  session_holds m ->
  session_holds (snd (Open os DeviceId m)) /\
  (fst (Open os DeviceId m) = Normal tt ->
   m_State (this (snd (Open os DeviceId m))) = OPENED /\
   driver_handles (trace (world (snd (Open os DeviceId m))))
   = [m_DevHandle (this (snd (Open os DeviceId m)))]).
Proof.
  intros Hh. rewrite Open_unfold.
  pose proof (Close_session_holds m Hh) as Hh1.
  destruct (Close_summary m) as (pre & _ & _ & _ & _ & Hc).
  destruct (Close os m) as [r1 m1]; cbn [fst snd] in *.
  destruct Hc as [(-> & Hst & _)|(pre0 & rc & _ & _ & -> & _)];
    [|split; [exact Hh1 | discriminate]].
  cbv zeta. unfold session_holds, driver_handles in *. rewrite Hst in Hh1.
  destruct m1 as [[h ev rc q s] [tr sg]]. cbn in Hst, Hh1 |- *.
  destruct (ret (os tr (midiInOpen DeviceId)) =? MMSYSERR_NOERROR) eqn:E;
    cbn [fst snd this world trace m_State m_DevHandle with_State
         with_DevHandle];
    rewrite handles_after_app, Hh1; cbn; rewrite E; cbn.
  - split; [reflexivity|]. intros _. split; reflexivity.
  - rewrite Hst. split; [reflexivity | discriminate].
Qed.

End InDevice.

(* ================================================================= *)
(** ** The output device *)

Section OutDevice.
Import Win MIDIOut.
Variable os : Oracle.

Ltac run :=
  unfold bind, mret, get, modify, sys, do_call, throw, rethrow;
  cbn -[RemoveAll Close].

Lemma Out_drain_extends (q : list CMIDIOutHeader) (tr : list Event) :
  exists delta,
    drain os tr q = tr ++ delta /\
    no_open delta = true /\
    map fst delta = map unprepare_call q.
Proof.
  revert tr; induction q as [|[h p l] q IH]; intros tr; cbn [drain].
  - exists []. rewrite app_nil_r. repeat split.
  - destruct (IH (tr ++ [(unprepare_call (mkHeader h p l),
                          os tr (unprepare_call (mkHeader h p l)))]))
      as (delta & E & Hn & Hc).
    exists ((unprepare_call (mkHeader h p l),
             os tr (unprepare_call (mkHeader h p l))) :: delta).
    rewrite E, <- app_assoc. cbn.
    split; [reflexivity|]. split; [exact Hn | congruence].
Qed.

Lemma Out_RemoveAll_loop_spec (n : nat) :
  forall m, (length (m_HdrQueue (this m)) <= n)%nat ->
    RemoveAll_loop os n m
    = (Normal tt,
       mkMachine (with_HdrQueue [] (this m))
                 (mkWorld (drain os (trace (world m)) (m_HdrQueue (this m)))
                          (signaled (world m)))).
Proof.
  induction n as [|n IH]; intros [[h ev q s] [tr sg]] Hq; cbn in Hq.
  - destruct q; [reflexivity | cbn in Hq; lia].
  - cbn [RemoveAll_loop]. unfold delete, CMIDIOutHeader_dtor, pop. run.
    destruct q as [|front q]; [reflexivity|].
    run. rewrite IH by (cbn in *; lia). reflexivity.
Qed.

Lemma Out_RemoveAll_spec (m : Machine CMIDIOutDevice) :
  RemoveAll os m
  = (Normal tt,
     mkMachine (with_HdrQueue [] (this m))
               (mkWorld (drain os (trace (world m)) (m_HdrQueue (this m)))
                        (signaled (world m)))).
Proof.
  unfold RemoveAll, bind, get. cbn -[RemoveAll_loop].
  apply Out_RemoveAll_loop_spec. reflexivity.
Qed.

(* ----- Close ----- *)

Lemma Out_Close_closed (m : Machine CMIDIOutDevice) :
  m_State (this m) = CLOSED -> Close os m = (Normal tt, m).
Proof.
  destruct m as [[h ev q s] [tr sg]]; cbn. intros ->.
  unfold Close. run. reflexivity.
Qed.

(** [Close] on an opened session, step by step. *)
Lemma Out_Close_opened (m : Machine CMIDIOutDevice) :
  m_State (this m) = OPENED ->
  let tr := trace (world m) in
  let e1 := (SetEvent (m_Event (this m)),
             os tr (SetEvent (m_Event (this m)))) in
  let tr2 := drain os (tr ++ [e1]) (m_HdrQueue (this m)) in
  let c := midiOutClose (m_DevHandle (this m)) in
  Close os m
  = (Normal tt,
     mkMachine
       (with_HdrQueue [] (with_State CLOSED (this m)))
       (mkWorld (tr2 ++ [(c, os tr2 c)])
                (set_signal (signaled (world m)) (m_Event (this m)) true))).
Proof.
  destruct m as [[h ev q s] [tr sg]]; cbn. intros ->.
  unfold Close. run. rewrite Out_RemoveAll_spec. reflexivity.
Qed.

(** [Close] of the output device returns normally whatever the driver
    answers, and leaves the session closed. *)
Lemma Out_Close_never_throws (m : Machine CMIDIOutDevice) :
  fst (Close os m) = Normal tt /\
  m_State (this (snd (Close os m))) = CLOSED.
Proof.
  destruct (m_State (this m)) eqn:Hs.
  - rewrite (Out_Close_closed m Hs). split; [reflexivity | exact Hs].
  - rewrite (Out_Close_opened m Hs). split; reflexivity.
Qed.

Lemma Out_Close_summary (m : Machine CMIDIOutDevice) :
  exists pre,
    trace (world (snd (Close os m))) = trace (world m) ++ pre /\
    no_open pre = true /\
    m_DevHandle (this (snd (Close os m))) = m_DevHandle (this m) /\
    m_Event (this (snd (Close os m))) = m_Event (this m) /\
    fst (Close os m) = Normal tt /\
    m_State (this (snd (Close os m))) = CLOSED /\
    (m_State (this m) = OPENED ->
     exists rc, In (midiOutClose (m_DevHandle (this m)), rc) pre).
Proof.
  destruct (m_State (this m)) eqn:Hs.
  - rewrite (Out_Close_closed m Hs). exists []. rewrite app_nil_r.
    do 5 (split; [reflexivity|]). split; [exact Hs|].
    intros Ho. discriminate.
  - rewrite (Out_Close_opened m Hs). cbv zeta. cbn [fst snd this world trace].
    match goal with
    | |- context [drain os ?T ?Q] =>
        destruct (Out_drain_extends Q T) as (delta & E & Hn & _);
        rewrite !E
    end.
    eexists (_ :: delta ++ [_]).
    split; [rewrite <- !app_assoc; reflexivity|].
    split; [cbn; rewrite no_open_app, Hn; reflexivity|].
    do 4 (split; [reflexivity|]).
    intros _. eexists. right. apply in_or_app. right. left. reflexivity.
Qed.

(* ----- Open ----- *)

(** [Open] is [Close], the creation of the worker thread and the
    driver's open call. *)
Lemma Out_Open_unfold (DeviceId : Z) (m : Machine CMIDIOutDevice) :
  Open os DeviceId m
  = match Close os m with
    | (Normal _, m1) =>
        let rt := os (trace (world m1)) CreateThread in
        let tr1 := trace (world m1) ++ [(CreateThread, rt)] in
        if ret rt =? NULL
        then (Throw (Cpp.mkExn Cpp.CMIDIOutThreadFailure 0),
              mkMachine (this m1) (mkWorld tr1 (signaled (world m1))))
        else
          let ro := os tr1 (midiOutOpen DeviceId) in
          let tr2 := tr1 ++ [(midiOutOpen DeviceId, ro)] in
          if ret ro =? MMSYSERR_NOERROR
          then (Normal tt,
                mkMachine (with_State OPENED
                             (with_DevHandle (out ro) (this m1)))
                          (mkWorld tr2 (signaled (world m1))))
          else
            let c := SetEvent (m_Event (this m1)) in
            (Throw (Cpp.mkExn Cpp.CMIDIOutException (ret ro)),
             mkMachine (with_DevHandle (out ro) (this m1))
                       (mkWorld (tr2 ++ [(c, os tr2 c)])
                                (set_signal (signaled (world m1))
                                            (m_Event (this m1)) true)))
    | (Throw e, m1) => (Throw e, m1)
    end.
Proof.
  unfold Open. run. destruct (Close os m) as [[[]|e] m1]; [|reflexivity].
  cbv zeta.
  destruct (ret (os (trace (world m1)) CreateThread) =? NULL);
    [reflexivity|].
  run.
  match goal with
  | |- context [ret ?R =? MMSYSERR_NOERROR] =>
      destruct (ret R =? MMSYSERR_NOERROR)
  end; reflexivity.
Qed.

(** [Open] of the output device, as the session sees it: after a
    successful [Open] the session is opened on the handle the driver
    just gave, the close of the handle of an opened session having been
    issued before the open call (what the driver answered to it is not
    looked at); when the driver's open call is rejected, its code is
    thrown and the session is closed. *)
Lemma Out_Open_post (DeviceId : Z) (m m' : Machine CMIDIOutDevice)
      (r : Outcome unit) :
  Open os DeviceId m = (r, m') ->
  exists delta,
    trace (world m') = trace (world m) ++ delta /\
    (r = Normal tt ->
     m_State (this m') = OPENED /\
     exists pre rt ro,
       delta = pre ++ [(CreateThread, rt); (midiOutOpen DeviceId, ro)] /\
       ret ro = MMSYSERR_NOERROR /\
       m_DevHandle (this m') = out ro /\
       (m_State (this m) = OPENED ->
        exists rc, In (midiOutClose (m_DevHandle (this m)), rc) pre)) /\
    (forall ro, In (midiOutOpen DeviceId, ro) delta ->
                ret ro <> MMSYSERR_NOERROR ->
                r = Throw (Cpp.mkExn Cpp.CMIDIOutException (ret ro)) /\
                m_State (this m') = CLOSED).
Proof.
  rewrite Out_Open_unfold.
  destruct (Out_Close_summary m) as (pre & Ht & Hn & Hh & He & Hf & Hst & Hrel).
  destruct (Close os m) as [r1 m1]; cbn [fst snd] in *. subst r1.
  cbv zeta.
  set (rt := os (trace (world m1)) CreateThread).
  set (ro := os (trace (world m1) ++ [(CreateThread, rt)])
                (midiOutOpen DeviceId)).
  set (rs := os ((trace (world m1) ++ [(CreateThread, rt)])
                 ++ [(midiOutOpen DeviceId, ro)])
                (SetEvent (m_Event (this m1)))).
  assert (Hpre : forall c rp, In (c, rp) pre -> is_open c = false).
  { intros c rp Hin. unfold no_open in Hn. rewrite forallb_forall in Hn.
    specialize (Hn _ Hin). cbn in Hn.
    destruct (is_open c); [discriminate | reflexivity]. }
  destruct (ret rt =? NULL) eqn:Et;
    [| destruct (ret ro =? MMSYSERR_NOERROR) eqn:Eo ];
    intros E; inversion E; subst r m'; clear E; cbn [this world trace].
  - exists (pre ++ [(CreateThread, rt)]).
    split; [rewrite Ht, <- app_assoc; reflexivity|].
    split; [discriminate|].
    intros ro' Hin _. apply in_app_or in Hin.
    destruct Hin as [Hin|[Heq|[]]];
      [apply Hpre in Hin; discriminate | discriminate].
  - apply Z.eqb_eq in Eo.
    exists (pre ++ [(CreateThread, rt); (midiOutOpen DeviceId, ro)]).
    split; [rewrite Ht, <- !app_assoc; reflexivity|].
    split.
    + intros _. split; [reflexivity|]. exists pre, rt, ro.
      split; [reflexivity|]. split; [exact Eo|].
      split; [reflexivity | exact Hrel].
    + intros ro' Hin Hne. apply in_app_or in Hin.
      destruct Hin as [Hin|[Heq|[Heq|[]]]];
        [apply Hpre in Hin; discriminate | discriminate |].
      inversion Heq; subst ro'. contradiction.
  - apply Z.eqb_neq in Eo.
    exists (pre ++ [(CreateThread, rt); (midiOutOpen DeviceId, ro);
                    (SetEvent (m_Event (this m1)), rs)]).
    split; [rewrite Ht, <- !app_assoc; reflexivity|].
    split; [discriminate|].
    intros ro' Hin Hne. apply in_app_or in Hin.
    destruct Hin as [Hin|[Heq|[Heq|[Heq|[]]]]];
      [apply Hpre in Hin; discriminate | discriminate | | discriminate].
    inversion Heq; subst ro'. split; [reflexivity|].
    cbn. exact Hst.
Qed.

(* ----- The opening constructor ----- *)

(** The opening constructor when the device opens and the event cannot
    be created: [Close] is performed, so the last call is the close of
    the handle just opened, the session is closed and
    [CMIDIOutEventFailure] is thrown. *)
Lemma Out_ctor_event_failure (DeviceId DevHandle0 Event0 : Z) (w : World) :
  let m0 := mkMachine (under_construction DevHandle0 Event0) w in
  let rt := os (trace w) CreateThread in
  let ro := os (trace w ++ [(CreateThread, rt)]) (midiOutOpen DeviceId) in
  let re := os (trace w ++ [(CreateThread, rt); (midiOutOpen DeviceId, ro)])
               Win.CreateEvent in
  ret rt <> NULL ->
  ret ro = MMSYSERR_NOERROR ->
  ret re = NULL ->
  exists rs rc,
    fst (CMIDIOutDevice_ctor_open os DeviceId m0)
    = Throw (Cpp.mkExn Cpp.CMIDIOutEventFailure 0) /\
    trace (world (snd (CMIDIOutDevice_ctor_open os DeviceId m0)))
    = trace w ++ [(CreateThread, rt); (midiOutOpen DeviceId, ro);
                  (Win.CreateEvent, re); (SetEvent (ret re), rs);
                  (midiOutClose (out ro), rc)] /\
    m_State (this (snd (CMIDIOutDevice_ctor_open os DeviceId m0)))
    = CLOSED.
Proof.
  destruct w as [tr sg]. cbv zeta. cbn [trace]. intros Hrt Hro Hre.
  apply Z.eqb_neq in Hrt.
  replace (tr ++ [(CreateThread, os tr CreateThread);
                  (midiOutOpen DeviceId,
                   os (tr ++ [(CreateThread, os tr CreateThread)])
                      (midiOutOpen DeviceId))])
    with ((tr ++ [(CreateThread, os tr CreateThread)])
          ++ [(midiOutOpen DeviceId,
               os (tr ++ [(CreateThread, os tr CreateThread)])
                  (midiOutOpen DeviceId))]) in *
    by (rewrite <- app_assoc; reflexivity).
  unfold CMIDIOutDevice_ctor_open, Open, CreateEvent, Close, RemoveAll,
    under_construction.
  unfold bind, mret, get, modify, sys, do_call, throw, rethrow. cbn.
  rewrite Hrt. cbn. rewrite Hro. cbn. rewrite Hre. cbn.
  match goal with
  | |- context [(SetEvent ?h, ?R)] => set (rs := R)
  end.
  match goal with
  | |- context [(midiOutClose ?h, ?R)] => set (rc := R)
  end.
  exists rs, rc. split; [reflexivity|].
  split; [|reflexivity].
  rewrite <- !app_assoc. reflexivity.
Qed.

(* ----- SendMsg ----- *)

Lemma Out_SendMsg_closed (Msg : Z) (m : Machine CMIDIOutDevice) :
  m_State (this m) = CLOSED -> SendMsg os Msg m = (Normal tt, m).
Proof.
  destruct m as [[h ev q s] [tr sg]]; cbn. intros ->.
  unfold SendMsg. run. reflexivity.
Qed.

Lemma Out_SendMsg_long_closed (Msg MsgLength : Z)
      (m : Machine CMIDIOutDevice) :
  m_State (this m) = CLOSED ->
  SendMsg_long os Msg MsgLength m = (Normal tt, m).
Proof.
  destruct m as [[h ev q s] [tr sg]]; cbn. intros ->.
  unfold SendMsg_long. run. reflexivity.
Qed.

(* ----- The handles open at the driver ----- *)

Lemma Out_handles_after_app (a b : list Event) :
  forall hs, handles_after hs (a ++ b) = handles_after (handles_after hs a) b.
Proof.
  induction a as [|[c r] a IH]; intros hs; [reflexivity|].
  cbn [app]. destruct c; cbn [handles_after]; apply IH.
Qed.

Lemma Out_driver_handles_app (a b : list Event) :
  driver_handles (a ++ b) = handles_after (driver_handles a) b.
Proof. apply Out_handles_after_app. Qed.

(** Destroying queued headers opens and closes no device. *)
Lemma Out_drain_handles (q : list CMIDIOutHeader) :
  forall tr hs, handles_after hs (drain os tr q) = handles_after hs tr.
Proof.
  induction q as [|[h p l] q IH]; intros tr hs; cbn [drain]; [reflexivity|].
  rewrite IH, Out_handles_after_app. reflexivity.
Qed.

(** [Close] on an opened session, at the driver: the handle leaves the
    driver's side only when the driver accepts [midiOutClose]; when it
    refuses, every handle that was open still is, although the session
    is closed after the call in both cases
    ([Out_Close_never_throws]). *)
Lemma Out_Close_driver_handles (m : Machine CMIDIOutDevice) :
  m_State (this m) = OPENED ->
  exists rc,
    In (midiOutClose (m_DevHandle (this m)), rc)
       (trace (world (snd (Close os m)))) /\
    driver_handles (trace (world (snd (Close os m))))
    = if ret rc =? MMSYSERR_NOERROR
      then filter (fun x => negb (x =? m_DevHandle (this m)))
                  (driver_handles (trace (world m)))
      else driver_handles (trace (world m)).
Proof.
  intros Hs. rewrite (Out_Close_opened m Hs). cbv zeta.
  cbn [snd this world trace]. eexists. split.
  - apply in_or_app. right. left. reflexivity.
  - unfold driver_handles.
    rewrite Out_handles_after_app, Out_drain_handles, Out_handles_after_app.
    cbn.
    match goal with
    | |- context [ret ?R =? MMSYSERR_NOERROR] =>
        destruct (ret R =? MMSYSERR_NOERROR)
    end; reflexivity.
Qed.

(** [Open] on an opened session whose close the driver refuses: when it
    returns normally, every handle that was open at the driver still is,
    and the new one is open as well. *)
Lemma Out_Open_keeps_refused_handle (DeviceId : Z)
      (m : Machine CMIDIOutDevice) :
  m_State (this m) = OPENED ->
  fst (Open os DeviceId m) = Normal tt ->
  exists rc,
    In (midiOutClose (m_DevHandle (this m)), rc)
       (trace (world (snd (Open os DeviceId m)))) /\
    (ret rc <> MMSYSERR_NOERROR ->
     driver_handles (trace (world (snd (Open os DeviceId m))))
     = driver_handles (trace (world m))
       ++ [m_DevHandle (this (snd (Open os DeviceId m)))]).
Proof.
  intros Hs. rewrite Out_Open_unfold.
  destruct (Out_Close_driver_handles m Hs) as (rc & Hin & Hd).
  destruct (Out_Close_never_throws m) as [Hf _].
  destruct (Close os m) as [r1 m1]; cbn [fst snd] in *. subst r1.
  cbv zeta.
  destruct (ret (os (trace (world m1)) CreateThread) =? NULL);
    [discriminate|].
  match goal with
  | |- context [ret ?R =? MMSYSERR_NOERROR] =>
      destruct (ret R =? MMSYSERR_NOERROR) eqn:Eo
  end; [|discriminate].
  cbn [fst snd this world trace]. intros _. exists rc. split.
  - apply in_or_app. left. apply in_or_app. left. exact Hin.
  - intros Hne. apply Z.eqb_neq in Hne. rewrite Hne in Hd.
    rewrite !Out_driver_handles_app, Hd. cbn [handles_after].
    rewrite Eo. destruct m1 as [[] ?]. reflexivity.
Qed.

End OutDevice.

(* ================================================================= *)
(** ** Submitting a long message that the driver rejects *)

Section RejectedSubmission.
Import Win.
Variable os : Oracle.

(** [CMIDIInDevice::AddSysExBuffer] when the header is prepared and the
    driver then rejects [midiInAddBuffer]: the handler names
    [CMIDIInDevice], which is not a base of [CMIDIInException], so it
    does not run.  The driver's code reaches the caller, and the trace
    ends with the rejected call: the header is never unprepared. *)
Lemma In_AddSysExBuffer_rejected (Buffer BufferLength : Z)
      (m : Machine MIDIIn.CMIDIInDevice) :
  let h := MIDIIn.m_DevHandle (this m) in
  let tr := trace (world m) in
  let ra := os tr operator_new in
  let tr1 := tr ++ [(operator_new, ra)] in
  let rp := os tr1 (midiInPrepareHeader h Buffer BufferLength) in
  let tr2 := tr1 ++ [(midiInPrepareHeader h Buffer BufferLength, rp)] in
  let rb := os tr2 (midiInAddBuffer h Buffer BufferLength) in
  ret ra <> NULL ->
  ret rp = MMSYSERR_NOERROR ->
  ret rb <> MMSYSERR_NOERROR ->
  MIDIIn.AddSysExBuffer os Buffer BufferLength m
  = (Throw (Cpp.mkExn Cpp.CMIDIInException (ret rb)),
     mkMachine (this m)
               (mkWorld (tr2 ++ [(midiInAddBuffer h Buffer BufferLength, rb)])
                        (signaled (world m)))).
Proof.
  destruct m as [[h ev rc q s] [tr sg]]. cbv zeta. cbn.
  intros Ha Hp Hb.
  apply Z.eqb_neq in Ha, Hb.
  unfold MIDIIn.AddSysExBuffer, MIDIIn.new_CMIDIInHeader,
    MIDIIn.CMIDIInHeader_ctor, MIDIIn.CMIDIInHeader_AddSysExBuffer,
    try_catch, bind, mret, get, modify, sys, do_call, throw, rethrow.
  cbn. rewrite Ha. cbn. rewrite Hp. cbn. rewrite Hb. cbn.
  reflexivity.
Qed.

(** [CMIDIOutDevice::SendMsg(LPSTR, DWORD)] when the header is prepared
    and the driver then rejects [midiOutLongMsg]: the handler unprepares
    the header and ends, so the call returns normally. *)
Lemma Out_SendMsg_long_rejected (Msg MsgLength : Z)
      (m : Machine MIDIOut.CMIDIOutDevice) :
  let h := MIDIOut.m_DevHandle (this m) in
  let tr := trace (world m) in
  let ra := os tr operator_new in
  let tr1 := tr ++ [(operator_new, ra)] in
  let rp := os tr1 (midiOutPrepareHeader h Msg MsgLength) in
  let tr2 := tr1 ++ [(midiOutPrepareHeader h Msg MsgLength, rp)] in
  let rb := os tr2 (midiOutLongMsg h Msg MsgLength) in
  let tr3 := tr2 ++ [(midiOutLongMsg h Msg MsgLength, rb)] in
  let ru := os tr3 (midiOutUnprepareHeader h Msg MsgLength) in
  MIDIOut.m_State (this m) = MIDIOut.OPENED ->
  ret ra <> NULL ->
  ret rp = MMSYSERR_NOERROR ->
  ret rb <> MMSYSERR_NOERROR ->
  MIDIOut.SendMsg_long os Msg MsgLength m
  = (Normal tt,
     mkMachine (this m)
               (mkWorld (tr3 ++ [(midiOutUnprepareHeader h Msg MsgLength, ru)])
                        (signaled (world m)))).
Proof.
  destruct m as [[h ev q s] [tr sg]]. cbv zeta. cbn.
  intros -> Ha Hp Hb.
  apply Z.eqb_neq in Ha, Hb.
  unfold MIDIOut.SendMsg_long, MIDIOut.new_CMIDIOutHeader,
    MIDIOut.CMIDIOutHeader_ctor, MIDIOut.CMIDIOutHeader_SendMsg,
    MIDIOut.delete, MIDIOut.CMIDIOutHeader_dtor,
    try_catch, bind, mret, get, modify, sys, do_call, throw, rethrow.
  cbn. rewrite Ha. cbn. rewrite Hp. cbn. rewrite Hb. cbn.
  reflexivity.
Qed.

End RejectedSubmission.

Section RejectedSubmissionRun.
Import Win Script.

(** C2 (violated by the code): the driver rejects the submit call after
    the header was prepared.  On the input device the error reaches the
    caller, but the last call is the rejected [midiInAddBuffer]: the
    prepared header is never unprepared.  On the output device the
    header is unprepared, but [SendMsg] returns normally: no error
    reaches the caller. *)
Theorem rejected_submission_leaks_or_is_silent :
  (fst (MIDIIn.AddSysExBuffer
          (driver rejects_midiInAddBuffer MIDIERR_STILLPLAYING)
          500 16 in_opened)
   = Throw (Cpp.mkExn Cpp.CMIDIInException MIDIERR_STILLPLAYING) /\
   calls (world (snd (MIDIIn.AddSysExBuffer
                        (driver rejects_midiInAddBuffer MIDIERR_STILLPLAYING)
                        500 16 in_opened)))
   = [operator_new; midiInPrepareHeader 11 500 16;
      midiInAddBuffer 11 500 16] /\
   MIDIIn.m_HdrQueue
     (this (snd (MIDIIn.AddSysExBuffer
                   (driver rejects_midiInAddBuffer MIDIERR_STILLPLAYING)
                   500 16 in_opened)))
   = [])
  /\
  (fst (MIDIOut.SendMsg_long
          (driver rejects_midiOutLongMsg MIDIERR_NOTREADY)
          500 16 out_opened)
   = Normal tt /\
   calls (world (snd (MIDIOut.SendMsg_long
                        (driver rejects_midiOutLongMsg MIDIERR_NOTREADY)
                        500 16 out_opened)))
   = [operator_new; midiOutPrepareHeader 11 500 16;
      midiOutLongMsg 11 500 16; midiOutUnprepareHeader 11 500 16]).
Proof. repeat split. Qed.

End RejectedSubmissionRun.

(* ================================================================= *)
(** ** The session state machine *)

Section Sessions.
Import Win Script.

(** C5 (violated by the code): [CMIDIOutDevice::Close] on an opened
    session whose [midiOutClose] is rejected by the driver returns
    normally and reports the session closed: the driver's error is
    dropped. *)
Theorem Out_Close_drops_driver_error :
  fst (MIDIOut.Close (driver rejects_midiOutClose MIDIERR_STILLPLAYING)
                     out_opened)
  = Normal tt /\
  MIDIOut.m_State
    (this (snd (MIDIOut.Close
                  (driver rejects_midiOutClose MIDIERR_STILLPLAYING)
                  out_opened)))
  = MIDIOut.CLOSED /\
  trace (world (snd (MIDIOut.Close
                       (driver rejects_midiOutClose MIDIERR_STILLPLAYING)
                       out_opened)))
  = [(SetEvent 22, mkReply 100 0);
     (midiOutUnprepareHeader 11 700 8, mkReply MMSYSERR_NOERROR 0);
     (midiOutClose 11, mkReply MIDIERR_STILLPLAYING 0)].
Proof. repeat split. Qed.

(** C6 (violated by the code on the output device): a session opens
    device 0, then calls [Open] again for device 1 while the driver
    refuses [midiOutClose].  The second [Open] returns normally with the
    session opened on the new handle, and the driver has two handles
    open: the implicit close did not release the first one, and its
    failure was not reported. *)
Theorem Out_Open_after_refused_close_holds_two_handles :
  let os := driver rejects_midiOutClose MIDIERR_STILLPLAYING in
  let m1 := snd (MIDIOut.Open os 0 out_fresh) in
  let m2 := snd (MIDIOut.Open os 1 m1) in
  fst (MIDIOut.Open os 0 out_fresh) = Normal tt /\
  MIDIOut.m_State (this m1) = MIDIOut.OPENED /\
  MIDIOut.m_DevHandle (this m1) = 101 /\
  MIDIOut.driver_handles (trace (world m1)) = [101] /\
  fst (MIDIOut.Open os 1 m1) = Normal tt /\
  MIDIOut.m_State (this m2) = MIDIOut.OPENED /\
  MIDIOut.m_DevHandle (this m2) = 105 /\
  trace (world m2)
  = [(CreateThread, mkReply 100 0);
     (midiOutOpen 0, mkReply MMSYSERR_NOERROR 101);
     (SetEvent 22, mkReply 102 0);
     (midiOutClose 101, mkReply MIDIERR_STILLPLAYING 0);
     (CreateThread, mkReply 104 0);
     (midiOutOpen 1, mkReply MMSYSERR_NOERROR 105)] /\
  MIDIOut.driver_handles (trace (world m2)) = [101; 105].
Proof.
  cbv zeta. do 8 (split; [reflexivity|]). reflexivity.
Qed.

(** C9, as amended: the opening constructor, when the device opens and
    the signalling event cannot be created, performs [Close] before any
    exception leaves it: its last call is the close of the handle just
    opened.  On the input device [CMIDIInEventFailure] is thrown when
    the driver accepts the close, with the session closed and the handle
    no longer open at the driver; when the driver refuses it, the
    [CMIDIInException] of [Close] is thrown instead, the session stays
    opened and the handle is still open at the driver.  On the output
    device, when the driver accepts the close, [CMIDIOutEventFailure]
    is thrown with the session closed and the handle no longer open at
    the driver. *)
Theorem ctor_closes_before_throwing
        (os_in os_out : Oracle) (DeviceId : Z)
        (DevHandle0 Event0 Receiver : Z) (w : World) :
  let mi := mkMachine (MIDIIn.under_construction DevHandle0 Event0 Receiver)
                      w in
  let mo := mkMachine (MIDIOut.under_construction DevHandle0 Event0) w in
  let ri_open := os_in (trace w) (midiInOpen DeviceId) in
  let ri_event := os_in (trace w ++ [(midiInOpen DeviceId, ri_open)])
                        CreateEvent in
  let ro_thread := os_out (trace w) CreateThread in
  let ro_open := os_out (trace w ++ [(CreateThread, ro_thread)])
                        (midiOutOpen DeviceId) in
  let ro_event := os_out (trace w ++ [(CreateThread, ro_thread);
                                      (midiOutOpen DeviceId, ro_open)])
                         CreateEvent in
  ret ri_open = MMSYSERR_NOERROR ->
  ret ri_event = NULL ->
  ret ro_thread <> NULL ->
  ret ro_open = MMSYSERR_NOERROR ->
  ret ro_event = NULL ->
  (exists e rc,
      fst (MIDIIn.CMIDIInDevice_ctor_open os_in DeviceId mi) = Throw e /\
      trace (world (snd (MIDIIn.CMIDIInDevice_ctor_open os_in DeviceId mi)))
      = trace w ++ [(midiInOpen DeviceId, ri_open); (CreateEvent, ri_event);
                    (midiInClose (out ri_open), rc)] /\
      ((ret rc = MMSYSERR_NOERROR /\
        e = Cpp.mkExn Cpp.CMIDIInEventFailure 0 /\
        MIDIIn.m_State
          (this (snd (MIDIIn.CMIDIInDevice_ctor_open os_in DeviceId mi)))
        = MIDIIn.CLOSED /\
        ~ In (out ri_open)
             (MIDIIn.driver_handles
                (trace (world (snd (MIDIIn.CMIDIInDevice_ctor_open
                                      os_in DeviceId mi))))))
       \/
       (ret rc <> MMSYSERR_NOERROR /\
        e = Cpp.mkExn Cpp.CMIDIInException (ret rc) /\
        MIDIIn.m_State
          (this (snd (MIDIIn.CMIDIInDevice_ctor_open os_in DeviceId mi)))
        = MIDIIn.OPENED /\
        MIDIIn.m_DevHandle
          (this (snd (MIDIIn.CMIDIInDevice_ctor_open os_in DeviceId mi)))
        = out ri_open /\
        In (out ri_open)
           (MIDIIn.driver_handles
              (trace (world (snd (MIDIIn.CMIDIInDevice_ctor_open
                                    os_in DeviceId mi))))))))
  /\
  (exists rs rc,
      trace (world (snd (MIDIOut.CMIDIOutDevice_ctor_open
                           os_out DeviceId mo)))
      = trace w ++ [(CreateThread, ro_thread);
                    (midiOutOpen DeviceId, ro_open);
                    (CreateEvent, ro_event);
                    (SetEvent (ret ro_event), rs);
                    (midiOutClose (out ro_open), rc)] /\
      (ret rc = MMSYSERR_NOERROR ->
       fst (MIDIOut.CMIDIOutDevice_ctor_open os_out DeviceId mo)
       = Throw (Cpp.mkExn Cpp.CMIDIOutEventFailure 0) /\
       MIDIOut.m_State
         (this (snd (MIDIOut.CMIDIOutDevice_ctor_open os_out DeviceId mo)))
       = MIDIOut.CLOSED /\
       ~ In (out ro_open)
            (MIDIOut.driver_handles
               (trace (world (snd (MIDIOut.CMIDIOutDevice_ctor_open
                                     os_out DeviceId mo))))))).
Proof.
  cbv zeta. intros Hio Hie Hot Hoo Hoe. split.
  - destruct (In_ctor_event_failure os_in DeviceId DevHandle0 Event0
                Receiver w Hio Hie) as (e & rc & Hf & Ht & Hc).
    exists e, rc. split; [exact Hf|]. split; [exact Ht|].
    rewrite Ht, driver_handles_app. cbn [MIDIIn.handles_after].
    rewrite Hio. cbn [Z.eqb].
    destruct Hc as [(Hrc & He & Hst)|(Hrc & He & Hst & Hh)].
    + left. do 3 (split; [assumption|]).
      rewrite Hrc. cbn [Z.eqb]. apply not_In_filter_out.
    + right. do 4 (split; [assumption|]).
      apply Z.eqb_neq in Hrc. rewrite Hrc.
      apply in_or_app. right. left. reflexivity.
  - destruct (Out_ctor_event_failure os_out DeviceId DevHandle0 Event0
                w Hot Hoo Hoe) as (rs & rc & Hf & Ht & Hst).
    exists rs, rc. split; [exact Ht|]. intros Hrc.
    split; [exact Hf|]. split; [exact Hst|].
    rewrite Ht, Out_driver_handles_app. cbn [MIDIOut.handles_after].
    rewrite Hoo, Hrc. cbn [Z.eqb]. apply not_In_filter_out.
Qed.

(** C9 as first stated does not hold on the input device: the device
    opens (handle 100), the event cannot be created, and the driver
    refuses [midiInClose].  The constructor then leaves with the
    [CMIDIInException] thrown by [Close], not with [CMIDIInEventFailure];
    the session is still opened and the handle is still open at the
    driver. *)
Lemma In_ctor_close_rejected :
  ret (driver rejects_CreateEvent_and_midiInClose MIDIERR_STILLPLAYING
         [] (midiInOpen 0)) = MMSYSERR_NOERROR /\
  ret (driver rejects_CreateEvent_and_midiInClose MIDIERR_STILLPLAYING
         [(midiInOpen 0, mkReply MMSYSERR_NOERROR 100)] CreateEvent) = NULL /\
  fst (MIDIIn.CMIDIInDevice_ctor_open
         (driver rejects_CreateEvent_and_midiInClose MIDIERR_STILLPLAYING) 0
         (mkMachine (MIDIIn.under_construction 1 2 3) fresh_world))
  = Throw (Cpp.mkExn Cpp.CMIDIInException MIDIERR_STILLPLAYING) /\
  fst (MIDIIn.CMIDIInDevice_ctor_open
         (driver rejects_CreateEvent_and_midiInClose MIDIERR_STILLPLAYING) 0
         (mkMachine (MIDIIn.under_construction 1 2 3) fresh_world))
  <> Throw (Cpp.mkExn Cpp.CMIDIInEventFailure 0) /\
  MIDIIn.m_State
    (this (snd (MIDIIn.CMIDIInDevice_ctor_open
                  (driver rejects_CreateEvent_and_midiInClose
                     MIDIERR_STILLPLAYING) 0
                  (mkMachine (MIDIIn.under_construction 1 2 3) fresh_world))))
  = MIDIIn.OPENED /\
  MIDIIn.driver_handles
    (trace (world (snd (MIDIIn.CMIDIInDevice_ctor_open
                          (driver rejects_CreateEvent_and_midiInClose
                             MIDIERR_STILLPLAYING) 0
                          (mkMachine (MIDIIn.under_construction 1 2 3)
                                     fresh_world)))))
  = [100].
Proof.
  split; [reflexivity|]. split; [reflexivity|]. split; [reflexivity|].
  split; [discriminate|]. split; reflexivity.
Qed.

(** C10: on an output device that is not opened, both forms of
    [SendMsg] return normally and change nothing: no call reaches the
    driver, and the state and the header queue stay as they were. *)
Theorem SendMsg_closed_is_noop
        (os : Oracle) (ShortMsg Msg MsgLength : Z)
        (m : Machine MIDIOut.CMIDIOutDevice) :
  MIDIOut.m_State (this m) = MIDIOut.CLOSED ->
  MIDIOut.SendMsg os ShortMsg m = (Normal tt, m) /\
  MIDIOut.SendMsg_long os Msg MsgLength m = (Normal tt, m).
Proof.
  intros Hs. split.
  - apply Out_SendMsg_closed; exact Hs.
  - apply Out_SendMsg_long_closed; exact Hs.
Qed.

End Sessions.

(* ================================================================= *)
(** ** The theorems at concrete sessions *)

Section Instances.
Import Win Script.

Lemma StopRecording_empties_queue_witness :
  MIDIIn.m_State (this in_recording) = MIDIIn.RECORDING /\
  exists m' delta,
    MIDIIn.StopRecording (driver nothing 0) in_recording = (Normal tt, m') /\
    MIDIIn.m_HdrQueue (this m') = [] /\
    MIDIIn.m_State (this m') = MIDIIn.OPENED /\
    trace (world m') = trace (world in_recording) ++ delta /\
    MIDIIn.reclaimed delta = MIDIIn.m_HdrQueue (this in_recording).
Proof.
  split; [reflexivity|].
  apply (StopRecording_empties_queue (driver nothing 0) in_recording).
  reflexivity.
Defined.

Lemma StartRecording_failure_rolls_back_witness :
  MIDIIn.m_State (this in_opened) = MIDIIn.OPENED /\
  MIDIIn.StartRecording (driver rejects_midiInStart MMSYSERR_NOMEM) in_opened
  = (Throw (Cpp.mkExn Cpp.CMIDIInException MMSYSERR_NOMEM),
     snd (MIDIIn.StartRecording (driver rejects_midiInStart MMSYSERR_NOMEM)
                                in_opened)) /\
  MIDIIn.m_State
    (this (snd (MIDIIn.StartRecording
                  (driver rejects_midiInStart MMSYSERR_NOMEM) in_opened)))
  = MIDIIn.OPENED.
Proof.
  split; [reflexivity|]. split; [reflexivity|].
  exact (proj1 (StartRecording_failure_rolls_back
                  (driver rejects_midiInStart MMSYSERR_NOMEM)
                  in_opened
                  (snd (MIDIIn.StartRecording
                          (driver rejects_midiInStart MMSYSERR_NOMEM)
                          in_opened))
                  (Cpp.mkExn Cpp.CMIDIInException MMSYSERR_NOMEM)
                  eq_refl eq_refl)).
Defined.

Lemma ctor_closes_before_throwing_witness :
  ret (driver rejects_CreateEvent 0 [] (midiInOpen 0)) = MMSYSERR_NOERROR /\
  ret (driver rejects_CreateEvent 0
         [(midiInOpen 0, driver rejects_CreateEvent 0 [] (midiInOpen 0))]
         CreateEvent) = NULL /\
  ret (driver rejects_CreateEvent 0 [] CreateThread) <> NULL /\
  (exists rc,
      trace (world (snd (MIDIIn.CMIDIInDevice_ctor_open
                           (driver rejects_CreateEvent 0) 0
                           (mkMachine (MIDIIn.under_construction 1 2 3)
                                      fresh_world))))
      = [(midiInOpen 0, mkReply MMSYSERR_NOERROR 100);
         (CreateEvent, mkReply NULL 0);
         (midiInClose 100, rc)]) /\
  (exists rs rc,
      trace (world (snd (MIDIOut.CMIDIOutDevice_ctor_open
                           (driver rejects_CreateEvent 0) 0
                           (mkMachine (MIDIOut.under_construction 1 2)
                                      fresh_world))))
      = [(CreateThread, mkReply 100 0);
         (midiOutOpen 0, mkReply MMSYSERR_NOERROR 101);
         (CreateEvent, mkReply NULL 0);
         (SetEvent NULL, rs);
         (midiOutClose 101, rc)]).
Proof.
  split; [reflexivity|]. split; [reflexivity|]. split; [discriminate|].
  destruct (ctor_closes_before_throwing
              (driver rejects_CreateEvent 0) (driver rejects_CreateEvent 0)
              0 1 2 3 fresh_world
              eq_refl eq_refl ltac:(discriminate) eq_refl eq_refl)
    as [(e & rci & _ & Hti & _) (rs & rc & Hto & _)].
  split; [exists rci; exact Hti|].
  exists rs, rc. exact Hto.
Defined.

Lemma SendMsg_closed_is_noop_witness :
  MIDIOut.m_State (this out_closed) = MIDIOut.CLOSED /\
  MIDIOut.SendMsg (driver nothing 0) 9408144 out_closed
  = (Normal tt, out_closed) /\
  MIDIOut.SendMsg_long (driver nothing 0) 500 16 out_closed
  = (Normal tt, out_closed).
Proof.
  split; [reflexivity|].
  apply (SendMsg_closed_is_noop (driver nothing 0) 9408144 500 16 out_closed).
  reflexivity.
Defined.

End Instances.

(* ================================================================= *)
(** ** More on the short messages *)

Section ShortMsgMore.
Import Midi ShortMsg.

(** X1: the status form of pack and unpack gives the status back, the
    two data bytes or-ed together as first data byte and zero as second
    one; so it is an exact round trip if and only if the second data
    byte is zero. *)
Theorem pack_unpack_status_exact_iff (Status DataByte1 DataByte2 : Z) :
  is_uchar Status -> is_data_byte DataByte1 -> is_data_byte DataByte2 ->
  UnpackShortMsg (PackShortMsg Status DataByte1 DataByte2)
  = (Status, Z.lor DataByte1 DataByte2, 0) /\
  (UnpackShortMsg (PackShortMsg Status DataByte1 DataByte2)
   = (Status, DataByte1, DataByte2) <-> DataByte2 = 0).
Proof.
  intros Hs H1 H2.
  rewrite (PackShortMsg_merges_data Status DataByte1 DataByte2 Hs H1 H2).
  split; [reflexivity|]. split.
  - intros E. inversion E. reflexivity.
  - intros ->. rewrite Z.lor_0_r. reflexivity.
Qed.

Lemma pack_unpack_status_exact_iff_witness :
  UnpackShortMsg (PackShortMsg 192 5 0) = (192, Z.lor 5 0, 0) /\
  (UnpackShortMsg (PackShortMsg 192 5 0) = (192, 5, 0) <-> 0 = 0).
Proof.
  apply (pack_unpack_status_exact_iff 192 5 0);
    unfold is_uchar, is_data_byte; lia.
Defined.

(** X2: for a command byte (0 to 255) whose low four bits are zero, a
    channel from 0 to 15 and data bytes from 0 to 127, a message packed
    with the channel form and unpacked with the status form gives the
    command and channel combined in the status byte, and both data bytes
    as they were; within these bounds the combination [Command |
    Channel] is the sum [Command + Channel]. *)
Theorem unpack_status_of_channel_pack
        (Command Channel DataByte1 DataByte2 : Z) :
  is_uchar Command -> Z.land Command SHORT_MSG_MASK = 0 ->
  is_channel Channel -> is_data_byte DataByte1 -> is_data_byte DataByte2 ->
  UnpackShortMsg (PackShortMsg_channel Command Channel DataByte1 DataByte2)
  = (Z.lor Command Channel, DataByte1, DataByte2) /\
  Z.lor Command Channel = Command + Channel.
Proof.
  intros Hc Hn Hch H1 H2.
  rewrite PackShortMsg_channel_sum by assumption.
  unfold is_uchar, is_channel, is_data_byte, SHORT_MSG_MASK in *.
  change 15 with (Z.ones 4) in Hn.
  rewrite Z.land_ones in Hn by lia.
  assert (Hcc : Z.lor Command Channel = Command + Channel).
  { rewrite Z.lor_comm.
    replace Command with (Z.shiftl (Command / 2 ^ 4) 4) at 1.
    - rewrite lor_shiftl_add by lia.
      pose proof (Z.div_mod Command (2 ^ 4)) as E. lia.
    - rewrite Z.shiftl_mul_pow2 by lia.
      pose proof (Z.div_mod Command (2 ^ 4)) as E. lia. }
  assert (Hlt : Command + Channel < 2 ^ 8)
    by (pose proof (Z.div_mod Command (2 ^ 4)) as E; lia).
  split; [|exact Hcc]. rewrite Hcc.
  unfold UnpackShortMsg, to_uchar, SHORT_MSG_SHIFT.
  rewrite !Z.shiftr_div_pow2 by lia.
  change (8 * 2) with 16.
  set (m := Command + Channel + DataByte1 * 2 ^ 8 + DataByte2 * 2 ^ 16).
  assert (Hm : m = Command + Channel + DataByte1 * 256 + DataByte2 * 65536)
    by (subst m; lia).
  clearbody m.
  change (2 ^ 4) with 16 in *. change (2 ^ 8) with 256.
  change (2 ^ 16) with 65536.
  repeat match goal with |- (_, _) = (_, _) => f_equal end;
    Z.div_mod_to_equations; lia.
Qed.

Lemma unpack_status_of_channel_pack_witness :
  UnpackShortMsg (PackShortMsg_channel 144 3 60 100)
  = (Z.lor 144 3, 60, 100) /\
  Z.lor 144 3 = 144 + 3.
Proof.
  apply (unpack_status_of_channel_pack 144 3 60 100);
    unfold is_uchar, is_channel, is_data_byte; (reflexivity || lia).
Defined.

(** X3: whatever the word, the channel form of unpack gives four bytes,
    a command whose low nibble is zero and a channel below 16; command
    and channel add up to the status byte that the status form gives,
    and the data bytes of the two forms agree. *)
Theorem UnpackShortMsg_channel_splits_status (Msg : Z) :
  let '(Command, Channel, DataByte1, DataByte2) :=
    UnpackShortMsg_channel Msg in
  let '(Status, Data1, Data2) := UnpackShortMsg Msg in
  is_uchar Command /\ Z.land Command SHORT_MSG_MASK = 0 /\
  is_channel Channel /\
  Command + Channel = Status /\
  is_uchar DataByte1 /\ is_uchar DataByte2 /\
  DataByte1 = Data1 /\ DataByte2 = Data2.
Proof.
  unfold UnpackShortMsg_channel, UnpackShortMsg, to_uchar,
    SHORT_MSG_MASK, SHORT_MSG_SHIFT, is_uchar, is_channel.
  change 15 with (Z.ones 4).
  rewrite land_lnot_ones, !Z.land_ones, !Z.shiftr_div_pow2 by lia.
  change (8 * 2) with 16.
  change (2 ^ 4) with 16. change (2 ^ 8) with 256.
  change (2 ^ 16) with 65536. change (Z.ones 4) with 15.
  repeat split; Z.div_mod_to_equations; lia.
Qed.

(** X4: unpacking any word with the channel form and packing the four
    bytes again gives the low three bytes of the word; a word that fits
    in three bytes comes back unchanged. *)
Theorem pack_channel_of_unpack (Msg : Z) :
  let '(Command, Channel, DataByte1, DataByte2) :=
    UnpackShortMsg_channel Msg in
  PackShortMsg_channel Command Channel DataByte1 DataByte2
  = Msg mod 2 ^ 24.
Proof.
  unfold UnpackShortMsg_channel, to_uchar, SHORT_MSG_MASK, SHORT_MSG_SHIFT.
  cbv beta iota zeta.
  change 15 with (Z.ones 4).
  rewrite land_lnot_ones, !Z.land_ones, !Z.shiftr_div_pow2 by lia.
  change (8 * 2) with 16.
  rewrite (Z.mod_small (Msg mod 2 ^ 4) (2 ^ 8))
    by (pose proof (Z.mod_pos_bound Msg (2 ^ 4)); lia).
  set (c := (2 ^ 4 * (Msg / 2 ^ 4)) mod 2 ^ 8).
  set (ch := Msg mod 2 ^ 4).
  set (d1 := (Msg / 2 ^ 8) mod 2 ^ 8).
  set (d2 := (Msg / 2 ^ 16) mod 2 ^ 8).
  assert (Hc : 0 <= c < 2 ^ 8) by (apply Z.mod_pos_bound; lia).
  assert (Hch : 0 <= ch < 2 ^ 4) by (apply Z.mod_pos_bound; lia).
  assert (H1 : 0 <= d1 < 2 ^ 8) by (apply Z.mod_pos_bound; lia).
  assert (H2 : 0 <= d2 < 2 ^ 8) by (apply Z.mod_pos_bound; lia).
  assert (Hc16 : c mod 2 ^ 4 = 0).
  { subst c. change (2 ^ 4) with 16. change (2 ^ 8) with 256.
    Z.div_mod_to_equations. lia. }
  assert (Hcc : Z.lor c ch = c + ch).
  { rewrite Z.lor_comm.
    replace c with (Z.shiftl (c / 2 ^ 4) 4) at 1.
    - rewrite lor_shiftl_add by lia.
      pose proof (Z.div_mod c (2 ^ 4)) as E. lia.
    - rewrite Z.shiftl_mul_pow2 by lia.
      pose proof (Z.div_mod c (2 ^ 4)) as E. lia. }
  assert (Hlt : c + ch < 2 ^ 8).
  { pose proof (Z.div_mod c (2 ^ 4)) as E.
    assert (c / 2 ^ 4 < 2 ^ 4) by (apply Z.div_lt_upper_bound; lia).
    lia. }
  unfold PackShortMsg_channel, to_DWORD, SHORT_MSG_SHIFT.
  rewrite Hcc.
  rewrite (Z.mod_small (c + ch)) by lia.
  rewrite (lor_shiftl_add (c + ch)) by lia.
  rewrite (Z.mod_small (c + ch + _)) by lia.
  change (8 * 2) with 16.
  rewrite lor_shiftl_add by lia.
  rewrite Z.mod_small by lia.
  subst c ch d1 d2.
  change (2 ^ 4) with 16. change (2 ^ 8) with 256.
  change (2 ^ 16) with 65536. change (2 ^ 24) with 16777216.
  Z.div_mod_to_equations. lia.
Qed.

End ShortMsgMore.

(* ================================================================= *)
(** ** More on the input device: buffers *)

Section InBuffers.
Import Win MIDIIn Observe.
Variable os : Oracle.

Ltac run :=
  unfold bind, mret, get, modify, sys, do_call, throw, rethrow;
  cbn -[RemoveAll StopRecording Close HeaderProc_run].

Ltac open_AddSysExBuffer :=
  unfold AddSysExBuffer, new_CMIDIInHeader, CMIDIInHeader_ctor,
    CMIDIInHeader_AddSysExBuffer, AddHeader, delete, CMIDIInHeader_dtor,
    try_catch, bind, mret, get, modify, sys, do_call, throw, rethrow.

(** Every way [AddSysExBuffer] can end, by the answers of the allocator
    and of the driver.  The [std::bad_alloc] of the push into the queue
    matches no handler of the function. *)
Lemma AddSysExBuffer_cases (Buffer BufferLength : Z)
      (m : Machine CMIDIInDevice) :
  let h := m_DevHandle (this m) in
  let tr := trace (world m) in
  let sg := signaled (world m) in
  let ra := os tr operator_new in
  let tr1 := tr ++ [(operator_new, ra)] in
  let cp := midiInPrepareHeader h Buffer BufferLength in
  let rp := os tr1 cp in
  let tr2 := tr1 ++ [(cp, rp)] in
  let cb := midiInAddBuffer h Buffer BufferLength in
  let rb := os tr2 cb in
  let tr3 := tr2 ++ [(cb, rb)] in
  let rq := os tr3 operator_new in
  let tr4 := tr3 ++ [(operator_new, rq)] in
  AddSysExBuffer os Buffer BufferLength m
  = if ret ra =? NULL then
      (Throw (Cpp.mkExn Cpp.CMIDIInMemFailure 0),
       mkMachine (this m) (mkWorld tr1 sg))
    else if negb (ret rp =? MMSYSERR_NOERROR) then
      (Throw (Cpp.mkExn Cpp.CMIDIInException (ret rp)),
       mkMachine (this m) (mkWorld tr2 sg))
    else if negb (ret rb =? MMSYSERR_NOERROR) then
      (Throw (Cpp.mkExn Cpp.CMIDIInException (ret rb)),
       mkMachine (this m) (mkWorld tr3 sg))
    else if ret rq =? NULL then
      (Throw (Cpp.mkExn Cpp.std_bad_alloc 0),
       mkMachine (this m) (mkWorld tr4 sg))
    else
      (Normal tt,
       mkMachine
         (with_HdrQueue (m_HdrQueue (this m)
                         ++ [mkHeader h Buffer BufferLength]) (this m))
         (mkWorld tr4 sg)).
Proof.
  destruct m as [[h ev rc q s] [tr sg]]. cbv zeta. cbn.
  open_AddSysExBuffer. cbn.
  destruct (ret (os tr operator_new) =? NULL); cbn; [reflexivity|].
  match goal with
  | |- context [ret ?R =? MMSYSERR_NOERROR] =>
      destruct (ret R =? MMSYSERR_NOERROR)
  end; cbn; [|reflexivity].
  match goal with
  | |- context [ret ?R =? MMSYSERR_NOERROR] =>
      destruct (ret R =? MMSYSERR_NOERROR)
  end; cbn; [|reflexivity].
  match goal with
  | |- context [ret ?R =? NULL] => destruct (ret R =? NULL)
  end; cbn; reflexivity.
Qed.


Lemma prepared_app (a b : list Event) :
  prepared (a ++ b) = prepared a ++ prepared b.
Proof.
  induction a as [|[c r] a IH]; [reflexivity|].
  cbn [app prepared]. destruct c; rewrite ?IH; try reflexivity.
  destruct (ret r =? MMSYSERR_NOERROR); reflexivity.
Qed.

(** What a normal return of [AddSysExBuffer] means. *)
Lemma AddSysExBuffer_normal (Buffer BufferLength : Z)
      (m m1 : Machine CMIDIInDevice) :
  AddSysExBuffer os Buffer BufferLength m = (Normal tt, m1) ->
  this m1
  = with_HdrQueue
      (m_HdrQueue (this m)
       ++ [mkHeader (m_DevHandle (this m)) Buffer BufferLength])
      (this m) /\
  exists delta,
    trace (world m1) = trace (world m) ++ delta /\
    prepared delta = [mkHeader (m_DevHandle (this m)) Buffer BufferLength] /\
    reclaimed delta = [].
Proof.
  rewrite AddSysExBuffer_cases. cbv zeta.
  destruct (ret (os (trace (world m)) operator_new) =? NULL);
    [discriminate|].
  match goal with
  | |- context [ret ?R =? MMSYSERR_NOERROR] =>
      destruct (ret R =? MMSYSERR_NOERROR) eqn:Ep
  end; cbn; [|discriminate].
  match goal with
  | |- context [negb (ret ?R =? MMSYSERR_NOERROR)] =>
      destruct (ret R =? MMSYSERR_NOERROR) eqn:Eb
  end; cbn; [|discriminate].
  match goal with
  | |- context [ret ?R =? NULL] => destruct (ret R =? NULL)
  end; cbn; [discriminate|].
  intros E. inversion E; subst m1; clear E. cbn.
  split; [reflexivity|].
  eexists. split; [rewrite <- !app_assoc; reflexivity|].
  cbn. rewrite Ep. split; reflexivity.
Qed.

(** What a normal return of a run of [AddSysExBuffer] calls means. *)
Lemma sequence_AddSysExBuffer_normal (bufs : list (Z * Z)) :
  forall m m1 : Machine CMIDIInDevice,
    sequence (map (fun b => AddSysExBuffer os (fst b) (snd b)) bufs) m
    = (Normal tt, m1) ->
    this m1
    = with_HdrQueue
        (m_HdrQueue (this m)
         ++ map (fun b => mkHeader (m_DevHandle (this m)) (fst b) (snd b))
                bufs)
        (this m) /\
    exists delta,
      trace (world m1) = trace (world m) ++ delta /\
      prepared delta
      = map (fun b => mkHeader (m_DevHandle (this m)) (fst b) (snd b)) bufs /\
      reclaimed delta = [].
Proof.
  induction bufs as [|[B L] bufs IH]; intros m m1; cbn [map sequence fst snd].
  - unfold mret. intros E; inversion E; subst m1; clear E.
    rewrite app_nil_r. split; [destruct m as [[] ?]; reflexivity|].
    exists []. rewrite app_nil_r. repeat split.
  - unfold bind at 1.
    destruct (AddSysExBuffer os B L m) as [[[]|e] m'] eqn:E; [|discriminate].
    apply AddSysExBuffer_normal in E.
    destruct E as (Hthis & d1 & Ht1 & Hp1 & Hr1).
    intros E2. apply IH in E2.
    destruct E2 as (Hthis2 & d2 & Ht2 & Hp2 & Hr2).
    rewrite Hthis in Hthis2, Hp2. cbn in Hthis2, Hp2.
    split.
    + rewrite Hthis2. rewrite <- app_assoc. reflexivity.
    + exists (d1 ++ d2). rewrite Ht2, Ht1, <- app_assoc.
      split; [reflexivity|].
      rewrite prepared_app, reclaimed_app, Hp1, Hp2, Hr1, Hr2.
      split; reflexivity.
Qed.

(** Destroying the headers of a queue one by one only unprepares, in
    the order of the queue. *)
Lemma drain_facts (q : list CMIDIInHeader) :
  forall tr, exists delta,
    drain os tr q = tr ++ delta /\
    reclaimed delta = q /\
    prepared delta = [] /\
    count_SetEvent delta = 0%nat /\
    count_calls is_CloseHandle delta = 0%nat.
Proof.
  induction q as [|[h p l] q IH]; intros tr; cbn [drain].
  - exists []. rewrite app_nil_r. repeat split.
  - destruct (IH (tr ++ [(unprepare_call (mkHeader h p l),
                          os tr (unprepare_call (mkHeader h p l)))]))
      as (delta & E & Hr & Hp & Hc & Hh).
    exists ((unprepare_call (mkHeader h p l),
             os tr (unprepare_call (mkHeader h p l))) :: delta).
    rewrite E, <- app_assoc. cbn.
    split; [reflexivity|]. split; [congruence|].
    split; [exact Hp|]. split; [exact Hc | exact Hh].
Qed.

(** [StopRecording] on a recording session destroys every queued header,
    oldest first. *)
Lemma StopRecording_reclaims (m : Machine CMIDIInDevice) :
  m_State (this m) = RECORDING ->
  exists delta,
    StopRecording os m
    = (Normal tt,
       mkMachine (with_HdrQueue [] (with_State OPENED (this m)))
                 (mkWorld (trace (world m) ++ delta)
                          (set_signal (signaled (world m))
                                      (m_Event (this m)) true))) /\
    reclaimed delta = m_HdrQueue (this m) /\
    prepared delta = [] /\
    count_SetEvent delta = 1%nat /\
    count_calls is_CloseHandle delta = 0%nat.
Proof.
  intros Hs. rewrite (StopRecording_recording os m Hs). cbv zeta.
  match goal with
  | |- context [drain os ?T ?Q] =>
      destruct (drain_facts Q T) as (delta & E & Hr & Hp & Hc & Hh)
  end.
  rewrite E.
  eexists (_ :: _ :: delta). rewrite <- !app_assoc. cbn [app].
  split; [reflexivity|]. cbn.
  split; [exact Hr|]. split; [exact Hp|].
  unfold count_SetEvent, count_calls in *. cbn. rewrite Hc.
  split; [reflexivity | exact Hh].
Qed.

(** X6: buffers added to a recording session by calls of
    [AddSysExBuffer] that all return normally are queued in the order of
    the calls, each prepared once; [StopRecording] then unprepares every
    header (those queued before and the added ones), oldest first, and
    leaves the queue empty. *)
Theorem buffers_added_while_recording_are_reclaimed
        (bufs : list (Z * Z)) (m m1 : Machine CMIDIInDevice) :
  m_State (this m) = RECORDING ->
  sequence (map (fun b => AddSysExBuffer os (fst b) (snd b)) bufs) m
  = (Normal tt, m1) ->
  exists m2 d1 d2,
    trace (world m1) = trace (world m) ++ d1 /\
    prepared d1
    = map (fun b => mkHeader (m_DevHandle (this m)) (fst b) (snd b)) bufs /\
    reclaimed d1 = [] /\
    m_HdrQueue (this m1)
    = m_HdrQueue (this m)
      ++ map (fun b => mkHeader (m_DevHandle (this m)) (fst b) (snd b)) bufs /\
    StopRecording os m1 = (Normal tt, m2) /\
    trace (world m2) = trace (world m1) ++ d2 /\
    reclaimed d2 = m_HdrQueue (this m1) /\
    prepared d2 = [] /\
    m_HdrQueue (this m2) = [].
Proof.
  intros Hs E.
  destruct (sequence_AddSysExBuffer_normal bufs m m1 E)
    as (Hthis & d1 & Ht1 & Hp1 & Hr1).
  assert (Hs1 : m_State (this m1) = RECORDING)
    by (rewrite Hthis; exact Hs).
  destruct (StopRecording_reclaims m1 Hs1) as (d2 & E2 & Hr2 & Hp2 & _ & _).
  eexists _, d1, d2. split; [exact Ht1|]. split; [exact Hp1|].
  split; [exact Hr1|]. split; [rewrite Hthis; reflexivity|].
  split; [exact E2|]. cbn. repeat split; assumption.
Qed.

End InBuffers.

(* ================================================================= *)
(** ** More on the input device: the session *)

Section InSession.
Import Win MIDIIn Observe.
Variable os : Oracle.

Ltac run :=
  unfold bind, mret, get, modify, sys, do_call, throw, rethrow;
  cbn -[RemoveAll StopRecording Close HeaderProc_run].

Lemma count_calls_app (p : Call -> bool) (a b : list Event) :
  count_calls p (a ++ b) = (count_calls p a + count_calls p b)%nat.
Proof. unfold count_calls. rewrite filter_app, length_app. reflexivity. Qed.

(** What [Close] leaves behind, from any state. *)
Lemma Close_effect (m : Machine CMIDIInDevice) :
  let was_recording := State_eqb (m_State (this m)) RECORDING in
  let q' := if was_recording then [] else m_HdrQueue (this m) in
  exists delta,
    trace (world (snd (Close os m))) = trace (world m) ++ delta /\
    reclaimed delta = (if was_recording then m_HdrQueue (this m) else []) /\
    count_calls is_CloseHandle delta = 0%nat /\
    ((fst (Close os m) = Normal tt /\
      this (snd (Close os m)) = with_State CLOSED (with_HdrQueue q' (this m)))
     \/
     (exists code,
         fst (Close os m) = Throw (Cpp.mkExn Cpp.CMIDIInException code) /\
         this (snd (Close os m))
         = with_State OPENED (with_HdrQueue q' (this m)))).
Proof.
  cbv zeta.
  assert (Hopened : forall m1 : Machine CMIDIInDevice,
             m_State (this m1) = OPENED ->
             exists delta,
               trace (world (snd (Close os m1))) = trace (world m1) ++ delta /\
               reclaimed delta = [] /\
               count_calls is_CloseHandle delta = 0%nat /\
               ((fst (Close os m1) = Normal tt /\
                 this (snd (Close os m1)) = with_State CLOSED (this m1))
                \/
                (exists code,
                    fst (Close os m1)
                    = Throw (Cpp.mkExn Cpp.CMIDIInException code) /\
                    this (snd (Close os m1)) = this m1))).
  { intros m1 Hs. rewrite (Close_opened os m1 Hs). cbv zeta.
    eexists.
    destruct (ret (os (trace (world m1))
                      (midiInClose (m_DevHandle (this m1))))
              =? MMSYSERR_NOERROR); cbn.
    - do 3 (split; [reflexivity|]). left. split; reflexivity.
    - do 3 (split; [reflexivity|]). right. eexists. split; reflexivity. }
  destruct m as [[h ev rc q s] [tr sg]]. destruct s.
  - rewrite Close_closed by reflexivity. exists []. cbn.
    rewrite app_nil_r. do 3 (split; [reflexivity|]).
    left. split; reflexivity.
  - destruct (Hopened (mkMachine (mkDevice h ev rc q OPENED) (mkWorld tr sg))
                eq_refl) as (delta & Ht & Hr & Hc & Hcase).
    exists delta. cbn in *. do 3 (split; [assumption|]).
    destruct Hcase as [(Hf & Hthis)|(code & Hf & Hthis)].
    + left. split; assumption.
    + right. exists code. split; assumption.
  - rewrite Close_recording by reflexivity.
    destruct (StopRecording_reclaims os
                (mkMachine (mkDevice h ev rc q RECORDING) (mkWorld tr sg))
                eq_refl) as (d1 & E1 & Hr1 & _ & _ & Hc1).
    rewrite E1. cbn [snd].
    match goal with
    | |- context [Close os ?M1] =>
        destruct (Hopened M1 eq_refl) as (d2 & Ht & Hr & Hc & Hcase)
    end.
    exists (d1 ++ d2).
    split; [rewrite Ht; cbn; rewrite <- app_assoc; reflexivity|].
    split; [rewrite reclaimed_app, Hr1, Hr, app_nil_r; reflexivity|].
    split; [rewrite count_calls_app, Hc1, Hc; reflexivity|].
    destruct Hcase as [(Hf & Hthis)|(code & Hf & Hthis)].
    + left. split; [exact Hf | rewrite Hthis; reflexivity].
    + right. exists code. split; [exact Hf | rewrite Hthis; reflexivity].
Qed.

(** X7: [Close], from any state and whatever the driver answers, never
    leaves the session recording, and it returns normally exactly when
    the session ends closed.  The header queue is emptied, every header
    unprepared, only when the session was recording: an opened session
    that was not recording keeps its queued headers, still prepared. *)
Theorem Close_outcome (m : Machine CMIDIInDevice) :
  exists delta,
    trace (world (snd (Close os m))) = trace (world m) ++ delta /\
    IsRecording (this (snd (Close os m))) = false /\
    (fst (Close os m) = Normal tt <->
     IsOpen (this (snd (Close os m))) = false) /\
    (if IsRecording (this m)
     then m_HdrQueue (this (snd (Close os m))) = [] /\
          reclaimed delta = m_HdrQueue (this m)
     else m_HdrQueue (this (snd (Close os m))) = m_HdrQueue (this m) /\
          reclaimed delta = []).
Proof.
  destruct (Close_effect m) as (delta & Ht & Hr & _ & Hcase).
  exists delta. split; [exact Ht|].
  unfold IsRecording, IsOpen.
  destruct Hcase as [(Hf & Hthis)|(code & Hf & Hthis)];
    rewrite Hf, Hthis; cbn.
  - split; [reflexivity|]. split; [split; reflexivity|].
    destruct (State_eqb (m_State (this m)) RECORDING);
      split; first [reflexivity | exact Hr].
  - split; [reflexivity|]. split; [split; discriminate|].
    destruct (State_eqb (m_State (this m)) RECORDING);
      split; first [reflexivity | exact Hr].
Qed.

(** X8: the body of the destructor closes the event handle last, once
    the device is closed.  When the driver rejects [midiInClose] the
    body is left by the [CMIDIInException] of [Close], with the session
    still opened and without any call of [CloseHandle]. *)
Theorem dtor_body_outcome (m : Machine CMIDIInDevice) :
  exists delta,
    trace (world (snd (CMIDIInDevice_dtor_body os m)))
    = trace (world m) ++ delta /\
    match fst (CMIDIInDevice_dtor_body os m) with
    | Normal _ =>
        IsOpen (this (snd (CMIDIInDevice_dtor_body os m))) = false /\
        count_calls is_CloseHandle delta = 1%nat /\
        exists pre r, delta = pre ++ [(CloseHandle (m_Event (this m)), r)]
    | Throw e =>
        Cpp.exn_class e = Cpp.CMIDIInException /\
        IsOpen (this (snd (CMIDIInDevice_dtor_body os m))) = true /\
        count_calls is_CloseHandle delta = 0%nat
    end.
Proof.
  destruct (Close_effect m) as (delta & Ht & _ & Hc & Hcase).
  unfold CMIDIInDevice_dtor_body. run.
  destruct (Close os m) as [r1 [d1 [tr1 sg1]]]; cbn [fst snd] in *.
  destruct Hcase as [(-> & Hthis)|(code & -> & Hthis)]; cbn in *; subst.
  - eexists. split; [rewrite <- app_assoc; reflexivity|].
    unfold IsOpen. cbn. split; [reflexivity|].
    split.
    + rewrite count_calls_app, Hc. reflexivity.
    + eexists _, _. reflexivity.
  - exists delta. split; [reflexivity|]. split; [reflexivity|].
    unfold IsOpen. cbn. split; [reflexivity | exact Hc].
Qed.

End InSession.

(* ================================================================= *)
(** ** More on the input device: recording, callback and worker *)

Section InRecording.
Import Win MIDIIn Observe.
Variable os : Oracle.

Ltac run :=
  unfold bind, mret, get, modify, sys, do_call, throw, rethrow;
  cbn -[RemoveAll StopRecording Close HeaderProc_run].

(** X9: [StartRecording] on a session that is not opened (closed, or
    already recording) and [StopRecording] on a session that is not
    recording return normally and do nothing: no thread is created and
    nothing is called. *)
Theorem recording_calls_out_of_state_do_nothing
        (ms mt : Machine CMIDIInDevice) :
  m_State (this ms) <> OPENED ->
  m_State (this mt) <> RECORDING ->
  StartRecording os ms = (Normal tt, ms) /\
  StopRecording os mt = (Normal tt, mt).
Proof.
  intros Hs Ht. split.
  - destruct ms as [[h ev rc q s] [tr sg]]; cbn in Hs.
    unfold StartRecording. run. destruct s; [reflexivity|congruence|reflexivity].
  - apply StopRecording_not_recording. exact Ht.
Qed.

(** X10: a [StartRecording] that returns normally on an opened session
    has created the worker thread and then started the driver, and the
    session is recording.  A [StopRecording] after it gives back the
    object as it was before the start, with the header queue emptied,
    and has set the event once. *)
Theorem start_then_stop_restores (m m1 : Machine CMIDIInDevice) :
  m_State (this m) = OPENED ->
  StartRecording os m = (Normal tt, m1) ->
  IsRecording (this m1) = true /\
  (exists rt rs,
      trace (world m1)
      = trace (world m) ++ [(CreateThread, rt);
                            (midiInStart (m_DevHandle (this m)), rs)]) /\
  exists m2 delta,
    StopRecording os m1 = (Normal tt, m2) /\
    this m2 = with_HdrQueue [] (this m) /\
    trace (world m2) = trace (world m1) ++ delta /\
    reclaimed delta = m_HdrQueue (this m) /\
    count_SetEvent delta = 1%nat.
Proof.
  destruct m as [[h ev rc q s] [tr sg]]; cbn -[StopRecording]. intros ->.
  unfold StartRecording. run.
  destruct (ret (os tr CreateThread) =? NULL); run; [discriminate|].
  match goal with
  | |- context [ret ?R =? MMSYSERR_NOERROR] =>
      destruct (ret R =? MMSYSERR_NOERROR)
  end; run; [|discriminate].
  intros E; inversion E; subst m1; clear E.
  split; [reflexivity|].
  split; [eexists _, _; cbn; rewrite <- app_assoc; reflexivity|].
  match goal with
  | |- context [StopRecording os ?M1] =>
      destruct (StopRecording_reclaims os M1 eq_refl)
        as (delta & E & Hr & _ & Hc & _)
  end.
  rewrite E. eexists _, delta. split; [reflexivity|].
  cbn in *. repeat split; assumption.
Qed.

(** X11: long messages and long errors that the driver reports while
    the session is not recording are dropped: the receiver is not
    called and the event is not set.  Short messages and short errors
    reach the receiver in every state, and never set the event. *)
Theorem MidiInProc_outside_recording
        (hdr : Z -> MIDIHDR) (Param1 Param2 : Z)
        (m : Machine CMIDIInDevice) :
  m_State (this m) <> RECORDING ->
  MidiInProc os hdr MIM_LONGDATA Param1 Param2 m = ([], m) /\
  MidiInProc os hdr MIM_LONGERROR Param1 Param2 m = ([], m) /\
  MidiInProc os hdr MIM_DATA Param1 Param2 m
  = ([mkDelivery (m_Receiver (this m)) (ReceiveMsg Param1 Param2) (world m)],
     m) /\
  MidiInProc os hdr MIM_ERROR Param1 Param2 m
  = ([mkDelivery (m_Receiver (this m)) (OnError Param1 Param2) (world m)],
     m).
Proof.
  intros Hs. unfold MidiInProc.
  destruct (m_State (this m)); cbn; try congruence; repeat split.
Qed.

(** X12: while the session is recording, a long message (or long error)
    is handed to the current receiver with the data pointer and the
    recorded length of its header, before the event is set: the receiver
    sees the world as it was when the callback began.  The event is then
    set exactly once, and the object is not changed. *)
Theorem MidiInProc_recording_delivers_then_signals
        (hdr : Z -> MIDIHDR) (Param1 Param2 : Z)
        (m : Machine CMIDIInDevice) :
  m_State (this m) = RECORDING ->
  exists r1 r2,
    MidiInProc os hdr MIM_LONGDATA Param1 Param2 m
    = ([mkDelivery (m_Receiver (this m))
                   (ReceiveMsg_long (cb_lpData (hdr Param1))
                                    (dwBytesRecorded (hdr Param1)) Param2)
                   (world m)],
       mkMachine (this m)
                 (mkWorld (trace (world m)
                           ++ [(SetEvent (m_Event (this m)), r1)])
                          (set_signal (signaled (world m))
                                      (m_Event (this m)) true))) /\
    MidiInProc os hdr MIM_LONGERROR Param1 Param2 m
    = ([mkDelivery (m_Receiver (this m))
                   (OnError_long (cb_lpData (hdr Param1))
                                 (dwBytesRecorded (hdr Param1)) Param2)
                   (world m)],
       mkMachine (this m)
                 (mkWorld (trace (world m)
                           ++ [(SetEvent (m_Event (this m)), r2)])
                          (set_signal (signaled (world m))
                                      (m_Event (this m)) true))).
Proof.
  intros Hs. unfold MidiInProc. rewrite Hs. cbn.
  eexists _, _. split; reflexivity.
Qed.

(** X13: [SetReceiver] returns the receiver that was registered, the
    next message goes to the new one, and registering the returned
    receiver again gives the object back as it was. *)
Theorem SetReceiver_swaps
        (hdr : Z -> MIDIHDR) (Receiver Param1 Param2 : Z)
        (m : Machine CMIDIInDevice) :
  fst (SetReceiver Receiver m) = Normal (m_Receiver (this m)) /\
  map receiver (fst (MidiInProc os hdr MIM_DATA Param1 Param2
                                (snd (SetReceiver Receiver m))))
  = [Receiver] /\
  SetReceiver (m_Receiver (this m)) (snd (SetReceiver Receiver m))
  = (Normal Receiver, m).
Proof.
  destruct m as [[h ev rc q s] [tr sg]]. repeat split.
Qed.

(** A worker thread waiting on a non-signaled event stays there. *)
Lemma HeaderProc_blocked (n : nat) (m : Machine CMIDIInDevice) :
  signaled (world m) (m_Event (this m)) = false ->
  HeaderProc_run os n AtWait m = (AtWait, m).
Proof.
  intros Hsg. induction n as [|n IH]; [reflexivity|].
  cbn [HeaderProc_run]. unfold HeaderProc_step. rewrite Hsg. exact IH.
Qed.

(** A waiting worker thread that finds the event signaled, while the
    session is recording and the queue is not empty, resets the event
    and reclaims the oldest header. *)
Lemma HeaderProc_step_wakes (m : Machine CMIDIInDevice)
      (front : CMIDIInHeader) (rest : list CMIDIInHeader) :
  m_State (this m) = RECORDING ->
  m_HdrQueue (this m) = front :: rest ->
  signaled (world m) (m_Event (this m)) = true ->
  HeaderProc_step os AtWait m
  = (AtLoopTest,
     mkMachine (with_HdrQueue rest (this m))
               (mkWorld (trace (world m)
                         ++ [(unprepare_call front,
                              os (trace (world m)) (unprepare_call front))])
                        (set_signal (signaled (world m))
                                    (m_Event (this m)) false))).
Proof.
  destruct m as [[h ev rc q s] [tr sg]]; cbn. intros -> -> Hsg.
  unfold HeaderProc_step, RemoveHeader, delete, CMIDIInHeader_dtor, pop.
  run. rewrite Hsg. reflexivity.
Qed.

(** The callback on a long message, while recording. *)
Lemma MidiInProc_long_recording (hdr : Z -> MIDIHDR) (Param1 Param2 : Z)
      (m : Machine CMIDIInDevice) :
  m_State (this m) = RECORDING ->
  snd (MidiInProc os hdr MIM_LONGDATA Param1 Param2 m)
  = mkMachine (this m)
              (mkWorld (trace (world m)
                        ++ [(SetEvent (m_Event (this m)),
                             os (trace (world m))
                                (SetEvent (m_Event (this m))))])
                       (set_signal (signaled (world m))
                                   (m_Event (this m)) true)).
Proof.
  intros Hs. unfold MidiInProc. rewrite Hs. reflexivity.
Qed.

Lemma set_signal_same (f : Z -> bool) (h : Z) (b : bool) :
  set_signal f h b h = b.
Proof. unfold set_signal. rewrite Z.eqb_refl. reflexivity. Qed.

(** X14: while recording, a completed long message followed by a step
    of the waiting worker thread reclaims exactly the oldest queued
    header: it is unprepared and popped, the other headers stay in
    order, and the event is reset. *)
Theorem completion_reclaims_oldest
        (hdr : Z -> MIDIHDR) (Param1 Param2 : Z)
        (m : Machine CMIDIInDevice)
        (front : CMIDIInHeader) (rest : list CMIDIInHeader) :
  m_State (this m) = RECORDING ->
  m_HdrQueue (this m) = front :: rest ->
  let m1 := snd (MidiInProc os hdr MIM_LONGDATA Param1 Param2 m) in
  exists r1 r2,
    HeaderProc_step os AtWait m1
    = (AtLoopTest,
       mkMachine (with_HdrQueue rest (this m))
                 (mkWorld (trace (world m)
                           ++ [(SetEvent (m_Event (this m)), r1);
                               (unprepare_call front, r2)])
                          (set_signal
                             (set_signal (signaled (world m))
                                         (m_Event (this m)) true)
                             (m_Event (this m)) false))) /\
    signaled (world (snd (HeaderProc_step os AtWait m1))) (m_Event (this m))
    = false.
Proof.
  intros Hs Hq. cbv zeta.
  rewrite (MidiInProc_long_recording hdr Param1 Param2 m Hs).
  match goal with
  | |- context [HeaderProc_step os AtWait ?M] =>
      rewrite (HeaderProc_step_wakes M front rest Hs Hq
                 (set_signal_same _ _ _))
  end.
  cbn. eexists _, _. rewrite <- app_assoc.
  split; [reflexivity | apply set_signal_same].
Qed.

(** X15: the event does not count.  When two long messages complete
    before the worker thread runs, the thread reclaims one header only:
    however long it runs afterwards it ends waiting, with the second
    oldest header still at the front of the queue. *)
Theorem two_completions_reclaim_one
        (hdr : Z -> MIDIHDR) (P1 P2 Q1 Q2 : Z) (n : nat)
        (m : Machine CMIDIInDevice)
        (front : CMIDIInHeader) (rest : list CMIDIInHeader) :
  m_State (this m) = RECORDING ->
  m_HdrQueue (this m) = front :: rest ->
  (2 <= n)%nat ->
  let m1 := snd (MidiInProc os hdr MIM_LONGDATA P1 P2 m) in
  let m2 := snd (MidiInProc os hdr MIM_LONGDATA Q1 Q2 m1) in
  fst (HeaderProc_run os n AtWait m2) = AtWait /\
  m_HdrQueue (this (snd (HeaderProc_run os n AtWait m2))) = rest /\
  reclaimed (skipn (length (trace (world m)))
                   (trace (world (snd (HeaderProc_run os n AtWait m2)))))
  = [front].
Proof.
  intros Hs Hq Hn. cbv zeta.
  rewrite (MidiInProc_long_recording hdr P1 P2 m Hs).
  rewrite MidiInProc_long_recording by exact Hs.
  cbn [this world trace signaled].
  destruct n as [|[|n]]; [lia | lia |].
  cbn [HeaderProc_run].
  match goal with
  | |- context [HeaderProc_step os AtWait ?M] =>
      rewrite (HeaderProc_step_wakes M front rest Hs Hq
                 (set_signal_same _ _ _))
  end.
  cbn [this world trace signaled].
  assert (E2 : forall M : Machine CMIDIInDevice,
             m_State (this M) = RECORDING ->
             HeaderProc_step os AtLoopTest M = (AtWait, M)).
  { intros M HM. unfold HeaderProc_step. rewrite HM. reflexivity. }
  rewrite E2 by (destruct m as [[] ?]; cbn in *; exact Hs).
  rewrite HeaderProc_blocked
    by (destruct m as [[] ?]; cbn; apply set_signal_same).
  cbn [fst snd this world trace].
  split; [reflexivity|].
  split; [destruct m as [[] ?]; reflexivity|].
  rewrite <- !app_assoc.
  rewrite skipn_app, skipn_all, Nat.sub_diag. cbn.
  destruct front; reflexivity.
Qed.

End InRecording.

(* ================================================================= *)
(** ** More on the output device *)

Section OutMore.
Import Win MIDIOut Observe.
Variable os : Oracle.

Ltac run :=
  unfold bind, mret, get, modify, sys, do_call, throw, rethrow;
  cbn -[RemoveAll Close HeaderProc_run].

Lemma Out_reclaimed_app (a b : list Event) :
  reclaimed (a ++ b) = reclaimed a ++ reclaimed b.
Proof.
  induction a as [|[c r] a IH]; [reflexivity|].
  cbn [app reclaimed]. destruct c; rewrite ?IH; reflexivity.
Qed.

Lemma Out_prepared_app (a b : list Event) :
  prepared (a ++ b) = prepared a ++ prepared b.
Proof.
  induction a as [|[c r] a IH]; [reflexivity|].
  cbn [app prepared]. destruct c; rewrite ?IH; try reflexivity.
  destruct (ret r =? MMSYSERR_NOERROR); reflexivity.
Qed.

(** Destroying the headers of a queue one by one only unprepares, in
    the order of the queue. *)
Lemma Out_drain_facts (q : list CMIDIOutHeader) :
  forall tr, exists delta,
    drain os tr q = tr ++ delta /\
    reclaimed delta = q /\
    prepared delta = [] /\
    count_calls is_CloseHandle delta = 0%nat.
Proof.
  induction q as [|[h p l] q IH]; intros tr; cbn [drain].
  - exists []. rewrite app_nil_r. repeat split.
  - destruct (IH (tr ++ [(unprepare_call (mkHeader h p l),
                          os tr (unprepare_call (mkHeader h p l)))]))
      as (delta & E & Hr & Hp & Hh).
    exists ((unprepare_call (mkHeader h p l),
             os tr (unprepare_call (mkHeader h p l))) :: delta).
    rewrite E, <- app_assoc. cbn.
    split; [reflexivity|]. split; [congruence|].
    split; [exact Hp | exact Hh].
Qed.

(** X16: [Close] on an opened output session sets the event, unprepares
    every queued header, oldest first, and only then calls
    [midiOutClose]; it leaves the queue empty and the session closed. *)
Theorem Out_Close_reclaims_all (m : Machine CMIDIOutDevice) :
  m_State (this m) = OPENED ->
  exists r1 delta rc,
    Close os m
    = (Normal tt,
       mkMachine (with_HdrQueue [] (with_State CLOSED (this m)))
                 (mkWorld (trace (world m)
                           ++ [(SetEvent (m_Event (this m)), r1)]
                           ++ delta
                           ++ [(midiOutClose (m_DevHandle (this m)), rc)])
                          (set_signal (signaled (world m))
                                      (m_Event (this m)) true))) /\
    reclaimed delta = m_HdrQueue (this m) /\
    count_calls is_winmm delta = length (m_HdrQueue (this m)).
Proof.
  intros Hs. rewrite (Out_Close_opened os m Hs). cbv zeta.
  assert (Hd : forall q tr, exists delta,
             drain os tr q = tr ++ delta /\ reclaimed delta = q /\
             count_calls is_winmm delta = length q).
  { clear. induction q as [|[h p l] q IH]; intros tr; cbn [drain].
    - exists []. rewrite app_nil_r. repeat split.
    - destruct (IH (tr ++ [(unprepare_call (mkHeader h p l),
                            os tr (unprepare_call (mkHeader h p l)))]))
        as (delta & E & Hr & Hc).
      exists ((unprepare_call (mkHeader h p l),
               os tr (unprepare_call (mkHeader h p l))) :: delta).
      rewrite E, <- app_assoc. cbn.
      split; [reflexivity|]. split; [congruence|].
      unfold count_calls in *. cbn. rewrite Hc. reflexivity. }
  match goal with
  | |- context [drain os ?T ?Q] =>
      destruct (Hd Q T) as (delta & E & Hr & Hc)
  end.
  rewrite !E. eexists _, delta, _. rewrite <- !app_assoc.
  split; [reflexivity|]. split; [exact Hr | exact Hc].
Qed.

(** What [Close] leaves behind, from any state. *)
Lemma Out_Close_effect (m : Machine CMIDIOutDevice) :
  exists delta,
    Close os m
    = (Normal tt,
       mkMachine
         (with_State CLOSED
            (with_HdrQueue (if State_eqb (m_State (this m)) OPENED
                            then [] else m_HdrQueue (this m))
                           (this m)))
         (mkWorld (trace (world m) ++ delta)
                  (if State_eqb (m_State (this m)) OPENED
                   then set_signal (signaled (world m))
                                   (m_Event (this m)) true
                   else signaled (world m)))) /\
    reclaimed delta = (if State_eqb (m_State (this m)) OPENED
                       then m_HdrQueue (this m) else []) /\
    prepared delta = [] /\
    count_calls is_CloseHandle delta = 0%nat.
Proof.
  destruct m as [[h ev q s] [tr sg]]. destruct s.
  - rewrite Out_Close_closed by reflexivity. exists []. cbn.
    rewrite app_nil_r. repeat split.
  - rewrite Out_Close_opened by reflexivity. cbv zeta. cbn.
    match goal with
    | |- context [drain os ?T ?Q] =>
        destruct (Out_drain_facts Q T) as (delta & E & Hr & Hp & Hc)
    end.
    rewrite !E. eexists (_ :: delta ++ [_]). rewrite <- !app_assoc.
    split; [reflexivity|]. cbn.
    rewrite Out_reclaimed_app, Out_prepared_app, Hr, Hp.
    cbn. rewrite app_nil_r. split; [reflexivity|].
    split; [reflexivity|].
    match goal with
    | |- length (filter _ (?a ++ ?b)) = _ =>
        change (count_calls is_CloseHandle (a ++ b) = 0%nat)
    end.
    rewrite count_calls_app, Hc. reflexivity.
Qed.

(** X17: the destructor of the output device returns normally from any
    state and whatever the driver answers.  It unprepares every queued
    header exactly once, oldest first, leaves the queue empty and the
    session closed, and closes the event handle exactly once. *)
Theorem Out_dtor_outcome (m : Machine CMIDIOutDevice) :
  exists delta,
    fst (CMIDIOutDevice_dtor os m) = Normal tt /\
    trace (world (snd (CMIDIOutDevice_dtor os m)))
    = trace (world m) ++ delta /\
    reclaimed delta = m_HdrQueue (this m) /\
    m_HdrQueue (this (snd (CMIDIOutDevice_dtor os m))) = [] /\
    IsOpen (this (snd (CMIDIOutDevice_dtor os m))) = false /\
    count_calls is_CloseHandle delta = 1%nat /\
    In (CloseHandle (m_Event (this m))) (map fst delta).
Proof.
  destruct (Out_Close_effect m) as (d1 & E1 & Hr1 & _ & Hc1).
  remember (CMIDIOutDevice_dtor os m) as R eqn:ER.
  unfold CMIDIOutDevice_dtor, CHeaderQueue_dtor in ER.
  unfold bind at 1 in ER. rewrite E1 in ER.
  unfold bind, get, sys, do_call in ER. cbn -[RemoveAll] in ER.
  rewrite Out_RemoveAll_spec in ER. cbn in ER.
  match type of ER with
  | context [drain os ?T ?Q] =>
      destruct (Out_drain_facts Q T) as (d2 & E2 & Hr2 & _ & Hc2)
  end.
  rewrite E2 in ER. subst R. cbn [fst snd this world trace].
  exists (d1 ++ (CloseHandle (m_Event (this m)),
                 os (trace (world m) ++ d1)
                    (CloseHandle (m_Event (this m)))) :: d2).
  split; [reflexivity|].
  split; [rewrite <- !app_assoc; reflexivity|].
  split.
  { rewrite Out_reclaimed_app. cbn. rewrite Hr1, Hr2.
    destruct (State_eqb (m_State (this m)) OPENED);
      [rewrite app_nil_r|]; reflexivity. }
  split; [reflexivity|].
  split; [reflexivity|].
  split.
  { rewrite count_calls_app, Hc1.
    change (S (count_calls is_CloseHandle d2) = 1%nat).
    rewrite Hc2. reflexivity. }
  rewrite map_app. apply in_or_app. right. left. reflexivity.
Qed.



(* ----- The worker thread ----- *)

Lemma Out_set_signal_same (f : Z -> bool) (h : Z) (b : bool) :
  set_signal f h b h = b.
Proof. unfold set_signal. rewrite Z.eqb_refl. reflexivity. Qed.

(** X19: on an opened session, the [MOM_DONE] callback followed by a
    step of the waiting worker thread reclaims exactly the oldest queued
    header and resets the event; any other callback message does
    nothing. *)
Theorem Out_completion_reclaims_oldest
        (m : Machine CMIDIOutDevice)
        (front : CMIDIOutHeader) (rest : list CMIDIOutHeader) :
  m_State (this m) = OPENED ->
  m_HdrQueue (this m) = front :: rest ->
  MidiOutProc os MOM_OTHER m = (Normal tt, m) /\
  exists r1 r2,
    HeaderProc_step os AtWait (snd (MidiOutProc os MOM_DONE m))
    = (AtLoopTest,
       mkMachine (with_HdrQueue rest (this m))
                 (mkWorld (trace (world m)
                           ++ [(SetEvent (m_Event (this m)), r1);
                               (unprepare_call front, r2)])
                          (set_signal
                             (set_signal (signaled (world m))
                                         (m_Event (this m)) true)
                             (m_Event (this m)) false))).
Proof.
  destruct m as [[h ev q s] [tr sg]]; cbn. intros -> ->.
  split; [reflexivity|].
  unfold HeaderProc_step, MidiOutProc, RemoveHeader, delete,
    CMIDIOutHeader_dtor, pop.
  run. rewrite Out_set_signal_same. cbn.
  eexists _, _. rewrite <- app_assoc. reflexivity.
Qed.

(** After a call that left the session closed and the event set, the
    worker thread ends without touching the object. *)
Lemma Out_HeaderProc_exits_when_closed
      (m : Machine CMIDIOutDevice) (pc : WorkerPc) :
  m_State (this m) = CLOSED ->
  signaled (world m) (m_Event (this m)) = true ->
  fst (HeaderProc_run os 2 pc m) = Finished /\
  this (snd (HeaderProc_run os 2 pc m)) = this m /\
  trace (world (snd (HeaderProc_run os 2 pc m))) = trace (world m).
Proof.
  destruct m as [[h ev q s] [tr sg]]; cbn. intros -> Hsg.
  destruct pc; cbn; rewrite ?Hsg; cbn; repeat split.
Qed.

(** X20: [Close] on an opened session lets the worker thread end:
    wherever the thread stands, two steps after [Close] take it to its
    [return], and it does not touch the object or call the driver. *)
Theorem Out_Close_ends_worker (m : Machine CMIDIOutDevice) (pc : WorkerPc) :
  m_State (this m) = OPENED ->
  fst (HeaderProc_run os 2 pc (snd (Close os m))) = Finished /\
  this (snd (HeaderProc_run os 2 pc (snd (Close os m))))
  = this (snd (Close os m)) /\
  trace (world (snd (HeaderProc_run os 2 pc (snd (Close os m)))))
  = trace (world (snd (Close os m))).
Proof.
  intros Hs. destruct (Out_Close_effect m) as (delta & E & _).
  rewrite E. cbn [snd].
  apply Out_HeaderProc_exits_when_closed.
  - reflexivity.
  - cbn. unfold State_eqb. rewrite Hs. apply Out_set_signal_same.
Qed.

(** X21: an [Open] that throws leaves the session closed, whatever it
    was before.  Either [CreateThread] returned [NULL]: then
    [CMIDIOutThreadFailure] is thrown and [midiOutOpen] was never
    called; or the driver rejected [midiOutOpen]: then its code is
    thrown, and the event was set last, so that the worker thread just
    created ends. *)
Theorem Out_Open_failure (DeviceId : Z) (m m' : Machine CMIDIOutDevice)
        (e : Cpp.Exn) :
  Open os DeviceId m = (Throw e, m') ->
  IsOpen (this m') = false /\
  exists pre,
    no_open pre = true /\
    ((exists rt,
         trace (world m') = trace (world m) ++ pre ++ [(CreateThread, rt)] /\
         ret rt = NULL /\
         e = Cpp.mkExn Cpp.CMIDIOutThreadFailure 0)
     \/
     (exists rt ro rs,
         trace (world m')
         = trace (world m)
           ++ pre ++ [(CreateThread, rt); (midiOutOpen DeviceId, ro);
                      (SetEvent (m_Event (this m)), rs)] /\
         ret ro <> MMSYSERR_NOERROR /\
         e = Cpp.mkExn Cpp.CMIDIOutException (ret ro) /\
         forall pc, fst (HeaderProc_run os 2 pc m') = Finished)).
Proof.
  rewrite Out_Open_unfold.
  destruct (Out_Close_summary os m)
    as (pre & Ht & Hn & Hh & He & Hf & Hst & _).
  destruct (Close os m) as [r1 m1]; cbn [fst snd] in *. subst r1.
  cbv zeta.
  set (rt := os (trace (world m1)) CreateThread).
  set (ro := os (trace (world m1) ++ [(CreateThread, rt)])
                (midiOutOpen DeviceId)).
  set (rs := os ((trace (world m1) ++ [(CreateThread, rt)])
                 ++ [(midiOutOpen DeviceId, ro)])
                (SetEvent (m_Event (this m1)))).
  destruct (ret rt =? NULL) eqn:Et.
  - intros E; inversion E; subst e m'; clear E. cbn.
    unfold IsOpen. rewrite Hst. split; [reflexivity|].
    exists pre. split; [exact Hn|]. left. exists rt.
    rewrite Ht, <- app_assoc. split; [reflexivity|].
    split; [apply Z.eqb_eq; exact Et | reflexivity].
  - destruct (ret ro =? MMSYSERR_NOERROR) eqn:Eo; [discriminate|].
    intros E; inversion E; subst e m'; clear E. cbn -[HeaderProc_run].
    unfold IsOpen. cbn -[HeaderProc_run]. rewrite Hst.
    split; [reflexivity|].
    exists pre. split; [exact Hn|]. right. exists rt, ro, rs.
    rewrite Ht, He, <- !app_assoc. split; [reflexivity|].
    split; [apply Z.eqb_neq; exact Eo|]. split; [reflexivity|].
    intros pc.
    match goal with
    | |- fst (HeaderProc_run os 2 pc ?M) = _ =>
        destruct (Out_HeaderProc_exits_when_closed M pc) as (H1 & _)
    end; [exact Hst | cbn; rewrite ?He; apply Out_set_signal_same | exact H1].
Qed.

End OutMore.

(* ================================================================= *)
(** ** More on the sessions of both devices *)

Section SessionsMore.
Import Win Observe.

(** X22: a [Close] that follows a successful [Open] closes the handle
    that this [Open] got from the driver.  On the input device it is the
    only call, and [Close] returns normally exactly when the driver
    accepts it; on the output device the event is set and the queued
    headers are unprepared before it. *)
Theorem Close_after_Open_closes_that_handle
        (os_in os_out : Oracle) (DeviceId : Z)
        (mi mi' : Machine MIDIIn.CMIDIInDevice)
        (mo mo' : Machine MIDIOut.CMIDIOutDevice) :
  MIDIIn.Open os_in DeviceId mi = (Normal tt, mi') ->
  MIDIOut.Open os_out DeviceId mo = (Normal tt, mo') ->
  (exists pre ro rc,
      trace (world mi')
      = trace (world mi) ++ pre ++ [(midiInOpen DeviceId, ro)] /\
      trace (world (snd (MIDIIn.Close os_in mi')))
      = trace (world mi') ++ [(midiInClose (out ro), rc)] /\
      (fst (MIDIIn.Close os_in mi') = Normal tt <->
       ret rc = MMSYSERR_NOERROR))
  /\
  (exists pre rt ro rs delta rc,
      trace (world mo')
      = trace (world mo)
        ++ pre ++ [(CreateThread, rt); (midiOutOpen DeviceId, ro)] /\
      trace (world (snd (MIDIOut.Close os_out mo')))
      = trace (world mo')
        ++ [(SetEvent (MIDIOut.m_Event (this mo')), rs)]
        ++ delta ++ [(midiOutClose (out ro), rc)] /\
      MIDIOut.reclaimed delta = MIDIOut.m_HdrQueue (this mo')).
Proof.
  intros Ei Eo. split.
  - destruct (In_Open_post os_in DeviceId mi mi' (Normal tt) Ei)
      as (delta & Ht & Hok & _).
    destruct (Hok eq_refl) as (Hst & pre & ro & -> & Hro & Hh & _).
    rewrite (Close_opened os_in mi' Hst). cbv zeta. rewrite Hh.
    exists pre, ro. eexists. split; [exact Ht|].
    destruct (ret (os_in (trace (world mi')) (midiInClose (out ro)))
              =? MMSYSERR_NOERROR) eqn:Ec; cbn.
    + split; [reflexivity|]. apply Z.eqb_eq in Ec.
      split; intros _; [exact Ec | reflexivity].
    + split; [reflexivity|]. apply Z.eqb_neq in Ec.
      split; [discriminate | contradiction].
  - destruct (Out_Open_post os_out DeviceId mo mo' (Normal tt) Eo)
      as (delta & Ht & Hok & _).
    destruct (Hok eq_refl) as (Hst & pre & rt & ro & -> & Hro & Hh & _).
    rewrite (Out_Close_opened os_out mo' Hst). cbv zeta. rewrite Hh.
    cbn [snd world trace].
    match goal with
    | |- context [MIDIOut.drain os_out ?T ?Q] =>
        destruct (Out_drain_facts os_out Q T) as (d & E & Hr & _)
    end.
    rewrite !E. exists pre, rt, ro. eexists _, d, _.
    split; [exact Ht|]. rewrite <- !app_assoc.
    split; [reflexivity | exact Hr].
Qed.

(** X23: when every call is accepted, the opening constructors return
    normally with the session opened on the handle the driver gave, the
    event created and the queue empty.  The input device calls
    [midiInOpen] and then [CreateEvent]; the output device creates its
    worker thread first, before the event that the thread waits on
    exists. *)
Theorem opening_constructors_success
        (os_in os_out : Oracle) (DeviceId : Z)
        (DevHandle0 Event0 Receiver : Z) (w : World) :
  let ri_open := os_in (trace w) (midiInOpen DeviceId) in
  let ri_event := os_in (trace w ++ [(midiInOpen DeviceId, ri_open)])
                        CreateEvent in
  let ro_thread := os_out (trace w) CreateThread in
  let ro_open := os_out (trace w ++ [(CreateThread, ro_thread)])
                        (midiOutOpen DeviceId) in
  let ro_event := os_out (trace w ++ [(CreateThread, ro_thread);
                                      (midiOutOpen DeviceId, ro_open)])
                         CreateEvent in
  ret ri_open = MMSYSERR_NOERROR ->
  ret ri_event <> NULL ->
  ret ro_thread <> NULL ->
  ret ro_open = MMSYSERR_NOERROR ->
  ret ro_event <> NULL ->
  MIDIIn.CMIDIInDevice_ctor_open os_in DeviceId
    (mkMachine (MIDIIn.under_construction DevHandle0 Event0 Receiver) w)
  = (Normal tt,
     mkMachine
       (MIDIIn.mkDevice (out ri_open) (ret ri_event) Receiver []
                        MIDIIn.OPENED)
       (mkWorld (trace w ++ [(midiInOpen DeviceId, ri_open);
                             (CreateEvent, ri_event)])
                (set_signal (signaled w) (ret ri_event) false)))
  /\
  MIDIOut.CMIDIOutDevice_ctor_open os_out DeviceId
    (mkMachine (MIDIOut.under_construction DevHandle0 Event0) w)
  = (Normal tt,
     mkMachine
       (MIDIOut.mkDevice (out ro_open) (ret ro_event) [] MIDIOut.OPENED)
       (mkWorld (trace w ++ [(CreateThread, ro_thread);
                             (midiOutOpen DeviceId, ro_open);
                             (CreateEvent, ro_event)])
                (set_signal (signaled w) (ret ro_event) false))).
Proof.
  destruct w as [tr sg]. cbv zeta. cbn [trace signaled].
  intros Hio Hie Hot Hoo Hoe.
  apply Z.eqb_neq in Hie, Hot, Hoe.
  replace (tr ++ [(CreateThread, os_out tr CreateThread);
                  (midiOutOpen DeviceId,
                   os_out (tr ++ [(CreateThread, os_out tr CreateThread)])
                          (midiOutOpen DeviceId))])
    with ((tr ++ [(CreateThread, os_out tr CreateThread)])
          ++ [(midiOutOpen DeviceId,
               os_out (tr ++ [(CreateThread, os_out tr CreateThread)])
                      (midiOutOpen DeviceId))]) in *
    by (rewrite <- app_assoc; reflexivity).
  split.
  - unfold MIDIIn.CMIDIInDevice_ctor_open, MIDIIn.Open, MIDIIn.CreateEvent,
      MIDIIn.Close, MIDIIn.under_construction.
    unfold bind, mret, get, modify, sys, do_call, throw, rethrow. cbn.
    rewrite Hio. cbn. rewrite Hie. cbn.
    rewrite <- !app_assoc. reflexivity.
  - unfold MIDIOut.CMIDIOutDevice_ctor_open, MIDIOut.Open,
      MIDIOut.CreateEvent, MIDIOut.Close, MIDIOut.under_construction.
    unfold bind, mret, get, modify, sys, do_call, throw, rethrow. cbn.
    rewrite Hot. cbn. rewrite Hoo. cbn. rewrite Hoe. cbn.
    rewrite <- !app_assoc. reflexivity.
Qed.

(** X24: when the driver rejects the open call, the opening constructor
    of the output device throws the driver's code without creating the
    event; the [SetEvent] of [Open] is then called on the value that
    [m_Event] held before any event was created. *)
Theorem Out_ctor_rejected_open_sets_uncreated_event
        (os : Oracle) (DeviceId DevHandle0 Event0 : Z) (w : World) :
  let rt := os (trace w) CreateThread in
  let ro := os (trace w ++ [(CreateThread, rt)]) (midiOutOpen DeviceId) in
  ret rt <> NULL ->
  ret ro <> MMSYSERR_NOERROR ->
  exists rs,
    fst (MIDIOut.CMIDIOutDevice_ctor_open os DeviceId
           (mkMachine (MIDIOut.under_construction DevHandle0 Event0) w))
    = Throw (Cpp.mkExn Cpp.CMIDIOutException (ret ro)) /\
    trace (world (snd (MIDIOut.CMIDIOutDevice_ctor_open os DeviceId
             (mkMachine (MIDIOut.under_construction DevHandle0 Event0) w))))
    = trace w ++ [(CreateThread, rt); (midiOutOpen DeviceId, ro);
                  (SetEvent Event0, rs)].
Proof.
  destruct w as [tr sg]. cbv zeta. cbn [trace]. intros Hrt Hro.
  apply Z.eqb_neq in Hrt, Hro.
  unfold MIDIOut.CMIDIOutDevice_ctor_open, MIDIOut.Open,
    MIDIOut.CreateEvent, MIDIOut.Close, MIDIOut.under_construction.
  unfold bind, mret, get, modify, sys, do_call, throw, rethrow. cbn.
  rewrite Hrt. cbn. rewrite Hro. cbn.
  eexists. split; [reflexivity|]. rewrite <- !app_assoc. reflexivity.
Qed.

(** X25: closing twice is closing once.  After a [Close] of the input
    device that returned normally, and after any [Close] of the output
    device, a second [Close] returns normally and changes nothing. *)
Theorem Close_twice
        (os_in os_out : Oracle)
        (mi : Machine MIDIIn.CMIDIInDevice)
        (mo : Machine MIDIOut.CMIDIOutDevice) :
  fst (MIDIIn.Close os_in mi) = Normal tt ->
  MIDIIn.Close os_in (snd (MIDIIn.Close os_in mi))
  = (Normal tt, snd (MIDIIn.Close os_in mi)) /\
  MIDIOut.Close os_out (snd (MIDIOut.Close os_out mo))
  = (Normal tt, snd (MIDIOut.Close os_out mo)).
Proof.
  intros Hf. split.
  - apply Close_closed.
    destruct (Close_effect os_in mi) as (delta & _ & _ & _ & Hcase).
    destruct Hcase as [(_ & Hthis)|(code & Hthrow & _)].
    + rewrite Hthis. reflexivity.
    + rewrite Hthrow in Hf. discriminate.
  - apply Out_Close_closed.
    apply (Out_Close_never_throws os_out mo).
Qed.

(** X26: on the input device the session and the driver agree on the
    handles that are open, through [Close] and [Open] whatever the
    driver answers; and after an [Open] that returns normally the driver
    has exactly one handle open, the one the session is opened on. *)
Theorem In_Open_leaves_one_driver_handle
        (os : Oracle) (DeviceId : Z) (m : Machine MIDIIn.CMIDIInDevice) :
  MIDIIn.session_holds m ->
  MIDIIn.session_holds (snd (MIDIIn.Close os m)) /\
  MIDIIn.session_holds (snd (MIDIIn.Open os DeviceId m)) /\
  (fst (MIDIIn.Open os DeviceId m) = Normal tt ->
   MIDIIn.m_State (this (snd (MIDIIn.Open os DeviceId m))) = MIDIIn.OPENED /\
   MIDIIn.driver_handles (trace (world (snd (MIDIIn.Open os DeviceId m))))
   = [MIDIIn.m_DevHandle (this (snd (MIDIIn.Open os DeviceId m)))]).
Proof.
  intros Hh. split; [apply Close_session_holds; exact Hh|].
  apply Open_session_holds. exact Hh.
Qed.

End SessionsMore.

(* ================================================================= *)
(** ** The further theorems at concrete sessions *)

Section InstancesMore.
Import Win Script Observe.

Lemma buffers_added_while_recording_are_reclaimed_witness :
  MIDIIn.m_State (this in_recording) = MIDIIn.RECORDING /\
  fst (MIDIIn.sequence
         (map (fun b => MIDIIn.AddSysExBuffer (driver nothing 0)
                                              (fst b) (snd b))
              two_buffers)
         in_recording)
  = Normal tt /\
  exists m2 d1 d2,
    MIDIIn.prepared d1 = [MIDIIn.mkHeader 11 800 64; MIDIIn.mkHeader 11 900 64] /\
    MIDIIn.reclaimed d2
    = [MIDIIn.mkHeader 11 500 16; MIDIIn.mkHeader 11 600 32;
       MIDIIn.mkHeader 11 800 64; MIDIIn.mkHeader 11 900 64] /\
    MIDIIn.m_HdrQueue (this m2) = [].
Proof.
  split; [reflexivity|]. split; [reflexivity|].
  destruct (buffers_added_while_recording_are_reclaimed
              (driver nothing 0) two_buffers in_recording
              (snd (MIDIIn.sequence
                      (map (fun b => MIDIIn.AddSysExBuffer (driver nothing 0)
                                                           (fst b) (snd b))
                           two_buffers)
                      in_recording))
              eq_refl eq_refl)
    as (m2 & d1 & d2 & _ & Hp & _ & Hq & _ & _ & Hr & _ & Hq2).
  exists m2, d1, d2. split; [exact Hp|]. split; [|exact Hq2].
  rewrite Hr, Hq. reflexivity.
Defined.

Lemma recording_calls_out_of_state_do_nothing_witness :
  MIDIIn.m_State (this in_recording) <> MIDIIn.OPENED /\
  MIDIIn.m_State (this in_opened) <> MIDIIn.RECORDING /\
  MIDIIn.StartRecording (driver nothing 0) in_recording
  = (Normal tt, in_recording) /\
  MIDIIn.StopRecording (driver nothing 0) in_opened = (Normal tt, in_opened).
Proof.
  split; [discriminate|]. split; [discriminate|].
  apply (recording_calls_out_of_state_do_nothing
           (driver nothing 0) in_recording in_opened); discriminate.
Defined.

Lemma start_then_stop_restores_witness :
  MIDIIn.m_State (this in_opened) = MIDIIn.OPENED /\
  fst (MIDIIn.StartRecording (driver nothing 0) in_opened) = Normal tt /\
  MIDIIn.IsRecording
    (this (snd (MIDIIn.StartRecording (driver nothing 0) in_opened)))
  = true.
Proof.
  split; [reflexivity|]. split; [reflexivity|].
  exact (proj1 (start_then_stop_restores
                  (driver nothing 0) in_opened
                  (snd (MIDIIn.StartRecording (driver nothing 0) in_opened))
                  eq_refl eq_refl)).
Defined.

Lemma MidiInProc_outside_recording_witness :
  MIDIIn.m_State (this in_opened) <> MIDIIn.RECORDING /\
  MIDIIn.MidiInProc (driver nothing 0) one_header
                    MIDIIn.MIM_LONGDATA 4096 77 in_opened
  = ([], in_opened).
Proof.
  split; [discriminate|].
  exact (proj1 (MidiInProc_outside_recording
                  (driver nothing 0) one_header 4096 77 in_opened
                  ltac:(discriminate))).
Defined.

Lemma MidiInProc_recording_delivers_then_signals_witness :
  MIDIIn.m_State (this in_recording) = MIDIIn.RECORDING /\
  exists r1 r2,
    MIDIIn.MidiInProc (driver nothing 0) one_header
                      MIDIIn.MIM_LONGDATA 4096 77 in_recording
    = ([MIDIIn.mkDelivery 33 (MIDIIn.ReceiveMsg_long 500 12 77) fresh_world],
       mkMachine (this in_recording)
                 (mkWorld [(SetEvent 22, r1)]
                          (set_signal no_signal 22 true))) /\
    MIDIIn.MidiInProc (driver nothing 0) one_header
                      MIDIIn.MIM_LONGERROR 4096 77 in_recording
    = ([MIDIIn.mkDelivery 33 (MIDIIn.OnError_long 500 12 77) fresh_world],
       mkMachine (this in_recording)
                 (mkWorld [(SetEvent 22, r2)]
                          (set_signal no_signal 22 true))).
Proof.
  split; [reflexivity|].
  exact (MidiInProc_recording_delivers_then_signals
           (driver nothing 0) one_header 4096 77 in_recording eq_refl).
Defined.

Lemma completion_reclaims_oldest_witness :
  MIDIIn.m_State (this in_recording) = MIDIIn.RECORDING /\
  MIDIIn.m_HdrQueue (this in_recording)
  = MIDIIn.mkHeader 11 500 16 :: [MIDIIn.mkHeader 11 600 32] /\
  exists r1 r2,
    MIDIIn.HeaderProc_step (driver nothing 0) MIDIIn.AtWait
      (snd (MIDIIn.MidiInProc (driver nothing 0) one_header
                              MIDIIn.MIM_LONGDATA 4096 77 in_recording))
    = (MIDIIn.AtLoopTest,
       mkMachine
         (MIDIIn.with_HdrQueue [MIDIIn.mkHeader 11 600 32]
                               (this in_recording))
         (mkWorld [(SetEvent 22, r1);
                   (midiInUnprepareHeader 11 500 16, r2)]
                  (set_signal (set_signal no_signal 22 true) 22 false))).
Proof.
  split; [reflexivity|]. split; [reflexivity|].
  destruct (completion_reclaims_oldest
              (driver nothing 0) one_header 4096 77 in_recording
              (MIDIIn.mkHeader 11 500 16) [MIDIIn.mkHeader 11 600 32]
              eq_refl eq_refl) as (r1 & r2 & E & _).
  exists r1, r2. exact E.
Defined.

Lemma two_completions_reclaim_one_witness :
  MIDIIn.m_State (this in_recording) = MIDIIn.RECORDING /\
  MIDIIn.m_HdrQueue (this in_recording)
  = MIDIIn.mkHeader 11 500 16 :: [MIDIIn.mkHeader 11 600 32] /\
  (2 <= 5)%nat /\
  MIDIIn.m_HdrQueue
    (this (snd (MIDIIn.HeaderProc_run (driver nothing 0) 5 MIDIIn.AtWait
                  (snd (MIDIIn.MidiInProc (driver nothing 0) one_header
                          MIDIIn.MIM_LONGDATA 4100 78
                          (snd (MIDIIn.MidiInProc (driver nothing 0)
                                  one_header MIDIIn.MIM_LONGDATA 4096 77
                                  in_recording)))))))
  = [MIDIIn.mkHeader 11 600 32].
Proof.
  split; [reflexivity|]. split; [reflexivity|].
  split; [repeat constructor|].
  exact (proj1 (proj2 (two_completions_reclaim_one
                         (driver nothing 0) one_header 4096 77 4100 78 5%nat
                         in_recording
                         (MIDIIn.mkHeader 11 500 16)
                         [MIDIIn.mkHeader 11 600 32]
                         eq_refl eq_refl ltac:(repeat constructor)))).
Defined.

Lemma Out_Close_reclaims_all_witness :
  MIDIOut.m_State (this out_opened) = MIDIOut.OPENED /\
  exists r1 delta rc,
    MIDIOut.Close (driver nothing 0) out_opened
    = (Normal tt,
       mkMachine
         (MIDIOut.with_HdrQueue []
            (MIDIOut.with_State MIDIOut.CLOSED (this out_opened)))
         (mkWorld ([] ++ [(SetEvent 22, r1)] ++ delta
                      ++ [(midiOutClose 11, rc)])
                  (set_signal no_signal 22 true))) /\
    MIDIOut.reclaimed delta = [MIDIOut.mkHeader 11 700 8] /\
    count_calls is_winmm delta = 1%nat.
Proof.
  split; [reflexivity|].
  exact (Out_Close_reclaims_all (driver nothing 0) out_opened eq_refl).
Defined.

Lemma Out_completion_reclaims_oldest_witness :
  MIDIOut.m_State (this out_opened) = MIDIOut.OPENED /\
  MIDIOut.m_HdrQueue (this out_opened) = MIDIOut.mkHeader 11 700 8 :: [] /\
  MIDIOut.MidiOutProc (driver nothing 0) MIDIOut.MOM_OTHER out_opened
  = (Normal tt, out_opened).
Proof.
  split; [reflexivity|]. split; [reflexivity|].
  exact (proj1 (Out_completion_reclaims_oldest
                  (driver nothing 0) out_opened
                  (MIDIOut.mkHeader 11 700 8) [] eq_refl eq_refl)).
Defined.

Lemma Out_Close_ends_worker_witness :
  MIDIOut.m_State (this out_opened) = MIDIOut.OPENED /\
  fst (MIDIOut.HeaderProc_run (driver nothing 0) 2 MIDIOut.AtWait
         (snd (MIDIOut.Close (driver nothing 0) out_opened)))
  = MIDIOut.Finished.
Proof.
  split; [reflexivity|].
  exact (proj1 (Out_Close_ends_worker
                  (driver nothing 0) out_opened MIDIOut.AtWait eq_refl)).
Defined.

Lemma Out_Open_failure_witness :
  MIDIOut.Open (driver rejects_CreateThread 0) 0 out_opened
  = (Throw (Cpp.mkExn Cpp.CMIDIOutThreadFailure 0),
     snd (MIDIOut.Open (driver rejects_CreateThread 0) 0 out_opened)) /\
  MIDIOut.IsOpen
    (this (snd (MIDIOut.Open (driver rejects_CreateThread 0) 0 out_opened)))
  = false.
Proof.
  split; [reflexivity|].
  exact (proj1 (Out_Open_failure
                  (driver rejects_CreateThread 0) 0 out_opened
                  (snd (MIDIOut.Open (driver rejects_CreateThread 0) 0
                                     out_opened))
                  (Cpp.mkExn Cpp.CMIDIOutThreadFailure 0)
                  eq_refl)).
Defined.

Lemma Close_after_Open_closes_that_handle_witness :
  MIDIIn.Open (driver nothing 0) 0 in_recording
  = (Normal tt, snd (MIDIIn.Open (driver nothing 0) 0 in_recording)) /\
  MIDIOut.Open (driver nothing 0) 0 out_opened
  = (Normal tt, snd (MIDIOut.Open (driver nothing 0) 0 out_opened)) /\
  exists pre ro rc,
    trace (world (snd (MIDIIn.Open (driver nothing 0) 0 in_recording)))
    = trace (world in_recording) ++ pre ++ [(midiInOpen 0, ro)] /\
    trace (world (snd (MIDIIn.Close (driver nothing 0)
                         (snd (MIDIIn.Open (driver nothing 0) 0
                                           in_recording)))))
    = trace (world (snd (MIDIIn.Open (driver nothing 0) 0 in_recording)))
      ++ [(midiInClose (out ro), rc)].
Proof.
  split; [reflexivity|]. split; [reflexivity|].
  destruct (Close_after_Open_closes_that_handle
              (driver nothing 0) (driver nothing 0) 0
              in_recording
              (snd (MIDIIn.Open (driver nothing 0) 0 in_recording))
              out_opened
              (snd (MIDIOut.Open (driver nothing 0) 0 out_opened))
              eq_refl eq_refl)
    as [(pre & ro & rc & H1 & H2 & _) _].
  exists pre, ro, rc. split; [exact H1 | exact H2].
Defined.

Lemma opening_constructors_success_witness :
  ret (driver nothing 0 [] (midiInOpen 0)) = MMSYSERR_NOERROR /\
  ret (driver nothing 0 [] CreateThread) <> NULL /\
  fst (MIDIIn.CMIDIInDevice_ctor_open (driver nothing 0) 0
         (mkMachine (MIDIIn.under_construction 1 2 3) fresh_world))
  = Normal tt /\
  fst (MIDIOut.CMIDIOutDevice_ctor_open (driver nothing 0) 0
         (mkMachine (MIDIOut.under_construction 1 2) fresh_world))
  = Normal tt.
Proof.
  split; [reflexivity|]. split; [discriminate|].
  destruct (opening_constructors_success
              (driver nothing 0) (driver nothing 0) 0 1 2 3 fresh_world
              eq_refl ltac:(discriminate) ltac:(discriminate)
              eq_refl ltac:(discriminate)) as [Hi Ho].
  split; [rewrite Hi | rewrite Ho]; reflexivity.
Defined.

Lemma Out_ctor_rejected_open_sets_uncreated_event_witness :
  ret (driver rejects_midiOutOpen MMSYSERR_BADDEVICEID [] CreateThread)
  <> NULL /\
  exists rs,
    fst (MIDIOut.CMIDIOutDevice_ctor_open
           (driver rejects_midiOutOpen MMSYSERR_BADDEVICEID) 9
           (mkMachine (MIDIOut.under_construction 1 2) fresh_world))
    = Throw (Cpp.mkExn Cpp.CMIDIOutException MMSYSERR_BADDEVICEID) /\
    trace (world (snd (MIDIOut.CMIDIOutDevice_ctor_open
             (driver rejects_midiOutOpen MMSYSERR_BADDEVICEID) 9
             (mkMachine (MIDIOut.under_construction 1 2) fresh_world))))
    = [] ++ [(CreateThread, mkReply 100 0);
             (midiOutOpen 9, mkReply MMSYSERR_BADDEVICEID 0);
             (SetEvent 2, rs)].
Proof.
  split; [discriminate|].
  exact (Out_ctor_rejected_open_sets_uncreated_event
           (driver rejects_midiOutOpen MMSYSERR_BADDEVICEID) 9 1 2
           fresh_world ltac:(discriminate) ltac:(discriminate)).
Defined.

Lemma Close_twice_witness :
  fst (MIDIIn.Close (driver nothing 0) in_recording) = Normal tt /\
  MIDIIn.Close (driver nothing 0)
               (snd (MIDIIn.Close (driver nothing 0) in_recording))
  = (Normal tt, snd (MIDIIn.Close (driver nothing 0) in_recording)) /\
  MIDIOut.Close (driver nothing 0)
                (snd (MIDIOut.Close (driver nothing 0) out_opened))
  = (Normal tt, snd (MIDIOut.Close (driver nothing 0) out_opened)).
Proof.
  split; [reflexivity|].
  exact (Close_twice (driver nothing 0) (driver nothing 0)
                     in_recording out_opened eq_refl).
Defined.

Lemma In_Open_leaves_one_driver_handle_witness :
  MIDIIn.session_holds (snd (MIDIIn.Open (driver nothing 0) 0 in_fresh)) /\
  MIDIIn.driver_handles
    (trace (world (snd (MIDIIn.Open (driver nothing 0) 0 in_fresh))))
  = [100] /\
  MIDIIn.driver_handles
    (trace (world (snd (MIDIIn.Open
                          (driver nothing 0) 1
                          (snd (MIDIIn.Open (driver nothing 0) 0
                                            in_fresh))))))
  = [MIDIIn.m_DevHandle
       (this (snd (MIDIIn.Open
                     (driver nothing 0) 1
                     (snd (MIDIIn.Open (driver nothing 0) 0 in_fresh)))))].
Proof.
  split; [reflexivity|]. split; [reflexivity|].
  exact (proj2 (proj2 (proj2 (In_Open_leaves_one_driver_handle
                                (driver nothing 0) 1
                                (snd (MIDIIn.Open (driver nothing 0) 0
                                                  in_fresh))
                                eq_refl)) eq_refl)).
Defined.

(** A push that finds no memory, on both devices: the allocator gives
    the header and nothing after it.  The buffer is prepared and
    accepted by the driver, [std::bad_alloc] leaves the call, and the
    queue does not hold the header. *)
Lemma AddSysExBuffer_push_without_memory :
  MIDIIn.AddSysExBuffer one_allocation 500 16 in_opened
  = (Throw (Cpp.mkExn Cpp.std_bad_alloc 0),
     mkMachine (this in_opened)
       (mkWorld [(operator_new, mkReply 100 0);
                 (midiInPrepareHeader 11 500 16, mkReply MMSYSERR_NOERROR 0);
                 (midiInAddBuffer 11 500 16, mkReply MMSYSERR_NOERROR 0);
                 (operator_new, mkReply NULL 0)]
                no_signal)).
Proof. reflexivity. Qed.

Lemma Out_SendMsg_long_push_without_memory :
  MIDIOut.SendMsg_long one_allocation 500 16 out_opened
  = (Throw (Cpp.mkExn Cpp.std_bad_alloc 0),
     mkMachine (this out_opened)
       (mkWorld [(operator_new, mkReply 100 0);
                 (midiOutPrepareHeader 11 500 16, mkReply MMSYSERR_NOERROR 0);
                 (midiOutLongMsg 11 500 16, mkReply MMSYSERR_NOERROR 0);
                 (operator_new, mkReply NULL 0)]
                no_signal)).
Proof. reflexivity. Qed.

End InstancesMore.
